(** * pdm import: merging imported metadata into a pyproject manifest

    A shallow embedding of [pdm/cli/commands/import_cmd.py]
    ([Command.do_import] and its local helper [req_get_stem]) and the
    properties of the reconciliation of the [build-system] table, of the
    stem of a requirement and of the [requires-python] default. *)

From Stdlib Require Import String Ascii List Bool Arith ZArith Lia
  DecimalString.
Import ListNotations.
Open Scope string_scope.

(** ** Documents

    The manifest is a tomlkit document: an ordered tree of tables whose
    bodies hold keyed items and comments.  Plain Python dictionaries (the
    converter's output, the default backend's declaration) are tables
    without comments.  Python [str] is modelled by [string]. *)

#[warnings="-register-all"]
Inductive value : Type :=
| VStr (s : string)
| VBool (b : bool)
| VInt (n : Z)
| VList (items : list value)
| VTable (body : list entry)
with entry : Type :=
| Item (key : string) (v : value)
| Comment (text : string).

Definition dict := list entry.

(** [d[key]] / [d.get(key)] : the first item stored under [key]. *)
Fixpoint lookup (key : string) (d : dict) : option value :=
  match d with
  | [] => None
  | Item k v :: rest => if String.eqb k key then Some v else lookup key rest
  | Comment _ :: rest => lookup key rest
  end.

(** [key in d] *)
Definition contains (key : string) (d : dict) : bool :=
  match lookup key d with Some _ => true | None => false end.

(** [d[key] = v] : the item is replaced where it stands, a new key goes to
    the end of the body. *)
Fixpoint set_item (key : string) (v : value) (d : dict) : dict :=
  match d with
  | [] => [Item key v]
  | Item k w :: rest =>
      if String.eqb k key then Item k v :: rest
      else Item k w :: set_item key v rest
  | Comment c :: rest => Comment c :: set_item key v rest
  end.

(** The keys of a dictionary, in order. *)
Fixpoint keys (d : dict) : list string :=
  match d with
  | [] => []
  | Item k _ :: rest => k :: keys rest
  | Comment _ :: rest => keys rest
  end.

(** [d.pop(key)] : the value and the remaining dictionary, [None] for the
    [KeyError]. *)
Fixpoint pop (key : string) (d : dict) : option (value * dict) :=
  match d with
  | [] => None
  | Item k v :: rest =>
      if String.eqb k key then Some (v, rest)
      else match pop key rest with
           | Some (x, rest') => Some (x, Item k v :: rest')
           | None => None
           end
  | Comment c :: rest =>
      match pop key rest with
      | Some (x, rest') => Some (x, Comment c :: rest')
      | None => None
      end
  end.

(** ** Regular expressions of [req_get_stem]

    The two patterns are built from character sets, a greedy [+] on a
    set, a greedy optional group, concatenation and [$].  [rmatch r s k]
    is the backtracking matcher of [re]: it tries the alternatives in
    Python's order and hands the rest of the subject to the continuation
    [k].  [$] (without [re.MULTILINE]) holds at the end of the subject
    and just before a newline that ends it. *)

Inductive regex : Type :=
| Class (p : ascii -> bool)
| Plus (p : ascii -> bool)
| Opt (r : regex)
| Seq (r1 r2 : regex)
| Eos.

Definition newline : ascii := "010"%char.

Fixpoint star_set {A : Type} (p : ascii -> bool) (s : string)
         (k : string -> option A) : option A :=
  match s with
  | String c s' =>
      if p c then
        match star_set p s' k with
        | Some r => Some r
        | None => k s
        end
      else k s
  | EmptyString => k s
  end.

Fixpoint rmatch {A : Type} (r : regex) (s : string)
         (k : string -> option A) : option A :=
  match r with
  | Class p =>
      match s with
      | String c s' => if p c then k s' else None
      | EmptyString => None
      end
  | Plus p =>
      match s with
      | String c s' => if p c then star_set p s' k else None
      | EmptyString => None
      end
  | Opt r1 =>
      match rmatch r1 s k with
      | Some x => Some x
      | None => k s
      end
  | Seq r1 r2 => rmatch r1 s (fun s' => rmatch r2 s' k)
  | Eos =>
      match s with
      | EmptyString => k s
      | String c EmptyString => if Ascii.eqb c newline then k s else None
      | _ => None
      end
  end.

(** [re.match] at the head of [s]: the rest of the subject after the
    match. *)
Definition match_here (r : regex) (s : string) : option string :=
  rmatch r s (fun rest => Some rest).

(** [re.sub(r, repl, s)] for a pattern that never matches the empty
    string (both patterns below: [space_matches_one] and
    [suffix_match_shorter]).  The scan goes left to right; [skip] counts
    the characters of the current match that are still to be dropped. *)
Fixpoint re_sub_from (r : regex) (repl : string) (skip : nat) (s : string)
  : string :=
  match s with
  | EmptyString => EmptyString
  | String c s' =>
      match skip with
      | S n => re_sub_from r repl n s'
      | O =>
          match match_here r s with
          | Some rest =>
              if Nat.ltb (String.length rest) (String.length s)
              then repl ++ re_sub_from r repl
                     (String.length s - String.length rest - 1) s'
              else String c (re_sub_from r repl 0 s')
          | None => String c (re_sub_from r repl 0 s')
          end
      end
  end.

Definition re_sub (r : regex) (repl : string) (s : string) : string :=
  re_sub_from r repl 0 s.

Definition is_char (a : ascii) : ascii -> bool := fun c => Ascii.eqb c a.

Definition one_of (set : string) : ascii -> bool :=
  fun c => existsb (Ascii.eqb c) (list_ascii_of_string set).

(** The pattern [" "]. *)
Definition space_re : regex := Class (is_char " ").

(** The pattern [(\[[^]]+\])?([<=>~]+[0-9.]+$)]. *)
Definition suffix_re : regex :=
  Seq (Opt (Seq (Class (is_char "["))
                (Seq (Plus (fun c => negb (Ascii.eqb c "]")))
                     (Class (is_char "]")))))
      (Seq (Plus (one_of "<=>~"))
           (Seq (Plus (one_of "0123456789.")) Eos)).

(** [req_get_stem], lines 59-64. *)
Definition req_get_stem (req : string) : string :=
  let stem := req in
  let stem := re_sub space_re EmptyString stem in
  let stem := re_sub suffix_re EmptyString stem in
  stem.

(** ** Exceptions, the project and the collaborators *)

(** [PdmUsageError] is the only error the import raises itself.
    [KeyError] is the lookup of a missing key.  [TypeError] is what
    Python raises where an item is indexed by a string, assigned under
    a string or searched without being of a type that allows it.  In
    the build-system step it also stands for what the code does with a
    [build-system] entry that is no table, with a [requires] that is no
    array and with backends or requirements that are no strings, which
    this model leaves out: the properties of that step name these
    shapes.  [External] is an error of a collaborator, passed on
    unchanged. *)
Inductive exn : Type :=
| PdmUsageError (msg : string)
| KeyError (key : string)
| TypeError
| External (what : string).

(** [argparse.Namespace]: the attributes a converter reads. *)
Record Namespace : Type := { dev : bool; group : option string }.

(** What [resolve_interpreter] returns. *)
Record Python : Type := { major : nat; minor : nat }.

(** The project: the manifest document [project.pyproject._data] and the
    trace of the calls into the collaborators (notices of
    [project.core.ui.echo], calls of [convert] with format key, file name
    and options, calls of [resolve_interpreter] with their [in_import]
    flag, documents handed to [project.pyproject.write]). *)
Record Project : Type := {
  pyproject : dict;
  echoed : list string;
  converted : list (string * string * Namespace);
  resolved : list bool;
  written : list dict
}.

(** An entry of [FORMATS]. *)
Record Converter : Type := {
  check_fingerprint : Project -> string -> bool;
  convert : Project -> string -> Namespace -> exn + (dict * dict)
}.

(** [pdm.models.backends]: a backend and its [build_system()]. *)
Record Backend : Type := { build_system : dict }.

(** State and exceptions: a computation runs on the project and returns
    a value or raises, the project keeps what was done before the raise. *)
Definition M (A : Type) : Type := Project -> (exn + A) * Project.

Definition ret {A : Type} (a : A) : M A := fun p => (inr a, p).

Definition raise {A : Type} (e : exn) : M A := fun p => (inl e, p).

Definition bind {A B : Type} (m : M A) (f : A -> M B) : M B :=
  fun p =>
    match m p with
    | (inr a, p') => f a p'
    | (inl e, p') => (inl e, p')
    end.

Notation "x <- m ;; k" := (bind m (fun x => k))
  (at level 61, m at next level, right associativity).
Notation "m ;; k" := (bind m (fun _ => k))
  (at level 61, right associativity).

Definition lift {A : Type} (r : exn + A) : M A :=
  fun p => (r, p).

Definition get_pyproject : M dict := fun p => (inr (pyproject p), p).

Definition set_pyproject (d : dict) : M unit := fun p =>
  (inr tt, {| pyproject := d; echoed := echoed p;
              converted := converted p; resolved := resolved p;
              written := written p |}).

(** [project.core.ui.echo(msg)] *)
Definition echo (msg : string) : M unit := fun p =>
  (inr tt, {| pyproject := pyproject p; echoed := (echoed p ++ [msg])%list;
              converted := converted p; resolved := resolved p;
              written := written p |}).

(** [project.pyproject.write()] *)
Definition write : M unit := fun p =>
  (inr tt, {| pyproject := pyproject p; echoed := echoed p;
              converted := converted p; resolved := resolved p;
              written := (written p ++ [pyproject p])%list |}).

(** [text in s] for two strings: [text] occurs in [s]. *)
Fixpoint starts_with (text s : string) : bool :=
  match text, s with
  | EmptyString, _ => true
  | String a text', String b s' => Ascii.eqb a b && starts_with text' s'
  | String _ _, EmptyString => false
  end.

Fixpoint occurs (text msg : string) : bool :=
  starts_with text msg
  || match msg with
     | String _ msg' => occurs text msg'
     | EmptyString => false
     end.

(** [key in v], for a string [key]: a key of a table, a substring of a
    string, an element of an array; a boolean or an integer is not
    iterable. *)
Definition py_in (key : string) (v : value) : exn + bool :=
  match v with
  | VTable t => inr (contains key t)
  | VStr s => inr (occurs key s)
  | VList l =>
      inr (existsb
             (fun x => match x with
                       | VStr s => String.eqb s key
                       | _ => false
                       end) l)
  | VBool _ | VInt _ => inl TypeError
  end.

(** [v[key]], for a string [key]: only a table is indexed by a string. *)
Definition py_getitem (v : value) (key : string) : exn + value :=
  match v with
  | VTable t =>
      match lookup key t with
      | Some x => inr x
      | None => inl (KeyError key)
      end
  | _ => inl TypeError
  end.

(** [v[key] = x], for a string [key]. *)
Definition py_setitem (v : value) (key : string) (x : value) : exn + value :=
  match v with
  | VTable t => inr (VTable (set_item key x t))
  | _ => inl TypeError
  end.

(** [d[key]] where the code goes on to use the item as a table. *)
Definition get_table (key : string) (d : dict) : exn + dict :=
  match lookup key d with
  | Some (VTable t) => inr t
  | Some _ => inl TypeError
  | None => inl (KeyError key)
  end.

(** Iteration over an item that holds an array. *)
Definition as_list (v : value) : exn + list value :=
  match v with
  | VList l => inr l
  | _ => inl TypeError
  end.

(** Modelled from the spec: [pdm.cli.utils.merge_dictionary] is not part
    of the sources at hand.  The specification (4.2, step 3) merges each
    key of the input into the target: an absent key is inserted; when
    both sides are mappings they are merged recursively; otherwise the
    new value overwrites the old one.  For the array under [requires]
    (4.2, step 5, branch c) the specification states that the merge is
    additive: the existing entries stay, the new ones are appended; this
    is the reading taken for two arrays. *)
Fixpoint merge_table (input : value) (target : dict) {struct input}
  : dict :=
  match input with
  | VTable body =>
      (fix merge_items (items : list entry) (target : dict) {struct items}
         : dict :=
         match items with
         | [] => target
         | Comment _ :: rest => merge_items rest target
         | Item key v :: rest =>
             merge_items rest
               match lookup key target, v with
               | None, _ => (target ++ [Item key v])%list
               | Some (VTable old), VTable _ =>
                   set_item key (VTable (merge_table v old)) target
               | Some (VList old), VList new =>
                   set_item key (VList (old ++ new)%list) target
               | Some _, _ => set_item key v target
               end
         end) body target
  | _ => target
  end.

(** Modelled from the spec: [merge_dictionary(target, input)], the merge
    above for the entries of [input]; [pdm.cli.utils] is not part of the
    sources at hand. *)
Definition merge_dictionary (target : dict) (input : dict) : dict :=
  merge_table (VTable input) target.

(** Modelled from the spec: [merge_dictionary] called on an item of the
    manifest, whatever its type ([pdm.cli.utils] is not part of the
    sources at hand).  The merge goes key by key through the input
    (4.2, step 3): into a table it is the merge above; with no key in
    the input nothing is done to the target, whatever it is; a key
    cannot be inserted into, or looked up in, an item that is no table. *)
Definition merge_into (target : value) (input : dict) : exn + value :=
  match target with
  | VTable t => inr (VTable (merge_dictionary t input))
  | _ =>
      match keys input with
      | [] => inr target
      | _ :: _ => inl TypeError
      end
  end.

(** [d.add(key, v)] on a key that is absent. *)
Definition add (key : string) (v : value) (d : dict) : dict :=
  (d ++ [Item key v])%list.

(** The double quote of the messages. *)
Definition dq : string := String (ascii_of_nat 34) EmptyString.

(** [f"{n}"] for a non-negative integer. *)
Definition str_of_nat (n : nat) : string :=
  NilEmpty.string_of_uint (Nat.to_uint n).

(** Line 147: [f"{python.major}.{python.minor}"]. *)
Definition version_of (python : Python) : string :=
  str_of_nat (major python) ++ "." ++ str_of_nat (minor python).

(** The texts of the usage errors, lines 72, 115, 122 and 126-127. *)
Definition msg_no_format : string :=
  "Can't derive the file format automatically, please specify it via '-f/--format' option.".

Definition msg_cannot_create : string :=
  "Can't create [" ++ dq ++ "build-system" ++ dq
  ++ "] section in pyproject.toml with selected import method, please fill it manually.".

Definition msg_incomplete : string :=
  "Project's [" ++ dq ++ "build-system" ++ dq
  ++ "] section is incomplete, don't know how to proceed.".

Definition msg_disagree_head : string :=
  "Project's [" ++ dq ++ "build-system" ++ dq
  ++ "] section and the selected import method disagree on the build-backend value ".

Definition msg_disagree (found expected : string) : string :=
  msg_disagree_head
  ++ ("(found " ++ found ++ ", expected " ++ expected
      ++ "), don't know how to proceed.").

(** The texts of the notices, lines 111, 112, 143 and 150-151. *)
Definition msg_requires_set (requires : string) : string :=
  "The project's build dependencies have been set to " ++ requires.

Definition msg_backend_set (backend : string) : string :=
  "The project's build backend has been set to " ++ backend.

Definition msg_requires_python (python_version : string) : string :=
  "The project's [primary]requires-python[/] has been set to [primary]>="
  ++ (python_version ++ "[/]. You can change it later if necessary.").

(** The two comments of a new [project] table, lines 95-96. *)
Definition project_comments : dict :=
  [Comment "PEP 621 project metadata";
   Comment "See https://www.python.org/dev/peps/pep-0621/"].

(** Lines 81-84: [-build-requires] and [-build-backend] move from the
    imported metadata to [buildsystem_data]; a missing key is skipped. *)
Definition extract_buildsystem (project_data : dict) : dict * dict :=
  fold_left
    (fun (acc : dict * dict) (k : string) =>
       let (buildsystem_data, project_data) := acc in
       match pop ("-" ++ k) project_data with
       | Some (v, project_data') =>
           (set_item k v buildsystem_data, project_data')
       | None => (buildsystem_data, project_data)
       end)
    ["build-requires"; "build-backend"]
    ([], project_data).

(** [req_get_stem] on an item: [re.sub] wants a string. *)
Definition stem_of (v : value) : exn + string :=
  match v with
  | VStr req => inr (req_get_stem req)
  | _ => inl TypeError
  end.

(** Lines 133-135: the inner loop, [true] when it leaves by [break]. *)
Fixpoint has_stem (existing : list value) (build_req : value)
  : exn + bool :=
  match existing with
  | [] => inr false
  | existing_req :: rest =>
      match stem_of existing_req, stem_of build_req with
      | inr a, inr b =>
          if String.eqb a b then inr true else has_stem rest build_req
      | inl e, _ => inl e
      | _, inl e => inl e
      end
  end.

(** Lines 131-137: the requirements of the import whose stem no existing
    requirement has.  [requires] is [pybuildsystem["requires"]], read
    again at each turn of the outer loop. *)
Fixpoint new_requirements (requires : value) (build_requires : list value)
  : exn + list value :=
  match build_requires with
  | [] => inr []
  | build_req :: rest =>
      match as_list requires with
      | inl e => inl e
      | inr existing =>
          match has_stem existing build_req with
          | inl e => inl e
          | inr found =>
              match new_requirements requires rest with
              | inl e => inl e
              | inr build_req_new =>
                  inr (if found then build_req_new
                       else build_req :: build_req_new)
              end
          end
      end
  end.

(** The parsed command line of [pdm import], lines 17-33: [-d/--dev],
    [-G/--group], [-f/--format] and the file name. *)
Record Options : Type := {
  opt_dev : bool;
  opt_group : option string;
  opt_format : option string;
  opt_filename : string
}.

(** What a converter reads of the parsed command line. *)
Definition namespace_of (options : Options) : Namespace :=
  {| dev := opt_dev options; group := opt_group options |}.

Section DoImport.

(** The collaborators: the registry of converters, the default
    backend, the interpreter resolver and the text that formatting
    gives for an item that is not a string. *)
Variable FORMATS : list (string * Converter).
Variable DEFAULT_BACKEND : Backend.
Variable resolve_interpreter : Project -> bool -> exn + Python.
Variable str_of_item : value -> string.

(** [f"{item}"] *)
Definition format_item (v : value) : string :=
  match v with
  | VStr s => s
  | _ => str_of_item v
  end.

(** Lines 66-75. *)
Definition select_format (filename : string) (format : option string)
  : M string :=
  fun project =>
    match format with
    | Some (String c f) => (inr (String c f), project)
    | _ =>
        match find (fun kc => check_fingerprint (snd kc) project filename)
                   FORMATS with
        | Some (key, _) => (inr key, project)
        | None => (inl (PdmUsageError msg_no_format), project)
        end
    end.

(** Lines 76-77. *)
Definition default_options (options : option Namespace) : Namespace :=
  match options with
  | None => {| dev := false; group := None |}
  | Some o => o
  end.

(** Line 78: [FORMATS[key].convert(project, filename, options)]. *)
Definition call_convert (key filename : string) (options : Namespace)
  : M (dict * dict) :=
  fun project =>
    match find (fun kc => String.eqb (fst kc) key) FORMATS with
    | None => (inl (KeyError key), project)
    | Some (_, converter) =>
        (convert converter project filename options,
         {| pyproject := pyproject project; echoed := echoed project;
            converted :=
              (converted project ++ [(key, filename, options)])%list;
            resolved := resolved project; written := written project |})
    end.

(** Line 146: [project.resolve_interpreter(in_import=...)]. *)
Definition call_resolve_interpreter (in_import : bool) : M Python :=
  fun project =>
    (resolve_interpreter project in_import,
     {| pyproject := pyproject project; echoed := echoed project;
        converted := converted project;
        resolved := (resolved project ++ [in_import])%list;
        written := written project |}).

(** Lines 86-87.  [setdefault] returns the [tool] item there is, or
    puts an empty table; the assignment of [pdm] needs a table. *)
Definition ensure_tool_pdm : M unit :=
  pyproject <- get_pyproject ;;
  missing <-
    lift match lookup "tool" pyproject with
         | None => inr true
         | Some tool =>
             match py_in "pdm" tool with
             | inr found => inr (negb found)
             | inl e => inl e
             end
         end ;;
  if missing : bool then
    let tool :=
      match lookup "tool" pyproject with
      | Some tool => tool
      | None => VTable []
      end in
    tool <- lift (py_setitem tool "pdm" (VTable [])) ;;
    set_pyproject (set_item "tool" tool pyproject)
  else ret tt.

(** Lines 88-92. *)
Definition normalize_build : M unit :=
  pyproject <- get_pyproject ;;
  tool <- lift (py_getitem (VTable pyproject) "tool") ;;
  pdm <- lift (py_getitem tool "pdm") ;;
  has_build <- lift (py_in "build" pdm) ;;
  if has_build : bool then
    build <- lift (py_getitem pdm "build") ;;
    match build with
    | VStr script =>
        let build :=
          VTable [Item "setup-script" (VStr script);
                  Item "run-setuptools" (VBool true)] in
        pdm <- lift (py_setitem pdm "build" build) ;;
        tool <- lift (py_setitem tool "pdm" pdm) ;;
        set_pyproject (set_item "tool" tool pyproject)
    | _ => ret tt
    end
  else ret tt.

(** Lines 93-96. *)
Definition ensure_project : M unit :=
  pyproject <- get_pyproject ;;
  if contains "project" pyproject then ret tt
  else set_pyproject (add "project" (VTable project_comments) pyproject).

(** Line 98. *)
Definition merge_project (project_data : dict) : M unit :=
  pyproject <- get_pyproject ;;
  project <- lift (py_getitem (VTable pyproject) "project") ;;
  project <- lift (merge_into project project_data) ;;
  set_pyproject (set_item "project" project pyproject).

(** Line 99. *)
Definition merge_settings (settings : dict) : M unit :=
  pyproject <- get_pyproject ;;
  tool <- lift (py_getitem (VTable pyproject) "tool") ;;
  pdm <- lift (py_getitem tool "pdm") ;;
  pdm <- lift (merge_into pdm settings) ;;
  tool <- lift (py_setitem tool "pdm" pdm) ;;
  set_pyproject (set_item "tool" tool pyproject).

(** Lines 100-143. *)
Definition reconcile_build_system (reset_backend : bool)
           (buildsystem_data : dict) : M unit :=
  pyproject <- get_pyproject ;;
  if reset_backend then
    set_pyproject
      (set_item "build-system" (VTable (build_system DEFAULT_BACKEND))
         pyproject)
  else if negb (contains "build-system" pyproject) then
    match lookup "build-backend" buildsystem_data,
          lookup "build-requires" buildsystem_data with
    | Some build_backend, Some build_requires =>
        let pybuildsystem :=
          merge_dictionary []
            [Item "requires" build_requires;
             Item "build-backend" build_backend] in
        set_pyproject (add "build-system" (VTable pybuildsystem) pyproject) ;;
        match lookup "requires" pybuildsystem,
              lookup "build-backend" pybuildsystem with
        | Some requires, Some backend =>
            echo (msg_requires_set (format_item requires)) ;;
            echo (msg_backend_set (format_item backend))
        | None, _ => raise (KeyError "requires")
        | _, None => raise (KeyError "build-backend")
        end
    | _, _ => raise (PdmUsageError msg_cannot_create)
    end
  else
    match lookup "build-backend" buildsystem_data,
          lookup "build-requires" buildsystem_data with
    | Some build_backend, Some build_requires =>
        pybuildsystem <- lift (get_table "build-system" pyproject) ;;
        match lookup "requires" pybuildsystem,
              lookup "build-backend" pybuildsystem with
        | Some requires, Some backend =>
            match backend, build_backend with
            | VStr found, VStr expected =>
                if String.eqb found expected then
                  imported <- lift (as_list build_requires) ;;
                  build_req_new <- lift (new_requirements requires imported) ;;
                  match build_req_new with
                  | [] => ret tt
                  | _ :: _ =>
                      let pybuildsystem :=
                        merge_dictionary pybuildsystem
                          [Item "requires" (VList build_req_new)] in
                      set_pyproject
                        (set_item "build-system" (VTable pybuildsystem)
                           pyproject) ;;
                      match lookup "requires" pybuildsystem with
                      | Some requires' =>
                          echo (msg_requires_set (format_item requires'))
                      | None => raise (KeyError "requires")
                      end
                  end
                else raise (PdmUsageError (msg_disagree found expected))
            | _, _ => raise TypeError
            end
        | _, _ => raise (PdmUsageError msg_incomplete)
        end
    | _, _ => ret tt
    end.

(** Lines 145-152. *)
Definition default_requires_python : M unit :=
  pyproject <- get_pyproject ;;
  project <- lift (py_getitem (VTable pyproject) "project") ;;
  present <- lift (py_in "requires-python" project) ;;
  if present : bool then ret tt
  else
    python <- call_resolve_interpreter true ;;
    let python_version := version_of python in
    project <-
      lift (py_setitem project "requires-python"
              (VStr (">=" ++ python_version))) ;;
    set_pyproject (set_item "project" project pyproject) ;;
    echo (msg_requires_python python_version).

(** Lines 86-96: the tables the merges need. *)
Definition scaffold : M unit :=
  ensure_tool_pdm ;;
  normalize_build ;;
  ensure_project.

(** Lines 66-99: the converter is chosen and called, the build-system
    keys are taken out of its metadata, the document gets its tables and
    the metadata and the settings are merged into it. *)
Definition import_metadata (filename : string) (format : option string)
           (options : option Namespace) : M dict :=
  key <- select_format filename format ;;
  let options := default_options options in
  converted <- call_convert key filename options ;;
  let (project_data, settings) := converted in
  let (buildsystem_data, project_data) :=
    extract_buildsystem project_data in
  scaffold ;;
  merge_project project_data ;;
  merge_settings settings ;;
  ret buildsystem_data.

(** [Command.do_import], lines 39-153. *)
Definition do_import (filename : string) (format : option string)
           (options : option Namespace) (reset_backend : bool) : M unit :=
  buildsystem_data <- import_metadata filename format options ;;
  reconcile_build_system reset_backend buildsystem_data ;;
  default_requires_python ;;
  write.

(** [Command.handle], lines 35-36: the command line's file name and
    format and the parsed options go to [do_import]; [reset_backend] is
    not passed and takes its default, [True]. *)
Definition handle (options : Options) : M unit :=
  do_import (opt_filename options) (opt_format options)
            (Some (namespace_of options)) true.

End DoImport.

(** ** Notions the properties are stated with *)

(** The shape the data model gives the manifest: [tool], [tool.pdm] and
    [project], where present, are tables. *)
Definition well_shaped (pyproject : dict) : bool :=
  match lookup "tool" pyproject with
  | None => true
  | Some (VTable tool) =>
      match lookup "pdm" tool with
      | None | Some (VTable _) => true
      | Some _ => false
      end
  | Some _ => false
  end
  &&
  match lookup "project" pyproject with
  | None | Some (VTable _) => true
  | Some _ => false
  end.

(** A message mentions a text when the text occurs in it. *)
Definition mentions (text msg : string) : Prop :=
  exists before after, msg = before ++ text ++ after.

(** The string without its spaces (U+0020). *)
Fixpoint remove_spaces (s : string) : string :=
  match s with
  | EmptyString => EmptyString
  | String c s' =>
      if Ascii.eqb c " " then remove_spaces s'
      else String c (remove_spaces s')
  end.

(** Python's whitespace: space, tab, line feed, vertical tab, form feed
    and carriage return. *)
Definition is_whitespace (c : ascii) : bool :=
  existsb (Ascii.eqb c) [" "; "009"; "010"; "011"; "012"; "013"]%char.

(** The specification's [normalize_whitespace] (section 8, with the
    stem algorithm of section 4.2): all whitespace is stripped. *)
Fixpoint normalize_whitespace (s : string) : string :=
  match s with
  | EmptyString => EmptyString
  | String c s' =>
      if is_whitespace c then normalize_whitespace s'
      else String c (normalize_whitespace s')
  end.

(** The only whitespace of the string is the space. *)
Fixpoint spaces_only (s : string) : bool :=
  match s with
  | EmptyString => true
  | String c s' =>
      (negb (is_whitespace c) || Ascii.eqb c " ") && spaces_only s'
  end.

Definition tab : string := String "009"%char EmptyString.

(** The requirements of the import that branch (c) adds to the existing
    ones: those whose stem none of the existing requirements has. *)
Definition same_stem (build_req existing_req : string) : bool :=
  String.eqb (req_get_stem existing_req) (req_get_stem build_req).

Definition added (existing build_requires : list string) : list string :=
  filter (fun build_req => negb (existsb (same_stem build_req) existing))
         build_requires.

(** ** A small installation, for the examples

    One converter that reads a [setup.py], a default backend, an
    interpreter 3.11. *)
Module Sample.

Definition setup_py_requires : list string :=
  ["setuptools>=40"; "cython>=3.0"].

Definition setup_py_data : dict :=
  [Item "name" (VStr "pkg");
   Item "-build-requires" (VList (map VStr setup_py_requires));
   Item "-build-backend" (VStr "setuptools.build_meta")].

Definition setuppy : Converter :=
  {| check_fingerprint := fun _ filename => String.eqb filename "setup.py";
     convert := fun _ _ _ => inr (setup_py_data, []) |}.

(** A converter that knows the backend only. *)
Definition backend_only : Converter :=
  {| check_fingerprint := fun _ filename => String.eqb filename "Pipfile";
     convert := fun _ _ _ =>
       inr ([Item "name" (VStr "pkg");
             Item "-build-backend" (VStr "setuptools.build_meta")], []) |}.

Definition FORMATS : list (string * Converter) :=
  [("pipfile", backend_only); ("setuppy", setuppy)].

Definition DEFAULT_BACKEND : Backend :=
  {| build_system :=
       [Item "requires" (VList [VStr "pdm-backend"]);
        Item "build-backend" (VStr "pdm.backend")] |}.

Definition resolve_interpreter (_ : Project) (_ : bool) : exn + Python :=
  inr {| major := 3; minor := 11 |}.

Definition str_of_item (v : value) : string :=
  match v with
  | VList l =>
      "[" ++ String.concat ", "
               (map (fun x => match x with
                              | VStr s => "'" ++ s ++ "'"
                              | _ => "..."
                              end) l)
      ++ "]"
  | _ => "..."
  end.

Definition project_of (pyproject : dict) : Project :=
  {| pyproject := pyproject; echoed := []; converted := [];
     resolved := []; written := [] |}.

Definition do_import :=
  do_import FORMATS DEFAULT_BACKEND resolve_interpreter str_of_item.

Definition empty : Project := project_of [].

(** A manifest of a setuptools project. *)
Definition setuptools_project : Project :=
  project_of
    [Item "project"
       (VTable [Item "name" (VStr "pkg");
                Item "requires-python" (VStr ">=3.8")]);
     Item "build-system"
       (VTable [Item "requires" (VList [VStr "setuptools>=61"; VStr "wheel"]);
                Item "build-backend" (VStr "setuptools.build_meta")])].

(** A manifest whose build-system names another backend. *)
Definition flit_project : Project :=
  project_of
    [Item "build-system"
       (VTable [Item "requires" (VList [VStr "flit_core>=3.2"]);
                Item "build-backend" (VStr "flit_core.buildapi")])].

(** A manifest whose build-system has the backend and no [requires]. *)
Definition backend_without_requires : Project :=
  project_of
    [Item "build-system"
       (VTable [Item "build-backend" (VStr "flit_core.buildapi")])].

(** The empty project after the import of [setup.py] with the reset of
    the backend. *)
Definition empty_imported : Project :=
  {| pyproject :=
       [Item "tool" (VTable [Item "pdm" (VTable [])]);
        Item "project"
          (VTable (project_comments ++
                   [Item "name" (VStr "pkg");
                    Item "requires-python" (VStr ">=3.11")])%list);
        Item "build-system" (VTable (build_system DEFAULT_BACKEND))];
     echoed := [msg_requires_python "3.11"];
     converted :=
       [("setuppy", "setup.py", {| dev := false; group := None |})];
     resolved := [true];
     written :=
       [[Item "tool" (VTable [Item "pdm" (VTable [])]);
         Item "project"
           (VTable (project_comments ++
                    [Item "name" (VStr "pkg");
                     Item "requires-python" (VStr ">=3.11")])%list);
         Item "build-system" (VTable (build_system DEFAULT_BACKEND))]] |}.

(** What the import of [setup.py] supplies for the build-system. *)
Definition setup_py_buildsystem : dict :=
  [Item "build-requires" (VList (map VStr setup_py_requires));
   Item "build-backend" (VStr "setuptools.build_meta")].


(** A converter that fails on its file, and a registry with it. *)
Definition broken : Converter :=
  {| check_fingerprint := fun _ filename => String.eqb filename "broken.cfg";
     convert := fun _ _ _ => inl (External "cannot parse broken.cfg") |}.

Definition FORMATS_with_broken : list (string * Converter) :=
  [("broken", broken); ("setuppy", setuppy)].

(** A manifest with the settings of another tool, a section of its own
    and the legacy string under [tool.pdm.build]. *)
Definition legacy_tool : dict :=
  [Item "black" (VTable [Item "line-length" (VInt 100)]);
   Item "pdm" (VTable [Item "build" (VStr "build.py");
                       Item "version" (VStr "1.0")])].

Definition legacy_project : Project :=
  project_of
    [Item "tool" (VTable legacy_tool);
     Item "dependency-groups" (VTable [Item "test" (VList [VStr "pytest"])])].

(** A converter whose metadata has a [requires-python] of its own, and
    a registry with it. *)
Definition pinned_data : dict :=
  [Item "name" (VStr "pkg"); Item "requires-python" (VStr ">=3.6")].

Definition pinned : Converter :=
  {| check_fingerprint := fun _ filename => String.eqb filename "pinned.cfg";
     convert := fun _ _ _ => inr (pinned_data, []) |}.

Definition FORMATS_with_pinned : list (string * Converter) :=
  [("pinned", pinned); ("setuppy", setuppy)].

(** A manifest whose [project] table has a name and no
    [requires-python]. *)
Definition named_project : Project :=
  project_of [Item "project" (VTable [Item "name" (VStr "old")])].

(** A manifest whose [tool.pdm] is a string. *)
Definition pdm_is_string : Project :=
  project_of [Item "tool" (VTable [Item "pdm" (VStr "x")])].

End Sample.

(** A computation keeps a relation when the project it leaves, whether
    it returns or raises, is related to the one it started from. *)
Definition keeps {A : Type} (R : Project -> Project -> Prop) (m : M A) : Prop :=
  forall p, R p (snd (m p)).


(** The build-system table is not touched. *)
Definition same_build_system (p p' : Project) : Prop :=
  lookup "build-system" (pyproject p') = lookup "build-system" (pyproject p).

(** The [project] table is not touched. *)
Definition same_project (p p' : Project) : Prop :=
  lookup "project" (pyproject p') = lookup "project" (pyproject p).

(** No notice, no interpreter resolution, no write. *)
Definition silent (p p' : Project) : Prop :=
  echoed p' = echoed p /\ resolved p' = resolved p /\ written p' = written p.

(** No call of a converter. *)
Definition same_converted (p p' : Project) : Prop :=
  converted p' = converted p.

(** The notices so far stay and others may follow. *)
Definition more_notices (p p' : Project) : Prop :=
  exists rest, echoed p' = (echoed p ++ rest)%list.


(** The tables the import works on are there. *)
Definition has_tables (p : Project) : Prop :=
  (exists project_table,
      lookup "project" (pyproject p) = Some (VTable project_table))
  /\ (exists tool pdm,
         lookup "tool" (pyproject p) = Some (VTable tool)
         /\ lookup "pdm" tool = Some (VTable pdm)).

(** The [project] table begins with the two comments of its creation. *)
Definition project_commented (p : Project) : Prop :=
  exists rest,
    lookup "project" (pyproject p)
    = Some (VTable (project_comments ++ rest)%list).

(** No interpreter resolution. *)
Definition same_resolved (p p' : Project) : Prop :=
  resolved p' = resolved p.

(** No write of the manifest. *)
Definition same_written (p p' : Project) : Prop :=
  written p' = written p.

(** The [tool] table is not touched. *)
Definition same_tool (p p' : Project) : Prop :=
  lookup "tool" (pyproject p') = lookup "tool" (pyproject p).

(** The manifest has no [tool] table or its [tool] table has no [pdm]. *)
Definition lacks_tool_pdm (pyproject : dict) : bool :=
  match lookup "tool" pyproject with
  | None => true
  | Some (VTable tool) => negb (contains "pdm" tool)
  | Some _ => false
  end.

(** The comments of a new [project] table stay at its head. *)
Definition comments_kept (p p' : Project) : Prop :=
  project_commented p -> project_commented p'.

(** The tables the import works on stay. *)
Definition tables_kept (p p' : Project) : Prop :=
  has_tables p -> has_tables p'.

(** Every character of the string is in the set. *)
Fixpoint all_chars (p : ascii -> bool) (s : string) : bool :=
  match s with
  | EmptyString => true
  | String c s' => p c && all_chars p s'
  end.

(** The characters of the sets of [suffix_re]. *)
Definition is_operator : ascii -> bool := one_of "<=>~".

Definition is_version_char : ascii -> bool := one_of "0123456789.".

(** A character that cannot begin a match of [suffix_re] and that the
    first substitution keeps. *)
Definition is_name_char (c : ascii) : bool :=
  negb (Ascii.eqb c "[") && negb (is_operator c) && negb (Ascii.eqb c " ").

(** A character of an extras group without spaces. *)
Definition is_extras_char (c : ascii) : bool :=
  negb (Ascii.eqb c "]") && negb (Ascii.eqb c " ").

(** The greedy [+] stops at the head of the string. *)
Definition stops (p : ascii -> bool) (s : string) : bool :=
  match s with
  | EmptyString => true
  | String c _ => negb (p c)
  end.

(** [format] is falsy: [None] or the empty string (line 66). *)
Definition no_format (format : option string) : bool :=
  match format with
  | Some (String _ _) => false
  | _ => true
  end.

(** The item under [key] of the manifest is not touched. *)
Definition same_key (key : string) (p p' : Project) : Prop :=
  lookup key (pyproject p') = lookup key (pyproject p).

(** The entries of [tool] beside [pdm] are not touched. *)
Definition tool_siblings_kept (p p' : Project) : Prop :=
  forall tool,
    lookup "tool" (pyproject p) = Some (VTable tool) ->
    exists tool',
      lookup "tool" (pyproject p') = Some (VTable tool')
      /\ forall key, key <> "pdm" -> lookup key tool' = lookup key tool.

(** A character that is no operator of a version constraint. *)
Definition is_not_operator (c : ascii) : bool := negb (is_operator c).

(** A character that is no space. *)
Definition is_not_space (c : ascii) : bool := negb (Ascii.eqb c " ").

(** * Properties *)

Example stem_extras_version : req_get_stem "foo[extra]>=1.2.3" = "foo".
Proof. reflexivity. Qed.

Example stem_version : req_get_stem "foo>=1.2.3" = "foo".
Proof. reflexivity. Qed.

Example stem_bare : req_get_stem "foo" = "foo".
Proof. reflexivity. Qed.

Example stem_spaces : req_get_stem "foo [extra] >= 1.2.3" = "foo".
Proof. reflexivity. Qed.

Example run_reset_on_empty :
  Sample.do_import "setup.py" None None true Sample.empty
  = (inr tt, Sample.empty_imported).
Proof. reflexivity. Qed.

(** ** The stem of a requirement *)

Lemma space_matches_one (s : string) :
  match_here space_re s
  = match s with
    | String c s' => if Ascii.eqb c " " then Some s' else None
    | EmptyString => None
    end.
Proof. destruct s; reflexivity. Qed.

Lemma re_sub_space (s : string) : re_sub space_re EmptyString s = remove_spaces s.
Proof.
  unfold re_sub.
  induction s as [|c s IH]; [reflexivity|].
  cbn [re_sub_from remove_spaces].
  rewrite space_matches_one.
  destruct (Ascii.eqb c " ").
  - assert (L : Nat.ltb (String.length s) (String.length (String c s)) = true)
      by (apply Nat.ltb_lt; cbn [String.length]; lia).
    rewrite L.
    replace (String.length (String c s) - String.length s - 1) with 0
      by (cbn [String.length]; lia).
    simpl. exact IH.
  - now rewrite IH.
Qed.

Lemma remove_spaces_idem (s : string) :
  remove_spaces (remove_spaces s) = remove_spaces s.
Proof.
  induction s as [|c s IH]; [reflexivity|].
  simpl. destruct (Ascii.eqb c " ") eqn:E; [exact IH|].
  simpl. now rewrite E, IH.
Qed.

Lemma normalize_spaces_only (s : string) :
  spaces_only s = true -> normalize_whitespace s = remove_spaces s.
Proof.
  induction s as [|c s IH]; [reflexivity|].
  simpl. intros H. apply andb_true_iff in H. destruct H as [Hc Hs].
  rewrite (IH Hs).
  destruct (Ascii.eqb c " ") eqn:E.
  - apply Ascii.eqb_eq in E. subst c. reflexivity.
  - rewrite orb_false_r in Hc. apply negb_true_iff in Hc. now rewrite Hc.
Qed.

(** The stem does not see the spaces of a requirement. *)
Lemma stem_remove_spaces (r : string) :
  req_get_stem (remove_spaces r) = req_get_stem r.
Proof.
  unfold req_get_stem. now rewrite !re_sub_space, remove_spaces_idem.
Qed.

(** C7: the stem is not insensitive to all whitespace.  Line 62 takes
    the space character away and nothing else, so a tab -- whitespace of
    a requirement string as much as the space -- stays in the stem: the
    requirement [foo<TAB>>=1.0] has the stem [foo<TAB>], its form
    without whitespace, [foo>=1.0], has the stem [foo], and the two
    stems differ. *)
Theorem stem_keeps_tab :
  req_get_stem ("foo" ++ tab ++ ">=1.0") = "foo" ++ tab
  /\ req_get_stem (normalize_whitespace ("foo" ++ tab ++ ">=1.0")) = "foo"
  /\ req_get_stem (normalize_whitespace ("foo" ++ tab ++ ">=1.0"))
     <> req_get_stem ("foo" ++ tab ++ ">=1.0").
Proof.
  split; [reflexivity|]. split; [reflexivity|].
  vm_compute. discriminate.
Qed.

(** What does hold: on a requirement string whose only whitespace is the
    space character, the stem of the string without its whitespace is
    the stem of the string. *)
Lemma stem_of_spaced (r : string) :
  spaces_only r = true ->
  req_get_stem (normalize_whitespace r) = req_get_stem r.
Proof.
  intros H. rewrite (normalize_spaces_only r H). apply stem_remove_spaces.
Qed.

Lemma stem_of_spaced_example :
  req_get_stem (normalize_whitespace "foo [extra] >= 1.2.3")
  = req_get_stem "foo [extra] >= 1.2.3".
Proof. apply stem_of_spaced. reflexivity. Qed.

(** C8: the three stems the claim lists are as it says, and the stem is
    not always the bare package name: the extras group goes only
    together with a version suffix, so [foo[extra]] keeps its extras and
    does not compare equal to [foo]. *)
Theorem stem_extras_need_version :
  req_get_stem "foo[extra]>=1.2.3" = "foo"
  /\ req_get_stem "foo>=1.2.3" = "foo"
  /\ req_get_stem "foo" = "foo"
  /\ req_get_stem "foo[extra]" = "foo[extra]"
  /\ req_get_stem "foo[extra]" <> req_get_stem "foo".
Proof.
  repeat split; try reflexivity.
  vm_compute. discriminate.
Qed.

Example stem_before_final_newline :
  req_get_stem (String "f" (String "o" (String "o" (String ">" (String "="
                 (String "1" (String newline EmptyString)))))))
  = String "f" (String "o" (String "o" (String newline EmptyString))).
Proof. reflexivity. Qed.

Example stem_two_constraints : req_get_stem "foo>=1.0,<2.0" = "foo>=1.0,".
Proof. reflexivity. Qed.

Example str_of_nat_examples :
  str_of_nat 0 = "0" /\ str_of_nat 3 = "3" /\ str_of_nat 11 = "11".
Proof. repeat split. Qed.

(** *** Requirements of the form name, extras, operator, version *)

Lemma string_app_nil (s : string) : s ++ EmptyString = s.
Proof. induction s as [|c s IH]; [reflexivity|]. cbn [append]. now rewrite IH. Qed.

Lemma star_set_greedy {A : Type} (p : ascii -> bool) (taken rest : string)
      (k : string -> option A) (r : A) :
  all_chars p taken = true ->
  stops p rest = true ->
  k rest = Some r ->
  star_set p (taken ++ rest) k = Some r.
Proof.
  intros Ht Hs Hk.
  induction taken as [|c taken IH]; cbn [append].
  - destruct rest as [|c rest]; cbn [star_set]; [exact Hk|].
    cbn [stops] in Hs. apply negb_true_iff in Hs. now rewrite Hs.
  - cbn [all_chars] in Ht. apply andb_true_iff in Ht. destruct Ht as [Hc Ht].
    cbn [star_set]. now rewrite Hc, (IH Ht).
Qed.

Lemma plus_greedy {A : Type} (p : ascii -> bool) (c : ascii)
      (taken rest : string) (k : string -> option A) (r : A) :
  all_chars p (String c taken) = true ->
  stops p rest = true ->
  k rest = Some r ->
  rmatch (Plus p) (String c taken ++ rest) k = Some r.
Proof.
  intros Ht Hs Hk. cbn [all_chars] in Ht.
  apply andb_true_iff in Ht. destruct Ht as [Hc Ht].
  cbn [append rmatch]. rewrite Hc. now apply star_set_greedy.
Qed.

Lemma version_char_not_operator (c : ascii) :
  is_version_char c = true -> is_operator c = false.
Proof.
  destruct c as [[] [] [] [] [] [] [] []]; intros H;
    solve [reflexivity | discriminate H].
Qed.

(** The version part with its operator matches up to the end. *)
Lemma match_operator_version (o : ascii) (ops : string) (v : ascii)
      (version : string) :
  all_chars is_operator (String o ops) = true ->
  all_chars is_version_char (String v version) = true ->
  rmatch (Seq (Plus is_operator) (Seq (Plus is_version_char) Eos))
         (String o ops ++ String v version) (fun rest => Some rest)
  = Some EmptyString.
Proof.
  intros Ho Hv. cbn [rmatch].
  apply plus_greedy; [exact Ho| |].
  - cbn [stops all_chars] in *. apply andb_true_iff in Hv.
    now rewrite (version_char_not_operator v (proj1 Hv)).
  - cbn [all_chars] in Hv. apply andb_true_iff in Hv.
    destruct Hv as [Hv Hversion]. rewrite Hv.
    rewrite <- (string_app_nil version).
    now apply star_set_greedy.
Qed.

Lemma name_char_no_match (c : ascii) (s : string) :
  is_name_char c = true -> match_here suffix_re (String c s) = None.
Proof.
  unfold is_name_char. intros H.
  apply andb_true_iff in H. destruct H as [H _].
  apply andb_true_iff in H. destruct H as [Hb Ho].
  apply negb_true_iff in Hb, Ho.
  unfold match_here, suffix_re. cbn [rmatch]. unfold is_char.
  fold is_operator. now rewrite Hb, Ho.
Qed.

Lemma re_sub_from_skip (r : regex) (s : string) :
  re_sub_from r EmptyString (String.length s) s = EmptyString.
Proof. induction s as [|c s IH]; [reflexivity|exact IH]. Qed.

(** A match that takes the whole rest of the subject removes it. *)
Lemma re_sub_from_whole (r : regex) (c : ascii) (s : string) :
  match_here r (String c s) = Some EmptyString ->
  re_sub_from r EmptyString 0 (String c s) = EmptyString.
Proof.
  intros H. cbn [re_sub_from]. rewrite H.
  cbn [String.length Nat.ltb Nat.leb Nat.sub append].
  rewrite Nat.sub_0_r. apply re_sub_from_skip.
Qed.

Lemma re_sub_from_name (name rest : string) :
  all_chars is_name_char name = true ->
  re_sub_from suffix_re EmptyString 0 (name ++ rest)
  = name ++ re_sub_from suffix_re EmptyString 0 rest.
Proof.
  induction name as [|c name IH]; [reflexivity|].
  cbn [all_chars]. intros H. apply andb_true_iff in H. destruct H as [Hc H].
  cbn [append re_sub_from]. rewrite (name_char_no_match _ _ Hc).
  now rewrite (IH H).
Qed.

Lemma remove_spaces_none (p : ascii -> bool) (s : string) :
  (forall c, p c = true -> Ascii.eqb c " " = false) ->
  all_chars p s = true -> remove_spaces s = s.
Proof.
  intros Hp. induction s as [|c s IH]; [reflexivity|].
  cbn [all_chars remove_spaces]. intros H.
  apply andb_true_iff in H. destruct H as [Hc H].
  now rewrite (Hp c Hc), (IH H).
Qed.

Lemma remove_spaces_app (a b : string) :
  remove_spaces (a ++ b) = remove_spaces a ++ remove_spaces b.
Proof.
  induction a as [|c a IH]; [reflexivity|].
  cbn [append remove_spaces]. destruct (Ascii.eqb c " "); [exact IH|].
  cbn [append]. now rewrite IH.
Qed.

Lemma rmatch_seq {A : Type} (r1 r2 : regex) (s : string)
      (k : string -> option A) :
  rmatch (Seq r1 r2) s k = rmatch r1 s (fun s' => rmatch r2 s' k).
Proof. reflexivity. Qed.

Lemma rmatch_class {A : Type} (p : ascii -> bool) (c : ascii) (s : string)
      (k : string -> option A) :
  p c = true -> rmatch (Class p) (String c s) k = k s.
Proof. intros H. cbn [rmatch]. now rewrite H. Qed.

Lemma rmatch_opt_taken {A : Type} (r : regex) (s : string)
      (k : string -> option A) (x : A) :
  rmatch r s k = Some x -> rmatch (Opt r) s k = Some x.
Proof. intros H. cbn [rmatch]. now rewrite H. Qed.

Lemma all_chars_weaken (p q : ascii -> bool) (s : string) :
  (forall c, p c = true -> q c = true) ->
  all_chars p s = true -> all_chars q s = true.
Proof.
  intros Hpq. induction s as [|c s IH]; [reflexivity|].
  cbn [all_chars]. intros H. apply andb_true_iff in H. destruct H as [Hc H].
  now rewrite (Hpq c Hc), (IH H).
Qed.

Lemma extras_char_not_bracket (c : ascii) :
  is_extras_char c = true -> negb (Ascii.eqb c "]") = true.
Proof. unfold is_extras_char. intros H. now apply andb_true_iff in H. Qed.

(** The extras group and the version part match up to the end. *)
Lemma match_extras_operator_version (e : ascii) (extras : string)
      (o : ascii) (ops : string) (v : ascii) (version : string) :
  all_chars is_extras_char (String e extras) = true ->
  all_chars is_operator (String o ops) = true ->
  all_chars is_version_char (String v version) = true ->
  match_here suffix_re
    (String "[" (String e extras
                 ++ String "]" (String o ops ++ String v version)))
  = Some EmptyString.
Proof.
  intros He Ho Hv.
  pose proof (match_operator_version o ops v version Ho Hv) as M.
  unfold match_here, suffix_re.
  rewrite rmatch_seq. apply rmatch_opt_taken.
  rewrite rmatch_seq, rmatch_class by reflexivity.
  rewrite rmatch_seq. apply plus_greedy.
  - exact (all_chars_weaken _ _ _ extras_char_not_bracket He).
  - reflexivity.
  - rewrite rmatch_class by reflexivity. exact M.
Qed.

(** The version part alone: the optional group is tried and left out. *)
Lemma match_operator_version_here (o : ascii) (ops : string) (v : ascii)
      (version : string) :
  all_chars is_operator (String o ops) = true ->
  all_chars is_version_char (String v version) = true ->
  match_here suffix_re (String o ops ++ String v version)
  = Some EmptyString.
Proof.
  intros Ho Hv.
  pose proof (match_operator_version o ops v version Ho Hv) as M.
  unfold match_here, suffix_re. rewrite rmatch_seq.
  cbn [rmatch append] in M |- *. unfold is_char.
  destruct (Ascii.eqb o "[") eqn:E.
  - apply Ascii.eqb_eq in E. subst o. discriminate Ho.
  - exact M.
Qed.

Lemma operator_not_space (c : ascii) :
  is_operator c = true -> Ascii.eqb c " " = false.
Proof.
  destruct c as [[] [] [] [] [] [] [] []]; intros H;
    solve [reflexivity | discriminate H].
Qed.

Lemma version_char_not_space (c : ascii) :
  is_version_char c = true -> Ascii.eqb c " " = false.
Proof.
  destruct c as [[] [] [] [] [] [] [] []]; intros H;
    solve [reflexivity | discriminate H].
Qed.

Lemma name_char_not_space (c : ascii) :
  is_name_char c = true -> Ascii.eqb c " " = false.
Proof.
  unfold is_name_char. intros H. apply andb_true_iff in H.
  now apply negb_true_iff.
Qed.

Lemma extras_char_not_space (c : ascii) :
  is_extras_char c = true -> Ascii.eqb c " " = false.
Proof.
  unfold is_extras_char. intros H. apply andb_true_iff in H.
  now apply negb_true_iff.
Qed.

(** Where the stem is the bare package name: on a requirement without
    spaces made of a name, an optional extras group and a version part
    of operators and a dotted number, the name having none of the
    characters that begin the suffix. *)
Theorem stem_of_versioned_requirement
        (name : string) (e : ascii) (extras : string)
        (o : ascii) (ops : string) (v : ascii) (version : string) :
  all_chars is_name_char name = true ->
  all_chars is_extras_char (String e extras) = true ->
  all_chars is_operator (String o ops) = true ->
  all_chars is_version_char (String v version) = true ->
  req_get_stem
    (name ++ String "[" (String e extras
                         ++ String "]" (String o ops ++ String v version)))
  = name
  /\ req_get_stem (name ++ String o ops ++ String v version) = name.
Proof.
  intros Hn He Ho Hv.
  pose proof (remove_spaces_none _ _ name_char_not_space Hn) as Sn.
  pose proof (remove_spaces_none _ _ extras_char_not_space He) as Se.
  pose proof (remove_spaces_none _ _ operator_not_space Ho) as So.
  pose proof (remove_spaces_none _ _ version_char_not_space Hv) as Sv.
  unfold req_get_stem. rewrite !re_sub_space. split.
  - rewrite remove_spaces_app, Sn.
    change (remove_spaces (String "[" ?s)) with (String "[" (remove_spaces s)).
    rewrite remove_spaces_app, Se.
    change (remove_spaces (String "]" ?s)) with (String "]" (remove_spaces s)).
    rewrite remove_spaces_app, So, Sv.
    unfold re_sub. rewrite (re_sub_from_name _ _ Hn).
    rewrite re_sub_from_whole.
    + apply string_app_nil.
    + now apply match_extras_operator_version.
  - rewrite !remove_spaces_app, Sn, So, Sv.
    unfold re_sub. rewrite (re_sub_from_name _ _ Hn).
    change (String o ops ++ String v version)
      with (String o (ops ++ String v version)).
    rewrite re_sub_from_whole.
    + apply string_app_nil.
    + now apply match_operator_version_here.
Qed.

Lemma stem_of_versioned_requirement_witness :
  req_get_stem "pdm-backend[dev]>=2.1.0" = "pdm-backend"
  /\ req_get_stem "pdm-backend>=2.1.0" = "pdm-backend".
Proof.
  apply (stem_of_versioned_requirement "pdm-backend" "d" "ev" ">" "=" "2" ".1.0");
    reflexivity.
Defined.

(** ** Dictionaries *)

Lemma lookup_set_item_eq (key : string) (v : value) (d : dict) :
  lookup key (set_item key v d) = Some v.
Proof.
  induction d as [|[k w|c] d IH]; simpl.
  - now rewrite String.eqb_refl.
  - destruct (String.eqb k key) eqn:E; simpl; now rewrite E.
  - exact IH.
Qed.

Lemma lookup_set_item_neq (key key' : string) (v : value) (d : dict) :
  key <> key' -> lookup key (set_item key' v d) = lookup key d.
Proof.
  intros N.
  induction d as [|[k w|c] d IH]; simpl.
  - destruct (String.eqb key' key) eqn:E; [|reflexivity].
    apply String.eqb_eq in E. congruence.
  - destruct (String.eqb k key') eqn:E; simpl.
    + apply String.eqb_eq in E. subst k.
      destruct (String.eqb key' key) eqn:E'; [|reflexivity].
      apply String.eqb_eq in E'. congruence.
    + now rewrite IH.
  - exact IH.
Qed.

Lemma set_item_same (key : string) (v : value) (d : dict) :
  lookup key d = Some v -> set_item key v d = d.
Proof.
  induction d as [|[k w|c] d IH]; simpl; intros H.
  - discriminate.
  - destruct (String.eqb k key) eqn:E.
    + now inversion H.
    + now rewrite IH.
  - now rewrite IH.
Qed.

Lemma set_item_absent (key : string) (v : value) (d : dict) :
  lookup key d = None -> set_item key v d = add key v d.
Proof.
  unfold add.
  induction d as [|[k w|c] d IH]; simpl; intros H.
  - reflexivity.
  - destruct (String.eqb k key) eqn:E; [discriminate|]. now rewrite IH.
  - now rewrite IH.
Qed.

Lemma lookup_add_eq (key : string) (v : value) (d : dict) :
  lookup key d = None -> lookup key (add key v d) = Some v.
Proof.
  intros H. rewrite <- (set_item_absent key v d H).
  apply lookup_set_item_eq.
Qed.

Lemma lookup_add_neq (key key' : string) (v : value) (d : dict) :
  key <> key' -> lookup key (add key' v d) = lookup key d.
Proof.
  intros N. unfold add.
  induction d as [|[k w|c] d IH]; simpl.
  - destruct (String.eqb key' key) eqn:E; [|reflexivity].
    apply String.eqb_eq in E. congruence.
  - now rewrite IH.
  - exact IH.
Qed.

Lemma contains_true (key : string) (d : dict) :
  contains key d = true <-> exists v, lookup key d = Some v.
Proof.
  unfold contains. destruct (lookup key d) as [v|]; split.
  - eauto.
  - reflexivity.
  - discriminate.
  - intros [v H]. discriminate.
Qed.

Lemma contains_false (key : string) (d : dict) :
  contains key d = false <-> lookup key d = None.
Proof.
  unfold contains. destruct (lookup key d); split; congruence.
Qed.

Lemma pop_found (key : string) (d d' : dict) (v : value) :
  pop key d = Some (v, d') ->
  lookup key d = Some v
  /\ forall k, k <> key -> lookup k d' = lookup k d.
Proof.
  revert d'. induction d as [|[k w|c] d IH]; intros d'; simpl.
  - discriminate.
  - destruct (String.eqb k key) eqn:E.
    + intros H. inversion H; subst. split; [reflexivity|].
      intros k' N. apply String.eqb_eq in E. subst k.
      destruct (String.eqb key k') eqn:E'; [|reflexivity].
      apply String.eqb_eq in E'. congruence.
    + destruct (pop key d) as [[x rest]|]; [|discriminate].
      intros H. inversion H; subst.
      destruct (IH rest eq_refl) as [L R]. split; [exact L|].
      intros k' N. simpl. now rewrite (R k' N).
  - destruct (pop key d) as [[x rest]|]; [|discriminate].
    intros H. inversion H; subst.
    destruct (IH rest eq_refl) as [L R]. split; [exact L|].
    intros k' N. simpl. exact (R k' N).
Qed.

Lemma pop_missing (key : string) (d : dict) :
  pop key d = None -> lookup key d = None.
Proof.
  induction d as [|[k w|c] d IH]; simpl.
  - reflexivity.
  - destruct (String.eqb k key); [discriminate|].
    destruct (pop key d) as [[x rest]|]; [discriminate|]. auto.
  - destruct (pop key d) as [[x rest]|]; [discriminate|]. auto.
Qed.

(** Lines 81-84: the build-system data is what the metadata has under
    [-build-requires] and [-build-backend]. *)
Lemma extract_buildsystem_lookup (project_data : dict) :
  lookup "build-requires" (fst (extract_buildsystem project_data))
  = lookup "-build-requires" project_data
  /\ lookup "build-backend" (fst (extract_buildsystem project_data))
     = lookup "-build-backend" project_data.
Proof.
  unfold extract_buildsystem. cbn [fold_left append].
  destruct (pop "-build-requires" project_data) as [[v1 d1]|] eqn:P1.
  - destruct (pop_found _ _ _ _ P1) as [L1 R1].
    destruct (pop "-build-backend" d1) as [[v2 d2]|] eqn:P2.
    + destruct (pop_found _ _ _ _ P2) as [L2 _].
      rewrite <- (R1 "-build-backend") by discriminate.
      rewrite L1, L2. split; reflexivity.
    + apply pop_missing in P2.
      rewrite <- (R1 "-build-backend") by discriminate.
      rewrite L1, P2. split; reflexivity.
  - apply pop_missing in P1.
    destruct (pop "-build-backend" project_data) as [[v2 d2]|] eqn:P2.
    + destruct (pop_found _ _ _ _ P2) as [L2 _].
      rewrite P1, L2. split; reflexivity.
    + apply pop_missing in P2. rewrite P1, P2. split; reflexivity.
Qed.

(** The equations of the merge. *)
Lemma merge_dictionary_nil (target : dict) : merge_dictionary target [] = target.
Proof. reflexivity. Qed.

Lemma merge_dictionary_comment (target : dict) (c : string) (rest : dict) :
  merge_dictionary target (Comment c :: rest) = merge_dictionary target rest.
Proof. reflexivity. Qed.

Lemma merge_dictionary_item (target : dict) (key : string) (v : value)
      (rest : dict) :
  merge_dictionary target (Item key v :: rest)
  = merge_dictionary
      match lookup key target, v with
      | None, _ => add key v target
      | Some (VTable old), VTable new =>
          set_item key (VTable (merge_dictionary old new)) target
      | Some (VList old), VList new =>
          set_item key (VList (old ++ new)%list) target
      | Some _, _ => set_item key v target
      end
      rest.
Proof.
  unfold merge_dictionary at 1 2. cbn [merge_table]. f_equal.
  destruct (lookup key target) as [[]|]; try reflexivity.
  destruct v; reflexivity.
Qed.

(** Merging [requires] into a table that has an array under it appends
    to the array and leaves the rest of the table as it is. *)
Lemma merge_requires (target : dict) (old new : list value) :
  lookup "requires" target = Some (VList old) ->
  merge_dictionary target [Item "requires" (VList new)]
  = set_item "requires" (VList (old ++ new)%list) target.
Proof.
  intros H. rewrite merge_dictionary_item, H. reflexivity.
Qed.

Lemma merge_fresh_build_system (requires backend : value) :
  merge_dictionary [] [Item "requires" requires; Item "build-backend" backend]
  = [Item "requires" requires; Item "build-backend" backend].
Proof. reflexivity. Qed.

(** ** Running a computation *)

Lemma bind_ok {A B : Type} (m : M A) (f : A -> M B) (p p1 : Project) (a : A) :
  m p = (inr a, p1) -> bind m f p = f a p1.
Proof. unfold bind. now intros ->. Qed.

Lemma bind_raise {A B : Type} (m : M A) (f : A -> M B) (p p1 : Project)
      (e : exn) :
  m p = (inl e, p1) -> bind m f p = (inl e, p1).
Proof. unfold bind. now intros ->. Qed.

Lemma bind_inv {A B : Type} (m : M A) (f : A -> M B) (p p' : Project)
      (r : exn + B) :
  bind m f p = (r, p') ->
  (exists e, m p = (inl e, p') /\ r = inl e)
  \/ (exists a p1, m p = (inr a, p1) /\ f a p1 = (r, p')).
Proof.
  unfold bind. destruct (m p) as [[e|a] p1]; intros H.
  - left. exists e. now inversion H.
  - right. now exists a, p1.
Qed.

Lemma bind_ok_inv {A B : Type} (m : M A) (f : A -> M B) (p p' : Project)
      (b : B) :
  bind m f p = (inr b, p') ->
  exists a p1, m p = (inr a, p1) /\ f a p1 = (inr b, p').
Proof.
  intros H. destruct (bind_inv m f p p' _ H) as [(e & _ & E)|H']; [discriminate|].
  exact H'.
Qed.

Section Frames.

Variable R : Project -> Project -> Prop.
Hypothesis R_refl : forall p, R p p.
Hypothesis R_trans : forall p q r, R p q -> R q r -> R p r.

Lemma keeps_ret {A : Type} (a : A) : keeps R (ret a).
Proof. intros p. apply R_refl. Qed.

Lemma keeps_raise {A : Type} (e : exn) : keeps R (@raise A e).
Proof. intros p. apply R_refl. Qed.

Lemma keeps_lift {A : Type} (r : exn + A) : keeps R (lift r).
Proof. intros p. apply R_refl. Qed.

Lemma keeps_bind {A B : Type} (m : M A) (f : A -> M B) :
  keeps R m -> (forall a, keeps R (f a)) -> keeps R (bind m f).
Proof.
  intros Hm Hf p. unfold bind.
  specialize (Hm p). destruct (m p) as [[e|a] p1]; simpl in *.
  - exact Hm.
  - eapply R_trans; [exact Hm|]. apply Hf.
Qed.

End Frames.

(** Unfolds the primitives of a step and splits on what it inspects. *)
Ltac step_cases :=
  unfold bind, ret, raise, lift, get_pyproject, set_pyproject, echo, write,
    get_table, py_getitem, py_in, py_setitem, merge_into, as_list;
  repeat (simpl;
          match goal with
          | |- context [match ?x with _ => _ end] => destruct x eqn:?
          end);
  simpl.

Lemma same_build_system_refl p : same_build_system p p.
Proof. reflexivity. Qed.

Lemma same_build_system_trans p q r :
  same_build_system p q -> same_build_system q r -> same_build_system p r.
Proof. unfold same_build_system. congruence. Qed.

Lemma same_project_refl p : same_project p p.
Proof. reflexivity. Qed.

Lemma same_project_trans p q r :
  same_project p q -> same_project q r -> same_project p r.
Proof. unfold same_project. congruence. Qed.

Lemma silent_refl p : silent p p.
Proof. repeat split. Qed.

Lemma silent_trans p q r : silent p q -> silent q r -> silent p r.
Proof. unfold silent. intuition congruence. Qed.

Lemma same_converted_refl p : same_converted p p.
Proof. reflexivity. Qed.

Lemma same_converted_trans p q r :
  same_converted p q -> same_converted q r -> same_converted p r.
Proof. unfold same_converted. congruence. Qed.

Lemma more_notices_refl p : more_notices p p.
Proof. exists []. now rewrite app_nil_r. Qed.

Lemma more_notices_trans p q r :
  more_notices p q -> more_notices q r -> more_notices p r.
Proof.
  intros [a Ha] [b Hb]. exists (a ++ b)%list.
  now rewrite Hb, Ha, app_assoc.
Qed.


(** ** Messages *)

Lemma string_app_assoc (a b c : string) : (a ++ b) ++ c = a ++ (b ++ c).
Proof. induction a as [|x a IH]; simpl; [reflexivity|now rewrite IH]. Qed.

Lemma starts_with_app (text after : string) :
  starts_with text (text ++ after) = true.
Proof.
  induction text as [|c text IH]; simpl; [reflexivity|].
  now rewrite Ascii.eqb_refl, IH.
Qed.

Lemma mentions_occurs (text msg : string) :
  mentions text msg -> occurs text msg = true.
Proof.
  intros (before & after & ->).
  induction before as [|c before IH].
  - cbn [append]. pose proof (starts_with_app text after) as S.
    destruct (text ++ after); simpl; now rewrite S.
  - cbn [append occurs]. rewrite IH. apply orb_true_r.
Qed.

Lemma not_mentions (text msg : string) :
  occurs text msg = false -> ~ mentions text msg.
Proof.
  intros H M. apply mentions_occurs in M. congruence.
Qed.

Lemma msg_disagree_mentions (found expected : string) :
  mentions found (msg_disagree found expected)
  /\ mentions expected (msg_disagree found expected).
Proof.
  unfold msg_disagree, mentions. split.
  - exists (msg_disagree_head ++ "(found "),
      (", expected " ++ expected ++ "), don't know how to proceed.").
    now rewrite string_app_assoc.
  - exists (msg_disagree_head ++ "(found " ++ found ++ ", expected "),
      "), don't know how to proceed.".
    now rewrite !string_app_assoc.
Qed.

(** ** The requirements that branch (c) adds *)

Lemma has_stem_strings (existing : list string) (build_req : string) :
  has_stem (map VStr existing) (VStr build_req)
  = inr (existsb (same_stem build_req) existing).
Proof.
  induction existing as [|e existing IH]; [reflexivity|].
  cbn [map has_stem stem_of existsb]. unfold same_stem at 1.
  destruct (String.eqb (req_get_stem e) (req_get_stem build_req));
    [reflexivity|exact IH].
Qed.

Lemma new_requirements_strings (existing build_requires : list string) :
  new_requirements (VList (map VStr existing)) (map VStr build_requires)
  = inr (map VStr (added existing build_requires)).
Proof.
  induction build_requires as [|r build_requires IH]; [reflexivity|].
  cbn [map new_requirements as_list added filter].
  rewrite has_stem_strings, IH.
  fold (added existing build_requires).
  destruct (existsb (same_stem r) existing); reflexivity.
Qed.

Lemma added_iff (existing build_requires : list string) (r : string) :
  In r (added existing build_requires)
  <-> In r build_requires
      /\ ~ exists e, In e existing /\ req_get_stem e = req_get_stem r.
Proof.
  unfold added. rewrite filter_In, negb_true_iff.
  split; intros [Hin H]; split; try exact Hin.
  - intros (e & He & Hs).
    assert (X : existsb (same_stem r) existing = true).
    { apply existsb_exists. exists e. split; [exact He|].
      now apply String.eqb_eq. }
    congruence.
  - destruct (existsb (same_stem r) existing) eqn:X; [|reflexivity].
    apply existsb_exists in X. destruct X as (e & He & Hs).
    apply String.eqb_eq in Hs. exfalso. apply H. now exists e.
Qed.







Lemma same_tool_refl p : same_tool p p.
Proof. reflexivity. Qed.

Lemma same_tool_trans p q r : same_tool p q -> same_tool q r -> same_tool p r.
Proof. unfold same_tool. congruence. Qed.

Lemma comments_kept_refl p : comments_kept p p.
Proof. intros H. exact H. Qed.

Lemma comments_kept_trans p q r :
  comments_kept p q -> comments_kept q r -> comments_kept p r.
Proof. unfold comments_kept. auto. Qed.

Lemma same_project_comments_kept p q : same_project p q -> comments_kept p q.
Proof.
  unfold same_project, comments_kept, project_commented.
  intros E [rest H]. exists rest. congruence.
Qed.

Lemma set_item_comment (key : string) (v : value) (c : string) (d : dict) :
  set_item key v (Comment c :: d) = Comment c :: set_item key v d.
Proof. reflexivity. Qed.

(** The merge leaves a comment at the head of the target where it is. *)
Lemma merge_dictionary_head_comment (input target : dict) (c : string) :
  merge_dictionary (Comment c :: target) input
  = Comment c :: merge_dictionary target input.
Proof.
  revert target.
  induction input as [|[key v|c'] input IH]; intros target.
  - reflexivity.
  - rewrite !merge_dictionary_item.
    cbn [lookup].
    destruct (lookup key target) as [[s|b|n|old|old]|];
      try (rewrite set_item_comment; apply IH).
    + destruct v; rewrite set_item_comment; apply IH.
    + destruct v; rewrite set_item_comment; apply IH.
    + unfold add. rewrite <- app_comm_cons. apply IH.
  - rewrite !merge_dictionary_comment. apply IH.
Qed.

Lemma merge_dictionary_project_comments (input rest : dict) :
  merge_dictionary (project_comments ++ rest)%list input
  = (project_comments ++ merge_dictionary rest input)%list.
Proof.
  unfold project_comments. cbn [app].
  now rewrite !merge_dictionary_head_comment.
Qed.

Lemma tables_kept_refl p : tables_kept p p.
Proof. intros H. exact H. Qed.

Lemma tables_kept_trans p q r :
  tables_kept p q -> tables_kept q r -> tables_kept p r.
Proof. unfold tables_kept. auto. Qed.

Lemma same_tables_kept p q : same_project p q -> same_tool p q -> tables_kept p q.
Proof.
  unfold same_project, same_tool, tables_kept, has_tables.
  intros E1 E2 [[pt Hp] (tool & pdm & Ht & Hpdm)]. split.
  - exists pt. congruence.
  - exists tool, pdm. split; congruence.
Qed.

Lemma set_item_project_comments (key : string) (v : value) (rest : dict) :
  set_item key v (project_comments ++ rest)%list
  = (project_comments ++ set_item key v rest)%list.
Proof. reflexivity. Qed.

(** ** The steps of the import *)

#[local] Arguments msg_no_format : simpl never.
#[local] Arguments msg_cannot_create : simpl never.
#[local] Arguments msg_incomplete : simpl never.
#[local] Arguments msg_disagree : simpl never.
#[local] Arguments msg_requires_set : simpl never.
#[local] Arguments msg_backend_set : simpl never.
#[local] Arguments msg_requires_python : simpl never.
#[local] Arguments merge_dictionary : simpl never.
#[local] Arguments new_requirements : simpl never.
#[local] Arguments str_of_nat : simpl never.
#[local] Arguments lookup : simpl never.
#[local] Arguments set_item : simpl never.
#[local] Arguments add : simpl never.

Section ImportProperties.

Variable FORMATS : list (string * Converter).
Variable DEFAULT_BACKEND : Backend.
Variable resolve_interpreter : Project -> bool -> exn + Python.
Variable str_of_item : value -> string.

Ltac frame_step :=
  intros p; step_cases;
  unfold same_build_system, same_project, silent, same_converted,
    same_resolved, same_written, same_tool, more_notices;
  simpl;
  rewrite ?lookup_set_item_neq, ?lookup_add_neq by discriminate;
  auto.

Lemma select_format_pure (filename : string) (format : option string)
      (p : Project) :
  snd (select_format FORMATS filename format p) = p.
Proof. unfold select_format. step_cases; reflexivity. Qed.

Lemma scaffold_same_build_system : keeps same_build_system scaffold.
Proof.
  unfold scaffold.
  repeat (apply keeps_bind; [apply same_build_system_trans| |intros _]);
    [unfold ensure_tool_pdm|unfold normalize_build|unfold ensure_project];
    frame_step.
Qed.

Lemma scaffold_silent : keeps silent scaffold.
Proof.
  unfold scaffold.
  repeat (apply keeps_bind; [apply silent_trans| |intros _]);
    [unfold ensure_tool_pdm|unfold normalize_build|unfold ensure_project];
    frame_step.
Qed.

Lemma merge_project_same_build_system (project_data : dict) :
  keeps same_build_system (merge_project project_data).
Proof. unfold merge_project. frame_step. Qed.

Lemma merge_project_silent (project_data : dict) :
  keeps silent (merge_project project_data).
Proof. unfold merge_project. frame_step. Qed.

Lemma merge_settings_same_build_system (settings : dict) :
  keeps same_build_system (merge_settings settings).
Proof. unfold merge_settings. frame_step. Qed.

Lemma merge_settings_silent (settings : dict) :
  keeps silent (merge_settings settings).
Proof. unfold merge_settings. frame_step. Qed.

Lemma merge_settings_same_project (settings : dict) :
  keeps same_project (merge_settings settings).
Proof. unfold merge_settings. frame_step. Qed.

Lemma select_format_same_build_system filename format :
  keeps same_build_system (select_format FORMATS filename format).
Proof. intros p. rewrite select_format_pure. reflexivity. Qed.

Lemma select_format_silent filename format :
  keeps silent (select_format FORMATS filename format).
Proof. intros p. rewrite select_format_pure. apply silent_refl. Qed.

Lemma call_convert_same_build_system key filename options :
  keeps same_build_system (call_convert FORMATS key filename options).
Proof. unfold call_convert. frame_step. Qed.

Lemma call_convert_silent key filename options :
  keeps silent (call_convert FORMATS key filename options).
Proof. unfold call_convert. frame_step. Qed.

Lemma import_metadata_same_build_system filename format options :
  keeps same_build_system (import_metadata FORMATS filename format options).
Proof.
  unfold import_metadata.
  apply keeps_bind;
    [apply same_build_system_trans
    |apply select_format_same_build_system|intros key].
  apply keeps_bind;
    [apply same_build_system_trans
    |apply call_convert_same_build_system|intros [project_data settings]].
  destruct (extract_buildsystem project_data) as [buildsystem_data data].
  repeat (apply keeps_bind;
          [apply same_build_system_trans
          |solve [auto using scaffold_same_build_system,
                    merge_project_same_build_system,
                    merge_settings_same_build_system]
          |intros _]).
  apply keeps_ret, same_build_system_refl.
Qed.

Lemma import_metadata_silent filename format options :
  keeps silent (import_metadata FORMATS filename format options).
Proof.
  unfold import_metadata.
  apply keeps_bind;
    [apply silent_trans|apply select_format_silent|intros key].
  apply keeps_bind;
    [apply silent_trans|apply call_convert_silent
    |intros [project_data settings]].
  destruct (extract_buildsystem project_data) as [buildsystem_data data].
  repeat (apply keeps_bind;
          [apply silent_trans
          |solve [auto using scaffold_silent, merge_project_silent,
                    merge_settings_silent]
          |intros _]).
  apply keeps_ret, silent_refl.
Qed.

Lemma default_requires_python_same_build_system :
  keeps same_build_system (default_requires_python resolve_interpreter).
Proof. unfold default_requires_python, call_resolve_interpreter. frame_step. Qed.

Lemma write_same_build_system : keeps same_build_system write.
Proof. frame_step. Qed.

(** What is left of the run after the build-system step keeps the
    build-system table. *)
Lemma finish_same_build_system :
  keeps same_build_system
    (default_requires_python resolve_interpreter ;; write).
Proof.
  apply keeps_bind;
    [apply same_build_system_trans
    |apply default_requires_python_same_build_system|intros _].
  apply write_same_build_system.
Qed.

(** ** C1: the reset branch *)

Lemma reconcile_reset (buildsystem_data : dict) (p : Project) :
  reconcile_build_system DEFAULT_BACKEND str_of_item true buildsystem_data p
  = (inr tt,
     {| pyproject :=
          set_item "build-system" (VTable (build_system DEFAULT_BACKEND))
            (pyproject p);
        echoed := echoed p; converted := converted p;
        resolved := resolved p; written := written p |}).
Proof. reflexivity. Qed.

(** C1: with [reset_backend] set, the build-system step never raises
    and leaves the manifest with [build-system] equal to
    [DEFAULT_BACKEND.build_system()], whatever the table held and
    whatever the import supplies; no other branch of the step is looked
    at.  A run of [do_import] that gets to this step, however it ends,
    leaves the manifest with that table, and so does every run that
    returns. *)
Theorem reset_backend_sets_default
        (filename : string) (format : option string)
        (options : option Namespace) (p : Project) :
  (forall buildsystem_data q,
      exists q',
        reconcile_build_system DEFAULT_BACKEND str_of_item true
          buildsystem_data q = (inr tt, q')
        /\ lookup "build-system" (pyproject q')
           = Some (VTable (build_system DEFAULT_BACKEND)))
  /\ (forall buildsystem_data p1,
         import_metadata FORMATS filename format options p
         = (inr buildsystem_data, p1) ->
         lookup "build-system"
           (pyproject
              (snd (do_import FORMATS DEFAULT_BACKEND resolve_interpreter
                      str_of_item filename format options true p)))
         = Some (VTable (build_system DEFAULT_BACKEND)))
  /\ (forall p',
         do_import FORMATS DEFAULT_BACKEND resolve_interpreter str_of_item
           filename format options true p = (inr tt, p') ->
         lookup "build-system" (pyproject p')
         = Some (VTable (build_system DEFAULT_BACKEND))).
Proof.
  assert (reach : forall buildsystem_data p1,
             import_metadata FORMATS filename format options p
             = (inr buildsystem_data, p1) ->
             lookup "build-system"
               (pyproject
                  (snd (do_import FORMATS DEFAULT_BACKEND resolve_interpreter
                          str_of_item filename format options true p)))
             = Some (VTable (build_system DEFAULT_BACKEND))).
  { intros buildsystem_data p1 H.
    unfold do_import. rewrite (bind_ok _ _ _ _ _ H).
    rewrite (bind_ok _ _ _ _ _ (reconcile_reset buildsystem_data p1)).
    rewrite finish_same_build_system. simpl.
    apply lookup_set_item_eq. }
  split; [|split].
  - intros buildsystem_data q. eexists. split; [apply reconcile_reset|].
    simpl. apply lookup_set_item_eq.
  - exact reach.
  - intros p' H.
    destruct (bind_ok_inv _ _ _ _ _ H) as (buildsystem_data & p1 & H1 & _).
    specialize (reach buildsystem_data p1 H1). now rewrite H in reach.
Qed.

(** ** C2: the backends disagree *)

Lemma reconcile_disagree (buildsystem_data pybuildsystem : dict)
      (requires build_requires : value) (found expected : string)
      (q : Project) :
  lookup "build-system" (pyproject q) = Some (VTable pybuildsystem) ->
  lookup "requires" pybuildsystem = Some requires ->
  lookup "build-backend" pybuildsystem = Some (VStr found) ->
  lookup "build-backend" buildsystem_data = Some (VStr expected) ->
  lookup "build-requires" buildsystem_data = Some build_requires ->
  found <> expected ->
  reconcile_build_system DEFAULT_BACKEND str_of_item false buildsystem_data q
  = (inl (PdmUsageError (msg_disagree found expected)), q).
Proof.
  intros Hbs Hreq Hbk Hbsd Hbr N.
  apply String.eqb_neq in N.
  unfold reconcile_build_system, bind, get_pyproject, contains, lift,
    get_table, py_getitem, py_in, py_setitem, merge_into, raise.
  cbn [negb]. rewrite Hbs. cbn [negb]. rewrite Hbsd, Hbr, Hreq, Hbk, N.
  reflexivity.
Qed.

(** C2, amended: when the manifest has a build-system table with a
    [requires] entry and the build-backend ["A"], [reset_backend] is
    false and the import supplies build-requires and a build-backend
    ["B"] other than ["A"], a run of [do_import] that gets to the
    build-system step raises the usage error whose message mentions
    both ["A"] and ["B"], and the build-system table is as it was. *)
Theorem backend_conflict_raises
        (filename : string) (format : option string)
        (options : option Namespace) (p p1 : Project)
        (buildsystem_data pybuildsystem : dict)
        (requires build_requires : value) (A B : string) :
  import_metadata FORMATS filename format options p
  = (inr buildsystem_data, p1) ->
  lookup "build-system" (pyproject p) = Some (VTable pybuildsystem) ->
  lookup "requires" pybuildsystem = Some requires ->
  lookup "build-backend" pybuildsystem = Some (VStr A) ->
  lookup "build-backend" buildsystem_data = Some (VStr B) ->
  lookup "build-requires" buildsystem_data = Some build_requires ->
  A <> B ->
  exists msg p',
    do_import FORMATS DEFAULT_BACKEND resolve_interpreter str_of_item
      filename format options false p = (inl (PdmUsageError msg), p')
    /\ mentions A msg /\ mentions B msg
    /\ lookup "build-system" (pyproject p') = Some (VTable pybuildsystem).
Proof.
  intros H Hbs Hreq Hbk Hbsd Hbr N.
  assert (Hbs1 : lookup "build-system" (pyproject p1)
                 = Some (VTable pybuildsystem)).
  { pose proof (import_metadata_same_build_system filename format options p)
      as F.
    rewrite H in F. unfold same_build_system in F. simpl in F. congruence. }
  exists (msg_disagree A B), p1.
  split; [|split; [|split]].
  - unfold do_import. rewrite (bind_ok _ _ _ _ _ H).
    apply bind_raise.
    now apply (reconcile_disagree buildsystem_data pybuildsystem requires
                 build_requires).
  - apply msg_disagree_mentions.
  - apply msg_disagree_mentions.
  - exact Hbs1.
Qed.

(** ** C3: no build-system table yet *)

Lemma default_requires_python_more_notices :
  keeps more_notices (default_requires_python resolve_interpreter).
Proof.
  unfold default_requires_python, call_resolve_interpreter.
  intros p. step_cases; unfold more_notices; simpl;
    solve [exists []; now rewrite app_nil_r | eexists; reflexivity].
Qed.

Lemma write_more_notices : keeps more_notices write.
Proof. intros p. exists []. simpl. now rewrite app_nil_r. Qed.

Lemma finish_more_notices :
  keeps more_notices (default_requires_python resolve_interpreter ;; write).
Proof.
  apply keeps_bind;
    [apply more_notices_trans
    |apply default_requires_python_more_notices|intros _].
  apply write_more_notices.
Qed.

Lemma reconcile_cannot_create (buildsystem_data : dict) (q : Project) :
  lookup "build-system" (pyproject q) = None ->
  lookup "build-backend" buildsystem_data = None
  \/ lookup "build-requires" buildsystem_data = None ->
  reconcile_build_system DEFAULT_BACKEND str_of_item false buildsystem_data q
  = (inl (PdmUsageError msg_cannot_create), q).
Proof.
  intros Hbs H.
  unfold reconcile_build_system, bind, get_pyproject, contains, raise.
  rewrite Hbs. cbn [negb].
  destruct H as [H|H]; rewrite H;
    [|destruct (lookup "build-backend" buildsystem_data)]; reflexivity.
Qed.

Lemma reconcile_create (buildsystem_data : dict)
      (build_backend build_requires : value) (q : Project) :
  lookup "build-system" (pyproject q) = None ->
  lookup "build-backend" buildsystem_data = Some build_backend ->
  lookup "build-requires" buildsystem_data = Some build_requires ->
  reconcile_build_system DEFAULT_BACKEND str_of_item false buildsystem_data q
  = (inr tt,
     {| pyproject :=
          add "build-system"
            (VTable [Item "requires" build_requires;
                     Item "build-backend" build_backend])
            (pyproject q);
        echoed :=
          (echoed q
           ++ [msg_requires_set (format_item str_of_item build_requires);
               msg_backend_set (format_item str_of_item build_backend)])%list;
        converted := converted q; resolved := resolved q;
        written := written q |}).
Proof.
  intros Hbs Hbk Hbr.
  unfold reconcile_build_system, bind, get_pyproject, contains.
  rewrite Hbs. cbn [negb]. rewrite Hbk, Hbr.
  replace (echoed q
           ++ [msg_requires_set (format_item str_of_item build_requires);
               msg_backend_set (format_item str_of_item build_backend)])%list
    with ((echoed q
           ++ [msg_requires_set (format_item str_of_item build_requires)])
          ++ [msg_backend_set (format_item str_of_item build_backend)])%list
    by (now rewrite <- app_assoc).
  reflexivity.
Qed.

(** C3: when the manifest has no build-system table and
    [reset_backend] is false, a run of [do_import] that gets to the
    build-system step raises the usage error that asks to fill the
    section manually if the import lacks build-backend or
    build-requires; if the import supplies both, the run leaves a new
    build-system table made of these two values, and the two notices
    that name them are emitted. *)
Theorem missing_build_system
        (filename : string) (format : option string)
        (options : option Namespace) (p p1 : Project)
        (buildsystem_data : dict) :
  import_metadata FORMATS filename format options p
  = (inr buildsystem_data, p1) ->
  lookup "build-system" (pyproject p) = None ->
  (lookup "build-backend" buildsystem_data = None
   \/ lookup "build-requires" buildsystem_data = None ->
   do_import FORMATS DEFAULT_BACKEND resolve_interpreter str_of_item
     filename format options false p
   = (inl (PdmUsageError msg_cannot_create), p1)
   /\ mentions "please fill it manually" msg_cannot_create
   /\ lookup "build-system" (pyproject p1) = None)
  /\ (forall build_backend build_requires,
         lookup "build-backend" buildsystem_data = Some build_backend ->
         lookup "build-requires" buildsystem_data = Some build_requires ->
         let p' :=
           snd (do_import FORMATS DEFAULT_BACKEND resolve_interpreter
                  str_of_item filename format options false p) in
         lookup "build-system" (pyproject p')
         = Some (VTable [Item "requires" build_requires;
                         Item "build-backend" build_backend])
         /\ exists rest,
             echoed p'
             = (echoed p
                ++ [msg_requires_set (format_item str_of_item build_requires);
                    msg_backend_set (format_item str_of_item build_backend)]
                ++ rest)%list).
Proof.
  intros H Hbs.
  assert (Hbs1 : lookup "build-system" (pyproject p1) = None).
  { pose proof (import_metadata_same_build_system filename format options p)
      as F.
    rewrite H in F. unfold same_build_system in F. simpl in F. congruence. }
  assert (Hsilent : echoed p1 = echoed p).
  { pose proof (import_metadata_silent filename format options p) as F.
    rewrite H in F. apply F. }
  split.
  - intros Hmiss. split; [|split; [|exact Hbs1]].
    + unfold do_import. rewrite (bind_ok _ _ _ _ _ H).
      apply bind_raise. now apply reconcile_cannot_create.
    + exists ("Can't create [" ++ dq ++ "build-system" ++ dq
              ++ "] section in pyproject.toml with selected import method, "),
        ".".
      reflexivity.
  - intros build_backend build_requires Hbk Hbr p'. subst p'.
    unfold do_import. rewrite (bind_ok _ _ _ _ _ H).
    rewrite (bind_ok _ _ _ _ _
               (reconcile_create _ _ _ _ Hbs1 Hbk Hbr)).
    split.
    + rewrite finish_same_build_system. simpl.
      now apply lookup_add_eq.
    + destruct (finish_more_notices
                  {| pyproject :=
                       add "build-system"
                         (VTable [Item "requires" build_requires;
                                  Item "build-backend" build_backend])
                         (pyproject p1);
                     echoed :=
                       (echoed p1
                        ++ [msg_requires_set
                              (format_item str_of_item build_requires);
                            msg_backend_set
                              (format_item str_of_item build_backend)])%list;
                     converted := converted p1; resolved := resolved p1;
                     written := written p1 |}) as [rest E].
      exists rest. rewrite E. simpl. rewrite Hsilent.
      now rewrite <- app_assoc.
Qed.

(** ** C4: the requirements of the import are added to the existing ones *)

Lemma reconcile_branch_c (buildsystem_data pybuildsystem : dict)
      (requires backend build_backend build_requires : value) (q : Project) :
  lookup "build-system" (pyproject q) = Some (VTable pybuildsystem) ->
  lookup "requires" pybuildsystem = Some requires ->
  lookup "build-backend" pybuildsystem = Some backend ->
  lookup "build-backend" buildsystem_data = Some build_backend ->
  lookup "build-requires" buildsystem_data = Some build_requires ->
  reconcile_build_system DEFAULT_BACKEND str_of_item false buildsystem_data q
  = match backend, build_backend with
    | VStr found, VStr expected =>
        if String.eqb found expected then
          (imported <- lift (as_list build_requires) ;;
           build_req_new <- lift (new_requirements requires imported) ;;
           match build_req_new with
           | [] => ret tt
           | _ :: _ =>
               let pybuildsystem :=
                 merge_dictionary pybuildsystem
                   [Item "requires" (VList build_req_new)] in
               set_pyproject
                 (set_item "build-system" (VTable pybuildsystem)
                    (pyproject q)) ;;
               match lookup "requires" pybuildsystem with
               | Some requires' =>
                   echo (msg_requires_set (format_item str_of_item requires'))
               | None => raise (KeyError "requires")
               end
           end) q
        else (inl (PdmUsageError (msg_disagree found expected)), q)
    | _, _ => (inl TypeError, q)
    end.
Proof.
  intros Hbs Hreq Hbk Hbsd Hbr.
  unfold reconcile_build_system at 1.
  unfold bind at 1, get_pyproject at 1, contains.
  rewrite Hbs. cbn [negb]. rewrite Hbsd, Hbr.
  unfold bind at 1, lift at 1, get_table, py_getitem, py_in, py_setitem, merge_into. rewrite Hbs, Hreq, Hbk.
  destruct backend; try reflexivity.
  destruct build_backend; try reflexivity.
  destruct (String.eqb s s0); reflexivity.
Qed.

Lemma reconcile_adds (buildsystem_data pybuildsystem : dict)
      (existing build_requires : list string) (backend : string)
      (q : Project) :
  lookup "build-system" (pyproject q) = Some (VTable pybuildsystem) ->
  lookup "requires" pybuildsystem = Some (VList (map VStr existing)) ->
  lookup "build-backend" pybuildsystem = Some (VStr backend) ->
  lookup "build-backend" buildsystem_data = Some (VStr backend) ->
  lookup "build-requires" buildsystem_data
  = Some (VList (map VStr build_requires)) ->
  exists q',
    reconcile_build_system DEFAULT_BACKEND str_of_item false
      buildsystem_data q = (inr tt, q')
    /\ lookup "build-system" (pyproject q')
       = Some (VTable
                 (set_item "requires"
                    (VList (map VStr
                              (existing ++ added existing build_requires)))
                    pybuildsystem)).
Proof.
  intros Hbs Hreq Hbk Hbsd Hbr.
  rewrite (reconcile_branch_c _ _ _ _ _ _ _ Hbs Hreq Hbk Hbsd Hbr).
  rewrite String.eqb_refl.
  unfold bind at 1, lift at 1, as_list.
  unfold bind at 1. unfold lift at 1.
  rewrite new_requirements_strings.
  destruct (added existing build_requires) as [|r new] eqn:E.
  - exists q. split; [reflexivity|].
    rewrite app_nil_r, (set_item_same _ _ _ Hreq). exact Hbs.
  - cbn [map]. change (VStr r :: map VStr new) with (map VStr (r :: new)).
    cbv zeta.
    rewrite (merge_requires _ _ _ Hreq), lookup_set_item_eq.
    eexists. split; [reflexivity|].
    simpl pyproject. rewrite lookup_set_item_eq. now rewrite map_app.
Qed.

(** C4: in branch (c) -- [reset_backend] false, a build-system table
    with [requires] and the backend of the import, build-requires and
    build-backend supplied -- a run of [do_import] that gets to the
    build-system step leaves the table with the [requires] array made
    of the existing requirements, in their order and as they were,
    followed by the requirements of the import that it does not skip; a
    requirement of the import is skipped if and only if an existing
    requirement has its stem, even when their version constraints
    differ; every other entry of the table is as it was. *)
Theorem branch_c_appends
        (filename : string) (format : option string)
        (options : option Namespace) (p p1 : Project)
        (buildsystem_data pybuildsystem : dict)
        (existing build_requires : list string) (backend : string) :
  import_metadata FORMATS filename format options p
  = (inr buildsystem_data, p1) ->
  lookup "build-system" (pyproject p) = Some (VTable pybuildsystem) ->
  lookup "requires" pybuildsystem = Some (VList (map VStr existing)) ->
  lookup "build-backend" pybuildsystem = Some (VStr backend) ->
  lookup "build-backend" buildsystem_data = Some (VStr backend) ->
  lookup "build-requires" buildsystem_data
  = Some (VList (map VStr build_requires)) ->
  let p' :=
    snd (do_import FORMATS DEFAULT_BACKEND resolve_interpreter str_of_item
           filename format options false p) in
  let requires' := (existing ++ added existing build_requires)%list in
  let pybuildsystem' :=
    set_item "requires" (VList (map VStr requires')) pybuildsystem in
  lookup "build-system" (pyproject p') = Some (VTable pybuildsystem')
  /\ lookup "requires" pybuildsystem' = Some (VList (map VStr requires'))
  /\ (forall build_req,
         In build_req build_requires ->
         (~ In build_req (added existing build_requires)
          <-> exists existing_req,
               In existing_req existing
               /\ req_get_stem existing_req = req_get_stem build_req))
  /\ (forall build_req,
         In build_req (added existing build_requires) ->
         In build_req build_requires)
  /\ (forall key,
         key <> "requires" ->
         lookup key pybuildsystem' = lookup key pybuildsystem).
Proof.
  intros H Hbs Hreq Hbk Hbsd Hbr p' requires' pybuildsystem'.
  assert (Hbs1 : lookup "build-system" (pyproject p1)
                 = Some (VTable pybuildsystem)).
  { pose proof (import_metadata_same_build_system filename format options p)
      as F.
    rewrite H in F. unfold same_build_system in F. simpl in F. congruence. }
  destruct (reconcile_adds _ _ _ _ _ _ Hbs1 Hreq Hbk Hbsd Hbr)
    as (q' & Hrun & Hq').
  split; [|split; [|split; [|split]]].
  - subst p'. unfold do_import. rewrite (bind_ok _ _ _ _ _ H).
    rewrite (bind_ok _ _ _ _ _ Hrun).
    rewrite finish_same_build_system. exact Hq'.
  - apply lookup_set_item_eq.
  - intros build_req Hin. rewrite added_iff. split.
    + intros N.
      destruct (existsb (same_stem build_req) existing) eqn:X.
      * apply existsb_exists in X. destruct X as (e & He & Hs).
        apply String.eqb_eq in Hs. now exists e.
      * exfalso. apply N. split; [exact Hin|].
        intros (e & He & Hs).
        assert (Y : existsb (same_stem build_req) existing = true).
        { apply existsb_exists. exists e. split; [exact He|].
          now apply String.eqb_eq. }
        congruence.
    + intros Hex [_ N]. exact (N Hex).
  - intros build_req Hin. now apply added_iff in Hin.
  - intros key N. now apply lookup_set_item_neq.
Qed.

(** ** C5: a second reconciliation adds nothing *)


(** ** C6: the default of requires-python *)

Lemma reconcile_same_resolved reset_backend buildsystem_data :
  keeps same_resolved
    (reconcile_build_system DEFAULT_BACKEND str_of_item reset_backend
       buildsystem_data).
Proof. unfold reconcile_build_system. frame_step. Qed.

Lemma reconcile_same_written reset_backend buildsystem_data :
  keeps same_written
    (reconcile_build_system DEFAULT_BACKEND str_of_item reset_backend
       buildsystem_data).
Proof. unfold reconcile_build_system. frame_step. Qed.

Lemma reconcile_same_project reset_backend buildsystem_data :
  keeps same_project
    (reconcile_build_system DEFAULT_BACKEND str_of_item reset_backend
       buildsystem_data).
Proof. unfold reconcile_build_system. frame_step. Qed.

Lemma reconcile_same_converted reset_backend buildsystem_data :
  keeps same_converted
    (reconcile_build_system DEFAULT_BACKEND str_of_item reset_backend
       buildsystem_data).
Proof. unfold reconcile_build_system. frame_step. Qed.

Lemma default_requires_python_present (project_table : dict) (v : value)
      (q : Project) :
  lookup "project" (pyproject q) = Some (VTable project_table) ->
  lookup "requires-python" project_table = Some v ->
  default_requires_python resolve_interpreter q = (inr tt, q).
Proof.
  intros Hp Hv.
  unfold default_requires_python, bind, get_pyproject, lift, get_table, py_getitem, py_in, py_setitem, merge_into,
    contains.
  now rewrite Hp, Hv.
Qed.

Lemma default_requires_python_absent (project_table : dict)
      (python : Python) (q : Project) :
  lookup "project" (pyproject q) = Some (VTable project_table) ->
  lookup "requires-python" project_table = None ->
  resolve_interpreter q true = inr python ->
  default_requires_python resolve_interpreter q
  = (inr tt,
     {| pyproject :=
          set_item "project"
            (VTable (set_item "requires-python"
                       (VStr (">=" ++ version_of python)) project_table))
            (pyproject q);
        echoed :=
          (echoed q ++ [msg_requires_python (version_of python)])%list;
        converted := converted q;
        resolved := (resolved q ++ [true])%list;
        written := written q |}).
Proof.
  intros Hp Hv Hpy.
  unfold default_requires_python, bind, get_pyproject, lift, get_table, py_getitem, py_in, py_setitem, merge_into,
    contains, call_resolve_interpreter.
  now rewrite Hp, Hv, Hpy.
Qed.

Lemma msg_requires_python_mentions (version : string) :
  mentions (">=" ++ version) (msg_requires_python version).
Proof.
  exists "The project's [primary]requires-python[/] has been set to [primary]",
    "[/]. You can change it later if necessary.".
  reflexivity.
Qed.

(** The last step on the [project] table as the merges and the
    build-system step have left it.  If it has no [requires-python],
    the interpreter is resolved, once and with [in_import=True], the
    table gets [requires-python] set to [>=major.minor] of that
    interpreter, a notice that names this value is emitted and the
    manifest is written.  If it has [requires-python], the table stays
    as it is, the interpreter is not resolved, nothing is emitted and
    the manifest is written. *)
Lemma requires_python_after_merge
        (filename : string) (format : option string)
        (options : option Namespace) (reset_backend : bool)
        (p p1 q : Project) (buildsystem_data project_table : dict) :
  import_metadata FORMATS filename format options p
  = (inr buildsystem_data, p1) ->
  reconcile_build_system DEFAULT_BACKEND str_of_item reset_backend
    buildsystem_data p1 = (inr tt, q) ->
  lookup "project" (pyproject q) = Some (VTable project_table) ->
  (lookup "requires-python" project_table = None ->
   forall python,
     resolve_interpreter q true = inr python ->
     exists p',
       do_import FORMATS DEFAULT_BACKEND resolve_interpreter str_of_item
         filename format options reset_backend p = (inr tt, p')
       /\ lookup "project" (pyproject p')
          = Some (VTable
                    (set_item "requires-python"
                       (VStr (">=" ++ version_of python))
                       project_table))
       /\ resolved p' = (resolved p ++ [true])%list
       /\ echoed p'
          = (echoed q ++ [msg_requires_python (version_of python)])%list
       /\ mentions (">=" ++ version_of python)
            (msg_requires_python (version_of python))
       /\ written p' = (written p ++ [pyproject p'])%list)
  /\ (forall v,
         lookup "requires-python" project_table = Some v ->
         exists p',
           do_import FORMATS DEFAULT_BACKEND resolve_interpreter str_of_item
             filename format options reset_backend p = (inr tt, p')
           /\ lookup "project" (pyproject p') = Some (VTable project_table)
           /\ resolved p' = resolved p
           /\ echoed p' = echoed q
           /\ written p' = (written p ++ [pyproject p'])%list).
Proof.
  intros H Hrun Hp.
  assert (Hres : resolved q = resolved p).
  { pose proof (import_metadata_silent filename format options p) as F.
    pose proof (reconcile_same_resolved reset_backend buildsystem_data p1)
      as G.
    rewrite H in F. rewrite Hrun in G.
    unfold same_resolved in G. simpl in F, G.
    destruct F as (_ & F & _). congruence. }
  assert (Hwr : written q = written p).
  { pose proof (import_metadata_silent filename format options p) as F.
    pose proof (reconcile_same_written reset_backend buildsystem_data p1)
      as G.
    rewrite H in F. rewrite Hrun in G.
    unfold same_written in G. simpl in F, G.
    destruct F as (_ & _ & F). congruence. }
  split.
  - intros Hv python Hpy.
    eexists. split; [|split; [|split; [|split; [|split]]]].
    + unfold do_import. rewrite (bind_ok _ _ _ _ _ H).
      rewrite (bind_ok _ _ _ _ _ Hrun).
      rewrite (bind_ok _ _ _ _ _
                 (default_requires_python_absent _ _ _ Hp Hv Hpy)).
      reflexivity.
    + cbn [pyproject]. apply lookup_set_item_eq.
    + cbn [resolved]. now rewrite Hres.
    + reflexivity.
    + apply msg_requires_python_mentions.
    + cbn [written pyproject]. now rewrite Hwr.
  - intros v Hv.
    eexists. split; [|split; [|split; [|split]]].
    + unfold do_import. rewrite (bind_ok _ _ _ _ _ H).
      rewrite (bind_ok _ _ _ _ _ Hrun).
      rewrite (bind_ok _ _ _ _ _
                 (default_requires_python_present _ _ _ Hp Hv)).
      reflexivity.
    + exact Hp.
    + exact Hres.
    + reflexivity.
    + cbn [written pyproject]. now rewrite Hwr.
Qed.

(** ** C9: the tables of the manifest *)

Lemma ensure_tool_pdm_ok (p : Project) :
  well_shaped (pyproject p) = true ->
  exists p1 tool pdm,
    ensure_tool_pdm p = (inr tt, p1)
    /\ lookup "tool" (pyproject p1) = Some (VTable tool)
    /\ lookup "pdm" tool = Some (VTable pdm)
    /\ same_project p p1
    /\ (lacks_tool_pdm (pyproject p) = true -> pdm = []).
Proof.
  unfold well_shaped, lacks_tool_pdm, ensure_tool_pdm, bind, get_pyproject,
    set_pyproject, ret, lift, py_in, py_setitem, contains, same_project.
  intros H.
  destruct (lookup "tool" (pyproject p)) as [[| | | |tool]|] eqn:Ht;
    try discriminate H.
  - destruct (lookup "pdm" tool) as [[| | | |pdm]|] eqn:Hp;
      try discriminate H.
    + exists p, tool, pdm. repeat split; auto. discriminate.
    + eexists _, (set_item "pdm" (VTable []) tool), [].
      split; [reflexivity|]. cbn [pyproject].
      rewrite !lookup_set_item_eq.
      rewrite lookup_set_item_neq by discriminate. auto.
  - eexists _, [Item "pdm" (VTable [])], [].
    split; [reflexivity|]. cbn [pyproject].
    rewrite lookup_set_item_eq.
    rewrite lookup_set_item_neq by discriminate. auto.
Qed.

Lemma normalize_build_ok (q : Project) (tool pdm : dict) :
  lookup "tool" (pyproject q) = Some (VTable tool) ->
  lookup "pdm" tool = Some (VTable pdm) ->
  exists q1 tool' pdm',
    normalize_build q = (inr tt, q1)
    /\ lookup "tool" (pyproject q1) = Some (VTable tool')
    /\ lookup "pdm" tool' = Some (VTable pdm')
    /\ same_project q q1
    /\ (pdm = [] -> pdm' = []).
Proof.
  intros Ht Hp.
  unfold normalize_build, bind, get_pyproject, set_pyproject, ret, lift,
    get_table, py_getitem, py_in, py_setitem, merge_into, contains,
    same_project.
  rewrite Ht, Hp.
  destruct (lookup "build" pdm) as [[script| | | |]|] eqn:Hb;
    try (exists q, tool, pdm; repeat split; auto; fail).
  eexists _, _, _. split; [reflexivity|]. cbn [pyproject].
  rewrite lookup_set_item_eq. split; [reflexivity|].
  rewrite lookup_set_item_eq. split; [reflexivity|].
  rewrite lookup_set_item_neq by discriminate. split; [reflexivity|].
  intros ->. discriminate Hb.
Qed.

Lemma ensure_project_ok (q : Project) :
  match lookup "project" (pyproject q) with
  | None | Some (VTable _) => true
  | Some _ => false
  end = true ->
  exists q1 project_table,
    ensure_project q = (inr tt, q1)
    /\ lookup "project" (pyproject q1) = Some (VTable project_table)
    /\ same_tool q q1
    /\ (lookup "project" (pyproject q) = None ->
        project_table = project_comments).
Proof.
  unfold ensure_project, bind, get_pyproject, set_pyproject, ret, contains,
    same_tool.
  intros H.
  destruct (lookup "project" (pyproject q)) as [[| | | |project_table]|] eqn:Hp;
    try discriminate H.
  - exists q, project_table. repeat split; auto. discriminate.
  - eexists _, project_comments. split; [reflexivity|]. cbn [pyproject].
    rewrite (lookup_add_eq _ _ _ Hp).
    rewrite lookup_add_neq by discriminate. auto.
Qed.

(** On a manifest of the expected shape the scaffolding returns: a
    missing [tool], [tool.pdm] or [project] is created, not reported. *)
Lemma scaffold_ok (p : Project) :
  well_shaped (pyproject p) = true ->
  exists p1 tool pdm project_table,
    scaffold p = (inr tt, p1)
    /\ lookup "tool" (pyproject p1) = Some (VTable tool)
    /\ lookup "pdm" tool = Some (VTable pdm)
    /\ lookup "project" (pyproject p1) = Some (VTable project_table)
    /\ (lacks_tool_pdm (pyproject p) = true -> pdm = [])
    /\ (lookup "project" (pyproject p) = None ->
        project_table = project_comments).
Proof.
  intros H.
  destruct (ensure_tool_pdm_ok p H)
    as (p1 & tool1 & pdm1 & R1 & Ht1 & Hp1 & S1 & E1).
  destruct (normalize_build_ok p1 tool1 pdm1 Ht1 Hp1)
    as (p2 & tool2 & pdm2 & R2 & Ht2 & Hp2 & S2 & E2).
  assert (Hproj : lookup "project" (pyproject p2)
                  = lookup "project" (pyproject p)).
  { unfold same_project in S1, S2. congruence. }
  assert (Hshape : match lookup "project" (pyproject p2) with
                   | None | Some (VTable _) => true
                   | Some _ => false
                   end = true).
  { rewrite Hproj. unfold well_shaped in H.
    now apply andb_true_iff in H. }
  destruct (ensure_project_ok p2 Hshape) as (p3 & project_table & R3 & Hp3 & S3 & E3).
  exists p3, tool2, pdm2, project_table.
  split; [|split; [|split; [|split; [|split]]]].
  - unfold scaffold. rewrite (bind_ok _ _ _ _ _ R1).
    now rewrite (bind_ok _ _ _ _ _ R2).
  - unfold same_tool in S3. congruence.
  - exact Hp2.
  - exact Hp3.
  - auto.
  - intros N. apply E3. congruence.
Qed.

Lemma import_metadata_inv filename format options p p1 buildsystem_data :
  import_metadata FORMATS filename format options p
  = (inr buildsystem_data, p1) ->
  exists project_data settings p0 s1 s2,
    pyproject p0 = pyproject p
    /\ scaffold p0 = (inr tt, s1)
    /\ merge_project project_data s1 = (inr tt, s2)
    /\ merge_settings settings s2 = (inr tt, p1).
Proof.
  unfold import_metadata. intros H.
  apply bind_ok_inv in H. destruct H as (key & pk & Hk & H).
  apply bind_ok_inv in H.
  destruct H as ([project_data settings] & p0 & Hc & H).
  destruct (extract_buildsystem project_data) as [bsd data].
  apply bind_ok_inv in H. destruct H as ([] & s1 & Hs & H).
  apply bind_ok_inv in H. destruct H as ([] & s2 & Hm & H).
  apply bind_ok_inv in H. destruct H as ([] & s3 & Hst & H).
  inversion H; subst. exists data, settings, p0, s1, s2.
  repeat split; auto.
  pose proof (select_format_pure filename format p) as E.
  rewrite Hk in E. cbn [snd] in E. subst pk.
  revert Hc. unfold call_convert.
  destruct (find _ FORMATS) as [[k c]|]; [|discriminate].
  intros Hc. inversion Hc. reflexivity.
Qed.

(** What the import supplies for the build-system is what the
    converter returned under the two reserved keys. *)
Lemma import_metadata_supplies filename format options p p1 buildsystem_data :
  import_metadata FORMATS filename format options p
  = (inr buildsystem_data, p1) ->
  exists key k converter project_data settings,
    fst (select_format FORMATS filename format p) = inr key
    /\ find (fun kc => String.eqb (fst kc) key) FORMATS = Some (k, converter)
    /\ convert converter p filename (default_options options)
       = inr (project_data, settings)
    /\ lookup "build-requires" buildsystem_data
       = lookup "-build-requires" project_data
    /\ lookup "build-backend" buildsystem_data
       = lookup "-build-backend" project_data.
Proof.
  unfold import_metadata. intros H.
  apply bind_ok_inv in H. destruct H as (key & pk & Hk & H).
  pose proof (select_format_pure filename format p) as E.
  rewrite Hk in E. cbn [snd] in E. subst pk.
  apply bind_ok_inv in H.
  destruct H as ([project_data settings] & p0 & Hc & H).
  revert Hc. unfold call_convert.
  destruct (find _ FORMATS) as [[k converter]|] eqn:Hf; [|discriminate].
  intros Hc. inversion Hc as [[Hconv Hp0]].
  pose proof (extract_buildsystem_lookup project_data) as X.
  destruct (extract_buildsystem project_data) as [bsd data].
  apply bind_ok_inv in H. destruct H as ([] & s1 & Hs & H).
  apply bind_ok_inv in H. destruct H as ([] & s2 & Hm & H).
  apply bind_ok_inv in H. destruct H as ([] & s3 & Hst & H).
  inversion H; subst.
  exists key, k, converter, project_data, settings.
  rewrite Hk. cbn [fst] in X. repeat split; auto; apply X.
Qed.

Lemma merge_project_inv project_data s1 s2 :
  merge_project project_data s1 = (inr tt, s2) ->
  exists project project',
    lookup "project" (pyproject s1) = Some project
    /\ merge_into project project_data = inr project'
    /\ pyproject s2 = set_item "project" project' (pyproject s1).
Proof.
  unfold merge_project, bind, get_pyproject, lift, py_getitem, set_pyproject.
  destruct (lookup "project" (pyproject s1)) as [project|]; [|discriminate].
  destruct (merge_into project project_data) as [e|project'] eqn:M;
    [discriminate|].
  intros H. inversion H. now exists project, project'.
Qed.

Lemma merge_settings_inv settings s2 p1 :
  merge_settings settings s2 = (inr tt, p1) ->
  exists tool pdm pdm',
    lookup "tool" (pyproject s2) = Some (VTable tool)
    /\ lookup "pdm" tool = Some pdm
    /\ merge_into pdm settings = inr pdm'
    /\ pyproject p1
       = set_item "tool" (VTable (set_item "pdm" pdm' tool)) (pyproject s2).
Proof.
  unfold merge_settings, bind, get_pyproject, lift, py_getitem, py_setitem,
    set_pyproject.
  destruct (lookup "tool" (pyproject s2)) as [[| | | |tool]|];
    try discriminate.
  destruct (lookup "pdm" tool) as [pdm|] eqn:Hpdm; [|discriminate].
  destruct (merge_into pdm settings) as [e|pdm'] eqn:M; [discriminate|].
  intros H. inversion H. now exists tool, pdm, pdm'.
Qed.

(** After the merges a manifest of the expected shape has its tables,
    and a [project] table that was created keeps its comments at its
    head. *)
Lemma import_metadata_tables filename format options p p1 buildsystem_data :
  import_metadata FORMATS filename format options p
  = (inr buildsystem_data, p1) ->
  well_shaped (pyproject p) = true ->
  has_tables p1
  /\ (lookup "project" (pyproject p) = None -> project_commented p1).
Proof.
  intros H W.
  destruct (import_metadata_inv _ _ _ _ _ _ H)
    as (project_data & settings & p0 & s1 & s2 & E0 & Hs & Hm & Hst).
  rewrite <- E0 in W |- *.
  destruct (scaffold_ok p0 W)
    as (s1' & tool1 & pdm1 & pt1 & Hs' & Ht1 & Hp1 & Hpt1 & _ & Ec).
  rewrite Hs in Hs'. inversion Hs'; subst s1'. clear Hs'.
  destruct (merge_project_inv _ _ _ Hm) as (project & project' & Hpr & Mp & E2).
  rewrite Hpt1 in Hpr. inversion Hpr; subst project. clear Hpr.
  cbn [merge_into] in Mp. inversion Mp; subst project'. clear Mp.
  destruct (merge_settings_inv _ _ _ Hst)
    as (tool & pdm & pdm' & Ht & Hpdm & Ms & E1).
  rewrite E2, lookup_set_item_neq in Ht by discriminate.
  rewrite Ht1 in Ht. inversion Ht; subst tool. clear Ht.
  rewrite Hp1 in Hpdm. inversion Hpdm; subst pdm. clear Hpdm.
  cbn [merge_into] in Ms. inversion Ms; subst pdm'. clear Ms.
  assert (Hproject : lookup "project" (pyproject p1)
                     = Some (VTable (merge_dictionary pt1 project_data))).
  { rewrite E1, lookup_set_item_neq by discriminate.
    rewrite E2. apply lookup_set_item_eq. }
  split.
  - split.
    + eexists. exact Hproject.
    + eexists _, _. rewrite E1. split; apply lookup_set_item_eq.
  - intros N. specialize (Ec N). subst pt1.
    exists (merge_dictionary [] project_data).
    rewrite Hproject, <- merge_dictionary_project_comments.
    now rewrite app_nil_r.
Qed.

Lemma reconcile_same_tool reset_backend buildsystem_data :
  keeps same_tool
    (reconcile_build_system DEFAULT_BACKEND str_of_item reset_backend
       buildsystem_data).
Proof. unfold reconcile_build_system. frame_step. Qed.

Lemma default_requires_python_same_tool :
  keeps same_tool (default_requires_python resolve_interpreter).
Proof. unfold default_requires_python, call_resolve_interpreter. frame_step. Qed.

Lemma default_requires_python_tables_kept :
  keeps tables_kept (default_requires_python resolve_interpreter).
Proof.
  intros p [[pt Hp] (tool & pdm & Ht & Hpdm)].
  unfold default_requires_python, call_resolve_interpreter, bind,
    get_pyproject, lift, py_getitem, py_in, py_setitem.
  rewrite Hp.
  destruct (contains "requires-python" pt).
  - split; [now exists pt|now exists tool, pdm].
  - destruct (resolve_interpreter p true) as [e|python]; simpl.
    + split; [now exists pt|now exists tool, pdm].
    + split.
      * eexists. cbn [pyproject]. apply lookup_set_item_eq.
      * exists tool, pdm. cbn [pyproject].
        rewrite lookup_set_item_neq by discriminate. now split.
Qed.

Lemma default_requires_python_comments_kept :
  keeps comments_kept (default_requires_python resolve_interpreter).
Proof.
  intros p [rest Hp].
  unfold default_requires_python, call_resolve_interpreter, bind,
    get_pyproject, lift, get_table, py_getitem, py_in, py_setitem, merge_into.
  rewrite Hp.
  destruct (contains "requires-python" (project_comments ++ rest)%list).
  - exists rest. exact Hp.
  - destruct (resolve_interpreter p true) as [e|python].
    + exists rest. exact Hp.
    + eexists. cbn [snd set_pyproject echo pyproject].
      rewrite lookup_set_item_eq, set_item_project_comments. reflexivity.
Qed.

(** What is left of the run after the merges keeps the tables and the
    comments. *)
Lemma finish_tables_kept reset_backend buildsystem_data :
  keeps tables_kept
    (reconcile_build_system DEFAULT_BACKEND str_of_item reset_backend
       buildsystem_data ;;
     default_requires_python resolve_interpreter ;; write).
Proof.
  apply keeps_bind; [apply tables_kept_trans| |intros _].
  - intros p. apply same_tables_kept.
    + apply reconcile_same_project.
    + apply reconcile_same_tool.
  - apply keeps_bind;
      [apply tables_kept_trans
      |apply default_requires_python_tables_kept|intros _].
    intros p. apply same_tables_kept; reflexivity.
Qed.

Lemma finish_comments_kept reset_backend buildsystem_data :
  keeps comments_kept
    (reconcile_build_system DEFAULT_BACKEND str_of_item reset_backend
       buildsystem_data ;;
     default_requires_python resolve_interpreter ;; write).
Proof.
  apply keeps_bind; [apply comments_kept_trans| |intros _].
  - intros p. apply same_project_comments_kept, reconcile_same_project.
  - apply keeps_bind;
      [apply comments_kept_trans
      |apply default_requires_python_comments_kept|intros _].
    intros p. apply same_project_comments_kept. reflexivity.
Qed.

(** C9, amended: on a manifest whose [tool], [tool.pdm] and [project],
    where present, are tables, the scaffolding returns -- a missing
    table is not an error -- with [tool.pdm] and [project] in place:
    [tool.pdm] is the empty table if [tool] or [tool.pdm] was missing,
    and [project], if it was missing, is the table that holds the two
    comment lines [PEP 621 project metadata] and [See
    https://www.python.org/dev/peps/pep-0621/] and nothing else.  Every
    run of [do_import] on such a manifest that returns leaves a
    manifest with a [project] table and a [tool.pdm] table, and a
    [project] table created by the run begins with these two comment
    lines. *)
Theorem scaffolding_invariant
        (filename : string) (format : option string)
        (options : option Namespace) (reset_backend : bool) (p : Project) :
  well_shaped (pyproject p) = true ->
  (exists p1 tool pdm project_table,
      scaffold p = (inr tt, p1)
      /\ lookup "tool" (pyproject p1) = Some (VTable tool)
      /\ lookup "pdm" tool = Some (VTable pdm)
      /\ lookup "project" (pyproject p1) = Some (VTable project_table)
      /\ (lacks_tool_pdm (pyproject p) = true -> pdm = [])
      /\ (lookup "project" (pyproject p) = None ->
          project_table
          = [Comment "PEP 621 project metadata";
             Comment "See https://www.python.org/dev/peps/pep-0621/"]))
  /\ (forall p',
         do_import FORMATS DEFAULT_BACKEND resolve_interpreter str_of_item
           filename format options reset_backend p = (inr tt, p') ->
         (exists project_table,
             lookup "project" (pyproject p') = Some (VTable project_table))
         /\ (exists tool pdm,
                lookup "tool" (pyproject p') = Some (VTable tool)
                /\ lookup "pdm" tool = Some (VTable pdm))
         /\ (lookup "project" (pyproject p) = None ->
             exists rest,
               lookup "project" (pyproject p')
               = Some (VTable
                         (Comment "PEP 621 project metadata"
                          :: Comment
                               "See https://www.python.org/dev/peps/pep-0621/"
                          :: rest)))).
Proof.
  intros W. split; [exact (scaffold_ok p W)|].
  intros p' H. unfold do_import in H.
  apply bind_ok_inv in H. destruct H as (buildsystem_data & p1 & H1 & H2).
  destruct (import_metadata_tables _ _ _ _ _ _ H1 W) as [T C].
  pose proof (finish_tables_kept reset_backend buildsystem_data p1) as FT.
  pose proof (finish_comments_kept reset_backend buildsystem_data p1) as FC.
  rewrite H2 in FT, FC. cbn [snd] in FT, FC.
  destruct (FT T) as [Tp Tt].
  split; [exact Tp|]. split; [exact Tt|].
  intros N. destruct (FC (C N)) as [rest E].
  exists rest. exact E.
Qed.

(** ** C10: the options of a call without options *)

Lemma scaffold_same_converted : keeps same_converted scaffold.
Proof.
  unfold scaffold.
  repeat (apply keeps_bind; [apply same_converted_trans| |intros _]);
    [unfold ensure_tool_pdm|unfold normalize_build|unfold ensure_project];
    frame_step.
Qed.

Lemma merge_project_same_converted (project_data : dict) :
  keeps same_converted (merge_project project_data).
Proof. unfold merge_project. frame_step. Qed.

Lemma merge_settings_same_converted (settings : dict) :
  keeps same_converted (merge_settings settings).
Proof. unfold merge_settings. frame_step. Qed.

Lemma default_requires_python_same_converted :
  keeps same_converted (default_requires_python resolve_interpreter).
Proof. unfold default_requires_python, call_resolve_interpreter. frame_step. Qed.

Lemma finish_same_converted reset_backend buildsystem_data :
  keeps same_converted
    (reconcile_build_system DEFAULT_BACKEND str_of_item reset_backend
       buildsystem_data ;;
     default_requires_python resolve_interpreter ;; write).
Proof.
  apply keeps_bind;
    [apply same_converted_trans|apply reconcile_same_converted|intros _].
  apply keeps_bind;
    [apply same_converted_trans
    |apply default_requires_python_same_converted|intros _].
  intros p. reflexivity.
Qed.

(** The call of the converter is the only one the import makes. *)
Lemma import_metadata_converted filename format options key k converter p :
  fst (select_format FORMATS filename format p) = inr key ->
  find (fun kc => String.eqb (fst kc) key) FORMATS = Some (k, converter) ->
  converted (snd (import_metadata FORMATS filename format options p))
  = (converted p ++ [(key, filename, default_options options)])%list.
Proof.
  intros Hk Hf.
  pose proof (select_format_pure filename format p) as Hp.
  destruct (select_format FORMATS filename format p) as [r pk] eqn:Hs.
  cbn [fst snd] in Hk, Hp. subst r pk.
  unfold import_metadata. rewrite (bind_ok _ _ _ _ _ Hs).
  unfold bind at 1, call_convert. rewrite Hf.
  destruct (convert converter p filename (default_options options))
    as [e|[project_data settings]]; [reflexivity|].
  destruct (extract_buildsystem project_data) as [buildsystem_data data].
  match goal with
  | |- converted (snd (?m ?q)) = _ =>
      assert (K : keeps same_converted m); [|exact (K q)]
  end.
  repeat (apply keeps_bind;
          [apply same_converted_trans
          |solve [auto using scaffold_same_converted,
                    merge_project_same_converted,
                    merge_settings_same_converted]
          |intros _]).
  apply keeps_ret, same_converted_refl.
Qed.

(** C10: [do_import] called without options runs as with the options
    [dev=False], [group=None], and the converter it calls receives
    these options. *)
Theorem options_default
        (filename : string) (format : option string)
        (reset_backend : bool) (p : Project) :
  do_import FORMATS DEFAULT_BACKEND resolve_interpreter str_of_item
    filename format None reset_backend p
  = do_import FORMATS DEFAULT_BACKEND resolve_interpreter str_of_item
      filename format (Some {| dev := false; group := None |})
      reset_backend p
  /\ (forall key k converter,
         fst (select_format FORMATS filename format p) = inr key ->
         find (fun kc => String.eqb (fst kc) key) FORMATS
         = Some (k, converter) ->
         converted
           (snd (do_import FORMATS DEFAULT_BACKEND resolve_interpreter
                   str_of_item filename format None reset_backend p))
         = (converted p
            ++ [(key, filename, {| dev := false; group := None |})])%list).
Proof.
  split; [reflexivity|].
  intros key k converter Hk Hf.
  pose proof (import_metadata_converted filename format None key k converter
                p Hk Hf) as E.
  unfold do_import, bind at 1.
  destruct (import_metadata FORMATS filename format None p)
    as [[e|buildsystem_data] p1]; cbn [snd] in E |- *.
  - exact E.
  - etransitivity; [|exact E].
    apply (finish_same_converted reset_backend buildsystem_data p1).
Qed.


(** ** C6: the default of requires-python, from the manifest given *)

Lemma keys_nil_lookup (d : dict) (key : string) :
  keys d = [] -> lookup key d = None.
Proof.
  induction d as [|[k w|c] d IH]; cbn [keys lookup];
    [reflexivity|discriminate|exact IH].
Qed.

(** The merge leaves alone a key that its input does not have. *)
Lemma merge_dictionary_lookup_other (key : string) (input target : dict) :
  lookup key input = None ->
  lookup key (merge_dictionary target input) = lookup key target.
Proof.
  revert target. induction input as [|[k v|c] input IH]; intros target.
  - reflexivity.
  - unfold lookup at 1; fold lookup.
    destruct (String.eqb k key) eqn:E; [discriminate|].
    apply String.eqb_neq in E. intros H.
    rewrite merge_dictionary_item, (IH _ H).
    destruct (lookup k target) as [[s|b|z|l|t]|]; destruct v;
      try (apply lookup_set_item_neq; congruence);
      apply lookup_add_neq; congruence.
  - intros H. rewrite merge_dictionary_comment. now apply IH.
Qed.

(** The merge takes no key away from its target. *)
Lemma merge_dictionary_contains (key : string) (input target : dict) :
  contains key target = true ->
  contains key (merge_dictionary target input) = true.
Proof.
  revert target. induction input as [|[k v|c] input IH]; intros target H.
  - exact H.
  - rewrite merge_dictionary_item. apply IH.
    apply contains_true in H. destruct H as [w Hw].
    apply contains_true.
    destruct (String.eqb k key) eqn:E.
    + apply String.eqb_eq in E. subst k. rewrite Hw.
      destruct w; destruct v; eexists; apply lookup_set_item_eq.
    + apply String.eqb_neq in E. exists w.
      destruct (lookup k target) as [[s|b|z|l|t]|]; destruct v;
        try (rewrite lookup_set_item_neq by congruence; exact Hw);
        rewrite lookup_add_neq by congruence; exact Hw.
  - rewrite merge_dictionary_comment. now apply IH.
Qed.

(** A key of the input is a key of the merged table. *)
Lemma merge_dictionary_lookup_input (key : string) (v : value)
      (input target : dict) :
  lookup key input = Some v ->
  exists v', lookup key (merge_dictionary target input) = Some v'.
Proof.
  revert target. induction input as [|[k w|c] input IH]; intros target.
  - discriminate.
  - unfold lookup at 1; fold lookup.
    destruct (String.eqb k key) eqn:E.
    + apply String.eqb_eq in E. subst k. intros _.
      rewrite merge_dictionary_item.
      apply contains_true, merge_dictionary_contains, contains_true.
      destruct (lookup key target) as [[s|b|z|l|t]|] eqn:L; destruct w;
        eexists;
        try apply lookup_set_item_eq;
        apply (lookup_add_eq _ _ _ L).
    + intros H. rewrite merge_dictionary_item. now apply IH.
  - intros H. rewrite merge_dictionary_comment. now apply IH.
Qed.

(** Lines 81-84 leave the other keys of the metadata as they are. *)
Lemma extract_buildsystem_keeps (key : string) (project_data : dict) :
  key <> "-build-requires" ->
  key <> "-build-backend" ->
  lookup key (snd (extract_buildsystem project_data))
  = lookup key project_data.
Proof.
  intros N1 N2. unfold extract_buildsystem. cbn [fold_left append].
  destruct (pop "-build-requires" project_data) as [[v1 d1]|] eqn:P1.
  - destruct (pop_found _ _ _ _ P1) as [_ R1].
    destruct (pop "-build-backend" d1) as [[v2 d2]|] eqn:P2; cbn [snd].
    + destruct (pop_found _ _ _ _ P2) as [_ R2].
      now rewrite R2, R1.
    + now apply R1.
  - destruct (pop "-build-backend" project_data) as [[v2 d2]|] eqn:P2;
      cbn [snd]; [|reflexivity].
    destruct (pop_found _ _ _ _ P2) as [_ R2]. now apply R2.
Qed.

Lemma ensure_tool_pdm_same_project : keeps same_project ensure_tool_pdm.
Proof. unfold ensure_tool_pdm. frame_step. Qed.

Lemma normalize_build_same_project : keeps same_project normalize_build.
Proof. unfold normalize_build. frame_step. Qed.

(** Lines 86-96 and [project]: the item that is there stays, whatever
    it is, and a missing one is the table of the two comments. *)
Lemma scaffold_project (p s1 : Project) :
  scaffold p = (inr tt, s1) ->
  lookup "project" (pyproject s1)
  = Some match lookup "project" (pyproject p) with
         | Some project => project
         | None => VTable project_comments
         end.
Proof.
  unfold scaffold. intros H.
  apply bind_ok_inv in H. destruct H as ([] & a & Ha & H).
  apply bind_ok_inv in H. destruct H as ([] & b & Hb & Hc).
  pose proof (ensure_tool_pdm_same_project p) as Fa.
  pose proof (normalize_build_same_project a) as Fb.
  rewrite Ha in Fa. rewrite Hb in Fb.
  unfold same_project in Fa, Fb. cbn [snd] in Fa, Fb.
  rewrite <- Fa, <- Fb.
  revert Hc. unfold ensure_project, bind, get_pyproject, set_pyproject, ret,
    contains.
  destruct (lookup "project" (pyproject b)) as [project|] eqn:Hp;
    intros Hc; inversion Hc; subst.
  - exact Hp.
  - cbn [pyproject]. now apply lookup_add_eq.
Qed.

(** The [project] item after lines 66-99: the metadata of the
    converter, without the two reserved keys, merged into the [project]
    item of the manifest given, or into the table of the two comments
    when the manifest has none. *)
Lemma import_metadata_project filename format options p p1 buildsystem_data
      key k converter project_data settings :
  fst (select_format FORMATS filename format p) = inr key ->
  find (fun kc => String.eqb (fst kc) key) FORMATS = Some (k, converter) ->
  convert converter p filename (default_options options)
  = inr (project_data, settings) ->
  import_metadata FORMATS filename format options p
  = (inr buildsystem_data, p1) ->
  exists project',
    merge_into
      match lookup "project" (pyproject p) with
      | Some project => project
      | None => VTable project_comments
      end
      (snd (extract_buildsystem project_data))
    = inr project'
    /\ lookup "project" (pyproject p1) = Some project'.
Proof.
  intros Hkey Hfind Hconv. unfold import_metadata. intros H.
  apply bind_ok_inv in H. destruct H as (key' & pk & Hk & H).
  pose proof (select_format_pure filename format p) as E.
  rewrite Hk in E, Hkey. cbn [fst snd] in E, Hkey. subst pk.
  inversion Hkey; subst key'. clear Hkey.
  apply bind_ok_inv in H.
  destruct H as ([project_data' settings'] & p0 & Hc & H).
  revert Hc. unfold call_convert. rewrite Hfind, Hconv.
  intros Hc. inversion Hc; subst project_data' settings'. clear Hc.
  destruct (extract_buildsystem project_data) as [bsd data]. cbn [snd].
  apply bind_ok_inv in H. destruct H as ([] & s1 & Hs & H).
  apply bind_ok_inv in H. destruct H as ([] & s2 & Hm & H).
  apply bind_ok_inv in H. destruct H as ([] & s3 & Hst & H).
  inversion H; subst. clear H.
  apply scaffold_project in Hs. cbn [pyproject] in Hs.
  destruct (merge_project_inv _ _ _ Hm) as (project & project' & Hpr & Mp & E2).
  rewrite Hs in Hpr. inversion Hpr; subst project. clear Hpr.
  exists project'. split; [exact Mp|].
  pose proof (merge_settings_same_project settings s2) as F.
  rewrite Hst in F. unfold same_project in F. cbn [snd] in F.
  rewrite F, E2. apply lookup_set_item_eq.
Qed.

(** C6, amended: take a run of [do_import] on the manifest [p] whose
    converter has returned the metadata [project_data] and whose
    build-system step has returned.
    - If neither [project_data] nor the manifest has [requires-python]
      -- the manifest has no [project], or a [project] table without the
      key -- the interpreter is resolved, once and with
      [in_import=True], [project.requires-python] is set to
      [>=major.minor] of that interpreter, a notice that names this
      value is emitted and the manifest is written.
    - If [project_data] has no [requires-python] and the [project]
      table of the manifest has one, its value is left as it is, the
      interpreter is not resolved, nothing is emitted and the manifest
      is written.
    - If [project_data] has [requires-python], the merge of line 98 has
      put a [requires-python] into [project]: the interpreter is not
      resolved, nothing is emitted and the manifest is written. *)
Theorem requires_python_default
        (filename : string) (format : option string)
        (options : option Namespace) (reset_backend : bool)
        (p p1 q : Project) (key k : string) (converter : Converter)
        (project_data settings buildsystem_data : dict) :
  fst (select_format FORMATS filename format p) = inr key ->
  find (fun kc => String.eqb (fst kc) key) FORMATS = Some (k, converter) ->
  convert converter p filename (default_options options)
  = inr (project_data, settings) ->
  import_metadata FORMATS filename format options p
  = (inr buildsystem_data, p1) ->
  reconcile_build_system DEFAULT_BACKEND str_of_item reset_backend
    buildsystem_data p1 = (inr tt, q) ->
  (lookup "requires-python" project_data = None ->
   lookup "project" (pyproject p) = None
   \/ (exists project_table,
          lookup "project" (pyproject p) = Some (VTable project_table)
          /\ lookup "requires-python" project_table = None) ->
   forall python,
     resolve_interpreter q true = inr python ->
     exists p' project_table',
       do_import FORMATS DEFAULT_BACKEND resolve_interpreter str_of_item
         filename format options reset_backend p = (inr tt, p')
       /\ lookup "project" (pyproject p') = Some (VTable project_table')
       /\ lookup "requires-python" project_table'
          = Some (VStr (">=" ++ version_of python))
       /\ resolved p' = (resolved p ++ [true])%list
       /\ echoed p'
          = (echoed q ++ [msg_requires_python (version_of python)])%list
       /\ mentions (">=" ++ version_of python)
            (msg_requires_python (version_of python))
       /\ written p' = (written p ++ [pyproject p'])%list)
  /\ (lookup "requires-python" project_data = None ->
      forall project_table v,
        lookup "project" (pyproject p) = Some (VTable project_table) ->
        lookup "requires-python" project_table = Some v ->
        exists p' project_table',
          do_import FORMATS DEFAULT_BACKEND resolve_interpreter str_of_item
            filename format options reset_backend p = (inr tt, p')
          /\ lookup "project" (pyproject p') = Some (VTable project_table')
          /\ lookup "requires-python" project_table' = Some v
          /\ resolved p' = resolved p
          /\ echoed p' = echoed q
          /\ written p' = (written p ++ [pyproject p'])%list)
  /\ (forall v,
         lookup "requires-python" project_data = Some v ->
         exists p' project_table' v',
           do_import FORMATS DEFAULT_BACKEND resolve_interpreter str_of_item
             filename format options reset_backend p = (inr tt, p')
           /\ lookup "project" (pyproject p') = Some (VTable project_table')
           /\ lookup "requires-python" project_table' = Some v'
           /\ resolved p' = resolved p
           /\ echoed p' = echoed q
           /\ written p' = (written p ++ [pyproject p'])%list).
Proof.
  intros Hkey Hfind Hconv H Hrun.
  destruct (import_metadata_project _ _ _ _ _ _ _ _ _ _ _ Hkey Hfind Hconv H)
    as (project' & Hmerge & Hp1).
  assert (Hq : lookup "project" (pyproject q) = Some project').
  { pose proof (reconcile_same_project reset_backend buildsystem_data p1)
      as F.
    rewrite Hrun in F. unfold same_project in F. cbn [snd] in F.
    now rewrite F. }
  pose proof (extract_buildsystem_keeps "requires-python" project_data)
    as Hdata.
  rewrite <- Hdata by discriminate. clear Hdata.
  set (data := snd (extract_buildsystem project_data)) in *.
  split; [|split].
  - intros Hnone Hmanifest python Hpy.
    assert (T : exists t,
               project' = VTable t
               /\ lookup "requires-python" t = None).
    { destruct Hmanifest as [N|(t & Ht & Hv)].
      - rewrite N in Hmerge. cbn [merge_into] in Hmerge.
        inversion Hmerge. eexists. split; [reflexivity|].
        now rewrite merge_dictionary_lookup_other.
      - rewrite Ht in Hmerge. cbn [merge_into] in Hmerge.
        inversion Hmerge. eexists. split; [reflexivity|].
        now rewrite merge_dictionary_lookup_other. }
    destruct T as (t & -> & Ht).
    destruct (requires_python_after_merge filename format options
                reset_backend p p1 q buildsystem_data t H Hrun Hq)
      as [absent _].
    destruct (absent Ht python Hpy) as (p' & R1 & R2 & R3 & R4 & R5 & R6).
    exists p'. eexists. repeat split; eauto.
    apply lookup_set_item_eq.
  - intros Hnone t v Ht Hv.
    rewrite Ht in Hmerge. cbn [merge_into] in Hmerge.
    inversion Hmerge as [E]. rewrite <- E in Hq.
    destruct (requires_python_after_merge filename format options
                reset_backend p p1 q buildsystem_data _ H Hrun Hq)
      as [_ present].
    assert (Hv' : lookup "requires-python" (merge_dictionary t data)
                  = Some v)
      by now rewrite merge_dictionary_lookup_other.
    destruct (present v Hv') as (p' & R1 & R2 & R3 & R4 & R5).
    exists p'. eexists. repeat split; eauto.
  - intros v Hv.
    assert (T : exists t v',
               project' = VTable t
               /\ lookup "requires-python" t = Some v').
    { assert (K : keys data <> []).
      { intros K. now rewrite (keys_nil_lookup _ "requires-python" K) in Hv. }
      revert Hmerge.
      destruct (lookup "project" (pyproject p)) as [[s|b|z|l|t]|];
        cbn [merge_into];
        try (destruct (keys data); [now destruct K|discriminate]);
        intros Hmerge; inversion Hmerge.
      - destruct (merge_dictionary_lookup_input "requires-python" v data
                    t Hv) as [v' Hv'].
        now eexists _, v'.
      - destruct (merge_dictionary_lookup_input "requires-python" v data
                    project_comments Hv) as [v' Hv'].
        now eexists _, v'. }
    destruct T as (t & v' & -> & Ht).
    destruct (requires_python_after_merge filename format options
                reset_backend p p1 q buildsystem_data t H Hrun Hq)
      as [_ present].
    destruct (present v' Ht) as (p' & R1 & R2 & R3 & R4 & R5).
    exists p', t, v'. repeat split; eauto.
Qed.

End ImportProperties.

(** ** The properties on the sample installation *)

Lemma reset_backend_sets_default_witness :
  fst (Sample.do_import "setup.py" None None true Sample.flit_project)
  = inr tt
  /\ lookup "build-system"
       (pyproject
          (snd (Sample.do_import "setup.py" None None true
                  Sample.flit_project)))
     = Some (VTable (build_system Sample.DEFAULT_BACKEND)).
Proof.
  split; [reflexivity|].
  destruct (reset_backend_sets_default Sample.FORMATS Sample.DEFAULT_BACKEND
              Sample.resolve_interpreter Sample.str_of_item
              "setup.py" None None Sample.flit_project) as (_ & reach & _).
  exact (reach Sample.setup_py_buildsystem
           (snd (import_metadata Sample.FORMATS "setup.py" None None
                   Sample.flit_project))
           eq_refl).
Defined.

(** C2, as stated, fails: the manifest's build-system table names the
    backend [flit_core.buildapi] and has no [requires]; the import
    supplies build-requires and the backend [setuptools.build_meta]; the
    run raises the usage error about an incomplete section, which
    mentions neither backend. *)
Lemma backend_conflict_without_requires :
  lookup "build-system" (pyproject Sample.backend_without_requires)
  = Some (VTable [Item "build-backend" (VStr "flit_core.buildapi")])
  /\ fst (import_metadata Sample.FORMATS "setup.py" None None
            Sample.backend_without_requires)
     = inr [Item "build-requires" (VList (map VStr Sample.setup_py_requires));
            Item "build-backend" (VStr "setuptools.build_meta")]
  /\ fst (Sample.do_import "setup.py" None None false
            Sample.backend_without_requires)
     = inl (PdmUsageError msg_incomplete)
  /\ ~ mentions "flit_core.buildapi" msg_incomplete
  /\ ~ mentions "setuptools.build_meta" msg_incomplete.
Proof.
  repeat split; try reflexivity; apply not_mentions; reflexivity.
Qed.

Lemma backend_conflict_raises_witness :
  exists msg p',
    Sample.do_import "setup.py" None None false Sample.flit_project
    = (inl (PdmUsageError msg), p')
    /\ mentions "flit_core.buildapi" msg
    /\ mentions "setuptools.build_meta" msg
    /\ lookup "build-system" (pyproject p')
       = Some (VTable
                 [Item "requires" (VList [VStr "flit_core>=3.2"]);
                  Item "build-backend" (VStr "flit_core.buildapi")]).
Proof.
  apply (backend_conflict_raises Sample.FORMATS Sample.DEFAULT_BACKEND
           Sample.resolve_interpreter Sample.str_of_item
           "setup.py" None None Sample.flit_project
           (snd (import_metadata Sample.FORMATS "setup.py" None None
                   Sample.flit_project))
           [Item "build-requires" (VList (map VStr Sample.setup_py_requires));
            Item "build-backend" (VStr "setuptools.build_meta")]
           [Item "requires" (VList [VStr "flit_core>=3.2"]);
            Item "build-backend" (VStr "flit_core.buildapi")]
           (VList [VStr "flit_core>=3.2"])
           (VList (map VStr Sample.setup_py_requires))
           "flit_core.buildapi" "setuptools.build_meta");
    solve [reflexivity | discriminate].
Defined.

Lemma missing_build_system_witness :
  fst (Sample.do_import "Pipfile" None None false Sample.empty)
  = inl (PdmUsageError msg_cannot_create)
  /\ lookup "build-system"
       (pyproject
          (snd (Sample.do_import "setup.py" None None false Sample.empty)))
     = Some (VTable [Item "requires" (VList (map VStr Sample.setup_py_requires));
                     Item "build-backend" (VStr "setuptools.build_meta")]).
Proof.
  split.
  - destruct (missing_build_system Sample.FORMATS Sample.DEFAULT_BACKEND
                Sample.resolve_interpreter Sample.str_of_item
                "Pipfile" None None Sample.empty
                (snd (import_metadata Sample.FORMATS "Pipfile" None None
                        Sample.empty))
                [Item "build-backend" (VStr "setuptools.build_meta")]
                eq_refl eq_refl) as [A _].
    destruct (A (or_intror eq_refl)) as [E _].
    unfold Sample.do_import. rewrite E. reflexivity.
  - destruct (missing_build_system Sample.FORMATS Sample.DEFAULT_BACKEND
                Sample.resolve_interpreter Sample.str_of_item
                "setup.py" None None Sample.empty
                (snd (import_metadata Sample.FORMATS "setup.py" None None
                        Sample.empty))
                [Item "build-requires" (VList (map VStr Sample.setup_py_requires));
                 Item "build-backend" (VStr "setuptools.build_meta")]
                eq_refl eq_refl) as [_ B].
    exact (proj1 (B _ _ eq_refl eq_refl)).
Defined.

Lemma branch_c_appends_witness :
  lookup "build-system"
    (pyproject
       (snd (Sample.do_import "setup.py" None None false
               Sample.setuptools_project)))
  = Some (VTable
            [Item "requires"
               (VList [VStr "setuptools>=61"; VStr "wheel";
                       VStr "cython>=3.0"]);
             Item "build-backend" (VStr "setuptools.build_meta")]).
Proof.
  exact (proj1
           (branch_c_appends Sample.FORMATS Sample.DEFAULT_BACKEND
              Sample.resolve_interpreter Sample.str_of_item
              "setup.py" None None Sample.setuptools_project
              (snd (import_metadata Sample.FORMATS "setup.py" None None
                      Sample.setuptools_project))
              [Item "build-requires" (VList (map VStr Sample.setup_py_requires));
               Item "build-backend" (VStr "setuptools.build_meta")]
              [Item "requires" (VList [VStr "setuptools>=61"; VStr "wheel"]);
               Item "build-backend" (VStr "setuptools.build_meta")]
              ["setuptools>=61"; "wheel"] Sample.setup_py_requires
              "setuptools.build_meta"
              eq_refl eq_refl eq_refl eq_refl eq_refl eq_refl)).
Defined.


(** C6, as stated, fails.  The [project] table of the manifest has a
    name and no [requires-python], and the converter returns a
    [requires-python] of its own, [>=3.6]: the run returns, the
    interpreter is not resolved, no notice is emitted and the key holds
    the converter's value, not [>=3.11] of the interpreter.  And on the
    manifest whose [project] has [requires-python] [>=3.8] the same
    import leaves [>=3.6] there: the value is not left as it was. *)
Lemma requires_python_from_import :
  lookup "project" (pyproject Sample.named_project)
  = Some (VTable [Item "name" (VStr "old")])
  /\ Sample.resolve_interpreter Sample.named_project true
     = inr {| major := 3; minor := 11 |}
  /\ fst (do_import Sample.FORMATS_with_pinned Sample.DEFAULT_BACKEND
            Sample.resolve_interpreter Sample.str_of_item
            "pinned.cfg" None None true Sample.named_project)
     = inr tt
  /\ lookup "project"
       (pyproject
          (snd (do_import Sample.FORMATS_with_pinned Sample.DEFAULT_BACKEND
                  Sample.resolve_interpreter Sample.str_of_item
                  "pinned.cfg" None None true Sample.named_project)))
     = Some (VTable [Item "name" (VStr "pkg");
                     Item "requires-python" (VStr ">=3.6")])
  /\ resolved
       (snd (do_import Sample.FORMATS_with_pinned Sample.DEFAULT_BACKEND
               Sample.resolve_interpreter Sample.str_of_item
               "pinned.cfg" None None true Sample.named_project))
     = []
  /\ echoed
       (snd (do_import Sample.FORMATS_with_pinned Sample.DEFAULT_BACKEND
               Sample.resolve_interpreter Sample.str_of_item
               "pinned.cfg" None None true Sample.named_project))
     = []
  /\ lookup "project" (pyproject Sample.setuptools_project)
     = Some (VTable [Item "name" (VStr "pkg");
                     Item "requires-python" (VStr ">=3.8")])
  /\ fst (do_import Sample.FORMATS_with_pinned Sample.DEFAULT_BACKEND
            Sample.resolve_interpreter Sample.str_of_item
            "pinned.cfg" None None true Sample.setuptools_project)
     = inr tt
  /\ lookup "project"
       (pyproject
          (snd (do_import Sample.FORMATS_with_pinned Sample.DEFAULT_BACKEND
                  Sample.resolve_interpreter Sample.str_of_item
                  "pinned.cfg" None None true Sample.setuptools_project)))
     = Some (VTable [Item "name" (VStr "pkg");
                     Item "requires-python" (VStr ">=3.6")]).
Proof. repeat split; vm_compute; reflexivity. Qed.

Lemma requires_python_default_witness :
  (exists p' project_table,
      Sample.do_import "setup.py" None None true Sample.empty = (inr tt, p')
      /\ lookup "project" (pyproject p') = Some (VTable project_table)
      /\ lookup "requires-python" project_table = Some (VStr ">=3.11")
      /\ resolved p' = [true])
  /\ (exists p' project_table,
         Sample.do_import "setup.py" None None true Sample.setuptools_project
         = (inr tt, p')
         /\ lookup "project" (pyproject p') = Some (VTable project_table)
         /\ lookup "requires-python" project_table = Some (VStr ">=3.8")
         /\ resolved p' = [])
  /\ (exists p' project_table v,
         do_import Sample.FORMATS_with_pinned Sample.DEFAULT_BACKEND
           Sample.resolve_interpreter Sample.str_of_item
           "pinned.cfg" None None true Sample.named_project = (inr tt, p')
         /\ lookup "project" (pyproject p') = Some (VTable project_table)
         /\ lookup "requires-python" project_table = Some v
         /\ resolved p' = []).
Proof.
  split; [|split].
  - destruct (requires_python_default Sample.FORMATS Sample.DEFAULT_BACKEND
                Sample.resolve_interpreter Sample.str_of_item
                "setup.py" None None true Sample.empty
                (snd (import_metadata Sample.FORMATS "setup.py" None None
                        Sample.empty))
                (snd (reconcile_build_system Sample.DEFAULT_BACKEND
                        Sample.str_of_item true Sample.setup_py_buildsystem
                        (snd (import_metadata Sample.FORMATS "setup.py" None
                                None Sample.empty))))
                "setuppy" "setuppy" Sample.setuppy Sample.setup_py_data []
                Sample.setup_py_buildsystem
                eq_refl eq_refl eq_refl eq_refl eq_refl) as [absent _].
    destruct (absent eq_refl (or_introl eq_refl)
                {| major := 3; minor := 11 |} eq_refl)
      as (p' & project_table & Hrun & Hp & Hv & Hr & _).
    exists p', project_table. repeat split; assumption.
  - destruct (requires_python_default Sample.FORMATS Sample.DEFAULT_BACKEND
                Sample.resolve_interpreter Sample.str_of_item
                "setup.py" None None true Sample.setuptools_project
                (snd (import_metadata Sample.FORMATS "setup.py" None None
                        Sample.setuptools_project))
                (snd (reconcile_build_system Sample.DEFAULT_BACKEND
                        Sample.str_of_item true Sample.setup_py_buildsystem
                        (snd (import_metadata Sample.FORMATS "setup.py" None
                                None Sample.setuptools_project))))
                "setuppy" "setuppy" Sample.setuppy Sample.setup_py_data []
                Sample.setup_py_buildsystem
                eq_refl eq_refl eq_refl eq_refl eq_refl) as (_ & present & _).
    destruct (present eq_refl
                [Item "name" (VStr "pkg");
                 Item "requires-python" (VStr ">=3.8")]
                (VStr ">=3.8") eq_refl eq_refl)
      as (p' & project_table & Hrun & Hp & Hv & Hr & _).
    exists p', project_table. repeat split; assumption.
  - destruct (requires_python_default Sample.FORMATS_with_pinned
                Sample.DEFAULT_BACKEND
                Sample.resolve_interpreter Sample.str_of_item
                "pinned.cfg" None None true Sample.named_project
                (snd (import_metadata Sample.FORMATS_with_pinned "pinned.cfg"
                        None None Sample.named_project))
                (snd (reconcile_build_system Sample.DEFAULT_BACKEND
                        Sample.str_of_item true []
                        (snd (import_metadata Sample.FORMATS_with_pinned
                                "pinned.cfg" None None
                                Sample.named_project))))
                "pinned" "pinned" Sample.pinned Sample.pinned_data []
                []
                eq_refl eq_refl eq_refl eq_refl eq_refl) as (_ & _ & supplied).
    destruct (supplied (VStr ">=3.6") eq_refl)
      as (p' & project_table & v & Hrun & Hp & Hv & Hr & _).
    exists p', project_table, v. repeat split; assumption.
Defined.

(** C9, as stated, fails: on the manifest whose [tool.pdm] is the
    string [x] the import of [setup.py], which has no settings, returns
    and writes, and [tool.pdm] is the string still: after this run the
    manifest has no [tool.pdm] table. *)
Lemma scaffolding_needs_tables :
  lookup "tool" (pyproject Sample.pdm_is_string)
  = Some (VTable [Item "pdm" (VStr "x")])
  /\ fst (Sample.do_import "setup.py" None None true Sample.pdm_is_string)
     = inr tt
  /\ lookup "tool"
       (pyproject
          (snd (Sample.do_import "setup.py" None None true
                  Sample.pdm_is_string)))
     = Some (VTable [Item "pdm" (VStr "x")])
  /\ ~ has_tables
       (snd (Sample.do_import "setup.py" None None true
               Sample.pdm_is_string)).
Proof.
  assert (E : lookup "tool"
                (pyproject
                   (snd (Sample.do_import "setup.py" None None true
                           Sample.pdm_is_string)))
              = Some (VTable [Item "pdm" (VStr "x")]))
    by (vm_compute; reflexivity).
  repeat split; try (vm_compute; reflexivity); try exact E.
  intros [_ (tool & pdm & Ht & Hp)].
  rewrite E in Ht. inversion Ht; subst tool. discriminate Hp.
Qed.

Lemma scaffolding_invariant_witness :
  well_shaped (pyproject Sample.empty) = true
  /\ (exists p1,
         scaffold Sample.empty = (inr tt, p1)
         /\ lookup "project" (pyproject p1)
            = Some (VTable
                      [Comment "PEP 621 project metadata";
                       Comment
                         "See https://www.python.org/dev/peps/pep-0621/"]))
  /\ (exists tool pdm,
         lookup "tool" (pyproject Sample.empty_imported) = Some (VTable tool)
         /\ lookup "pdm" tool = Some (VTable pdm))
  /\ (exists rest,
         lookup "project" (pyproject Sample.empty_imported)
         = Some (VTable
                   (Comment "PEP 621 project metadata"
                    :: Comment "See https://www.python.org/dev/peps/pep-0621/"
                    :: rest))).
Proof.
  split; [reflexivity|].
  destruct (scaffolding_invariant Sample.FORMATS Sample.DEFAULT_BACKEND
              Sample.resolve_interpreter Sample.str_of_item
              "setup.py" None None true Sample.empty eq_refl) as [S H].
  split.
  - destruct S as (p1 & tool & pdm & project_table & S1 & _ & _ & S4 & _ & S6).
    exists p1. split; [exact S1|].
    rewrite S4. now rewrite (S6 eq_refl).
  - destruct (H Sample.empty_imported eq_refl) as (_ & T & C).
    split; [exact T|exact (C eq_refl)].
Defined.

Lemma options_default_witness :
  converted
    (snd (Sample.do_import "setup.py" None None true Sample.empty))
  = [("setuppy", "setup.py", {| dev := false; group := None |})].
Proof.
  exact (proj2
           (options_default Sample.FORMATS Sample.DEFAULT_BACKEND
              Sample.resolve_interpreter Sample.str_of_item
              "setup.py" None true Sample.empty)
           "setuppy" "setuppy" Sample.setuppy eq_refl eq_refl).
Defined.

(** * More of the import: the dispatcher, the scaffolding, the frame *)

Section ImportCoverage.

Variable FORMATS : list (string * Converter).
Variable DEFAULT_BACKEND : Backend.
Variable resolve_interpreter : Project -> bool -> exn + Python.
Variable str_of_item : value -> string.

(** ** The choice of the converter, lines 66-78 *)

Lemma find_first {A : Type} (f : A -> bool) (l : list A) (x : A) :
  find f l = Some x ->
  exists before after,
    l = (before ++ x :: after)%list
    /\ f x = true
    /\ forall y, In y before -> f y = false.
Proof.
  induction l as [|a l IH]; [discriminate|].
  cbn [find]. destruct (f a) eqn:Fa.
  - intros H. inversion H; subst. exists [], l. repeat split; auto.
    intros y [].
  - intros H. destruct (IH H) as (before & after & -> & Fx & Hb).
    exists (a :: before), after. repeat split; auto.
    intros y [<-|Hy]; auto.
Qed.

Lemma find_nowhere {A : Type} (f : A -> bool) (l : list A) :
  (forall y, In y l -> f y = false) -> find f l = None.
Proof.
  induction l as [|a l IH]; [reflexivity|].
  intros H. cbn [find]. rewrite (H a (or_introl eq_refl)).
  apply IH. intros y Hy. apply H. now right.
Qed.

Lemma select_format_detects filename format p :
  no_format format = true ->
  select_format FORMATS filename format p
  = match find (fun kc => check_fingerprint (snd kc) p filename) FORMATS with
    | Some (key, _) => (inr key, p)
    | None => (inl (PdmUsageError msg_no_format), p)
    end.
Proof.
  unfold select_format. destruct format as [[|c f]|]; try reflexivity.
  discriminate.
Qed.

(** X1: without a format (none given, or the empty string), when no
    registered converter recognises the file, [do_import] raises the
    usage error that asks for [-f/--format]; no converter is called and
    the project is left as it was. *)
Theorem format_not_detected
        (filename : string) (format : option string)
        (options : option Namespace) (reset_backend : bool) (p : Project) :
  no_format format = true ->
  (forall key converter,
      In (key, converter) FORMATS ->
      check_fingerprint converter p filename = false) ->
  do_import FORMATS DEFAULT_BACKEND resolve_interpreter str_of_item
    filename format options reset_backend p
  = (inl (PdmUsageError msg_no_format), p).
Proof.
  intros Hf Hnone.
  assert (S : select_format FORMATS filename format p
              = (inl (PdmUsageError msg_no_format), p)).
  { rewrite (select_format_detects _ _ _ Hf).
    rewrite find_nowhere; [reflexivity|].
    intros [key converter] Hin. exact (Hnone key converter Hin). }
  unfold do_import, import_metadata.
  apply bind_raise. now apply bind_raise.
Qed.

(** X2: without a format, the converter chosen is the first one of the
    registry, in its order, that recognises the file: the selection
    returns its key, every converter registered before it does not
    recognise the file, and the project is not touched. *)
Theorem format_detection_first_match
        (filename : string) (format : option string) (p p' : Project)
        (key : string) :
  no_format format = true ->
  select_format FORMATS filename format p = (inr key, p') ->
  p' = p
  /\ exists before converter after,
      FORMATS = (before ++ (key, converter) :: after)%list
      /\ check_fingerprint converter p filename = true
      /\ forall k c,
          In (k, c) before -> check_fingerprint c p filename = false.
Proof.
  intros Hf H. rewrite (select_format_detects _ _ _ Hf) in H.
  destruct (find _ FORMATS) as [[k converter]|] eqn:F; [|discriminate].
  inversion H; subst. split; [reflexivity|].
  destruct (find_first _ _ _ F) as (before & after & E & C & B).
  exists before, converter, after. repeat split; auto.
  intros k c Hin. exact (B (k, c) Hin).
Qed.

(** X3: a format given explicitly is used as the key without any
    fingerprint check; when no converter is registered under it,
    [do_import] raises [KeyError] for that key and leaves the project as
    it was. *)
Theorem unknown_format_key_error
        (filename : string) (c : ascii) (f : string)
        (options : option Namespace) (reset_backend : bool) (p : Project) :
  (forall key converter,
      In (key, converter) FORMATS -> key <> String c f) ->
  do_import FORMATS DEFAULT_BACKEND resolve_interpreter str_of_item
    filename (Some (String c f)) options reset_backend p
  = (inl (KeyError (String c f)), p).
Proof.
  intros Hnone.
  unfold do_import, import_metadata.
  apply bind_raise.
  unfold bind at 1, select_format.
  apply bind_raise. unfold call_convert.
  rewrite find_nowhere; [reflexivity|].
  intros [key converter] Hin. cbn [fst].
  apply String.eqb_neq. exact (Hnone key converter Hin).
Qed.

(** X4: an error of the converter is passed on unchanged: [do_import]
    raises it right after the call, with the manifest not modified,
    nothing echoed, no interpreter resolved and nothing written. *)
Theorem converter_error_propagates
        (filename : string) (format : option string)
        (options : option Namespace) (reset_backend : bool) (p : Project)
        (key k : string) (converter : Converter) (e : exn) :
  fst (select_format FORMATS filename format p) = inr key ->
  find (fun kc => String.eqb (fst kc) key) FORMATS = Some (k, converter) ->
  convert converter p filename (default_options options) = inl e ->
  do_import FORMATS DEFAULT_BACKEND resolve_interpreter str_of_item
    filename format options reset_backend p
  = (inl e,
     {| pyproject := pyproject p; echoed := echoed p;
        converted :=
          (converted p ++ [(key, filename, default_options options)])%list;
        resolved := resolved p; written := written p |}).
Proof.
  intros Hk Hf Hc.
  pose proof (select_format_pure FORMATS filename format p) as Hp.
  destruct (select_format FORMATS filename format p) as [r pk] eqn:Hs.
  cbn [fst snd] in Hk, Hp. subst r pk.
  unfold do_import, import_metadata.
  apply bind_raise. rewrite (bind_ok _ _ _ _ _ Hs).
  apply bind_raise. unfold call_convert. now rewrite Hf, Hc.
Qed.

(** ** The reserved keys of the metadata, lines 81-84 *)

Lemma lookup_keys (key : string) (d : dict) :
  lookup key d = None <-> ~ In key (keys d).
Proof.
  induction d as [|[k w|c] d IH]; cbn [keys].
  - split; [intros _ []|reflexivity].
  - unfold lookup; fold lookup.
    destruct (String.eqb k key) eqn:E.
    + apply String.eqb_eq in E. subst k. split; [discriminate|].
      intros N. exfalso. apply N. now left.
    + apply String.eqb_neq in E. rewrite IH. split.
      * intros N [H|H]; [congruence|exact (N H)].
      * intros N H. apply N. now right.
  - exact IH.
Qed.

Lemma pop_keys (key : string) (d d' : dict) (v : value) :
  pop key d = Some (v, d') -> forall k, In k (keys d') -> In k (keys d).
Proof.
  revert d'. induction d as [|[k w|c] d IH]; intros d'; cbn [pop].
  - discriminate.
  - destruct (String.eqb k key).
    + intros H. inversion H; subst. intros k' Hk. now right.
    + destruct (pop key d) as [[x rest]|]; [|discriminate].
      intros H. inversion H; subst. cbn [keys].
      intros k' [Hk|Hk]; [now left|right; exact (IH rest eq_refl k' Hk)].
  - destruct (pop key d) as [[x rest]|]; [|discriminate].
    intros H. inversion H; subst. exact (IH rest eq_refl).
Qed.

(** On a dictionary, whose keys are distinct, [pop] takes the key away. *)
Lemma pop_removes (key : string) (d d' : dict) (v : value) :
  NoDup (keys d) ->
  pop key d = Some (v, d') ->
  lookup key d' = None /\ NoDup (keys d').
Proof.
  revert d'. induction d as [|[k w|c] d IH]; intros d' U; cbn [pop].
  - discriminate.
  - cbn [keys] in U. inversion U as [|? ? Hk Hd]; subst.
    destruct (String.eqb k key) eqn:E.
    + apply String.eqb_eq in E. subst k.
      intros H. inversion H; subst. split; [now apply lookup_keys|exact Hd].
    + destruct (pop key d) as [[x rest]|] eqn:P; [|discriminate].
      intros H. inversion H; subst.
      destruct (IH rest Hd eq_refl) as [L N]. split.
      * unfold lookup; fold lookup. now rewrite E.
      * cbn [keys]. constructor; [|exact N].
        intros Hin. apply Hk. exact (pop_keys _ _ _ _ P k Hin).
  - destruct (pop key d) as [[x rest]|] eqn:P; [|discriminate].
    intros H. inversion H; subst. exact (IH rest U eq_refl).
Qed.

(** X5: the extraction moves the values under [-build-requires] and
    [-build-backend] of the converter's metadata to [build-requires] and
    [build-backend] of the build-system data, which gets no other key; a
    reserved key that is missing is skipped without error; the metadata
    that goes on to the merge has lost the two reserved keys and kept
    every other key with its value. *)
Theorem extract_buildsystem_moves (project_data : dict) :
  NoDup (keys project_data) ->
  let buildsystem_data := fst (extract_buildsystem project_data) in
  let remaining := snd (extract_buildsystem project_data) in
  lookup "build-requires" buildsystem_data
  = lookup "-build-requires" project_data
  /\ lookup "build-backend" buildsystem_data
     = lookup "-build-backend" project_data
  /\ (forall key,
         key <> "build-requires" -> key <> "build-backend" ->
         lookup key buildsystem_data = None)
  /\ lookup "-build-requires" remaining = None
  /\ lookup "-build-backend" remaining = None
  /\ (forall key,
         key <> "-build-requires" -> key <> "-build-backend" ->
         lookup key remaining = lookup key project_data).
Proof.
  intros U buildsystem_data remaining.
  destruct (extract_buildsystem_lookup project_data) as [L1 L2].
  split; [exact L1|]. split; [exact L2|].
  subst buildsystem_data remaining. clear L1 L2.
  unfold extract_buildsystem. cbn [fold_left append].
  destruct (pop "-build-requires" project_data) as [[v1 d1]|] eqn:P1.
  - destruct (pop_found _ _ _ _ P1) as [_ R1].
    destruct (pop_removes _ _ _ _ U P1) as [N1 U1].
    destruct (pop "-build-backend" d1) as [[v2 d2]|] eqn:P2;
      cbn [fst snd].
    + destruct (pop_found _ _ _ _ P2) as [_ R2].
      destruct (pop_removes _ _ _ _ U1 P2) as [N2 _].
      split; [|split; [|split]].
      * intros key A B.
        rewrite lookup_set_item_neq by congruence.
        now rewrite lookup_set_item_neq by congruence.
      * rewrite R2 by discriminate. exact N1.
      * exact N2.
      * intros key A B. rewrite R2, R1 by congruence. reflexivity.
    + apply pop_missing in P2.
      split; [|split; [|split]].
      * intros key A B. now rewrite lookup_set_item_neq by congruence.
      * exact N1.
      * exact P2.
      * intros key A B. now rewrite R1 by congruence.
  - apply pop_missing in P1.
    destruct (pop "-build-backend" project_data) as [[v2 d2]|] eqn:P2;
      cbn [fst snd].
    + destruct (pop_found _ _ _ _ P2) as [_ R2].
      destruct (pop_removes _ _ _ _ U P2) as [N2 _].
      split; [|split; [|split]].
      * intros key A B. now rewrite lookup_set_item_neq by congruence.
      * rewrite R2 by discriminate. exact P1.
      * exact N2.
      * intros key A B. now rewrite R2 by congruence.
    + apply pop_missing in P2.
      split; [|split; [|split]]; auto.
Qed.

(** ** The scaffolding, lines 86-96 *)

(** X6: a [tool.pdm.build] that is a string -- the legacy form -- is
    replaced by the table of [setup-script], holding that string, and
    [run-setuptools], true; the other entries of [tool.pdm], of [tool]
    and of the manifest stay as they are.  A [build] that is absent or
    is no string is left alone, and so is the whole project. *)
Theorem legacy_build_normalised (q : Project) (tool pdm : dict) :
  lookup "tool" (pyproject q) = Some (VTable tool) ->
  lookup "pdm" tool = Some (VTable pdm) ->
  (forall script,
      lookup "build" pdm = Some (VStr script) ->
      exists q' tool' pdm',
        normalize_build q = (inr tt, q')
        /\ lookup "tool" (pyproject q') = Some (VTable tool')
        /\ lookup "pdm" tool' = Some (VTable pdm')
        /\ lookup "build" pdm'
           = Some (VTable [Item "setup-script" (VStr script);
                           Item "run-setuptools" (VBool true)])
        /\ (forall key, key <> "build" -> lookup key pdm' = lookup key pdm)
        /\ (forall key, key <> "pdm" -> lookup key tool' = lookup key tool)
        /\ (forall key,
               key <> "tool" ->
               lookup key (pyproject q') = lookup key (pyproject q)))
  /\ ((forall script, lookup "build" pdm <> Some (VStr script)) ->
      normalize_build q = (inr tt, q)).
Proof.
  intros Ht Hp. split.
  - intros script Hb.
    eexists _, _, _. split.
    + unfold normalize_build, bind, get_pyproject, lift, get_table, py_getitem, py_in, contains, py_setitem, merge_into.
      rewrite Ht, Hp, Hb. reflexivity.
    + cbn [pyproject].
      rewrite !lookup_set_item_eq. repeat split.
      * intros key N. now apply lookup_set_item_neq.
      * intros key N. now apply lookup_set_item_neq.
      * intros key N. now apply lookup_set_item_neq.
  - intros Hb.
    unfold normalize_build, bind, get_pyproject, lift, get_table, py_getitem, py_in, contains, py_setitem, merge_into.
    rewrite Ht, Hp.
    destruct (lookup "build" pdm) as [[script| | | |]|]; try reflexivity.
    now destruct (Hb script).
Qed.

Lemma normalize_build_inv (a b : Project) :
  normalize_build a = (inr tt, b) ->
  exists tool pdm,
    lookup "tool" (pyproject b) = Some (VTable tool)
    /\ lookup "pdm" tool = Some pdm
    /\ (py_in "build" pdm = inr false
        \/ exists t v,
            pdm = VTable t
            /\ lookup "build" t = Some v
            /\ forall script, v <> VStr script).
Proof.
  unfold normalize_build, bind, get_pyproject, set_pyproject, ret, lift,
    py_getitem.
  destruct (lookup "tool" (pyproject a)) as [[| | | |tool]|] eqn:Ht;
    try discriminate.
  destruct (lookup "pdm" tool) as [pdm|] eqn:Hp; try discriminate.
  destruct (py_in "build" pdm) as [e|[|]] eqn:Hin; try discriminate.
  - destruct pdm as [s|x|z|l|t]; try discriminate.
    unfold py_in, contains in Hin.
    destruct (lookup "build" t) as [v|] eqn:Hb; try discriminate.
    destruct v as [script| | | |]; unfold py_setitem;
      intros H; inversion H; subst.
    + eexists _, _. cbn [pyproject].
      split; [apply lookup_set_item_eq|].
      split; [apply lookup_set_item_eq|].
      right. eexists _, _. split; [reflexivity|].
      split; [apply lookup_set_item_eq|]. discriminate.
    + exists tool, (VTable t). repeat split; auto.
      right. eexists _, _. repeat split; eauto. discriminate.
    + exists tool, (VTable t). repeat split; auto.
      right. eexists _, _. repeat split; eauto. discriminate.
    + exists tool, (VTable t). repeat split; auto.
      right. eexists _, _. repeat split; eauto. discriminate.
    + exists tool, (VTable t). repeat split; auto.
      right. eexists _, _. repeat split; eauto. discriminate.
  - intros H. inversion H; subst.
    exists tool, pdm. repeat split; auto.
Qed.

Lemma ensure_project_inv (b c : Project) :
  ensure_project b = (inr tt, c) ->
  contains "project" (pyproject c) = true
  /\ lookup "tool" (pyproject c) = lookup "tool" (pyproject b).
Proof.
  unfold ensure_project, bind, get_pyproject, set_pyproject, ret.
  destruct (contains "project" (pyproject b)) eqn:C;
    intros H; inversion H; subst.
  - now split.
  - cbn [pyproject]. split.
    + apply contains_true. eexists. apply lookup_add_eq.
      now apply contains_false.
    + now apply lookup_add_neq.
Qed.

(** X10: the scaffolding is idempotent: run on the project that a first
    scaffolding returned, it returns and changes nothing. *)
Theorem scaffold_idempotent (p p1 : Project) :
  scaffold p = (inr tt, p1) -> scaffold p1 = (inr tt, p1).
Proof.
  unfold scaffold at 1. intros H.
  apply bind_ok_inv in H. destruct H as ([] & a & Ha & H).
  apply bind_ok_inv in H. destruct H as ([] & b & Hb & Hc).
  destruct (normalize_build_inv _ _ Hb) as (tool & pdm & Ht & Hp & Hbuild).
  destruct (ensure_project_inv _ _ Hc) as [Cp Et].
  rewrite <- Et in Ht.
  assert (S1 : ensure_tool_pdm p1 = (inr tt, p1)).
  { unfold ensure_tool_pdm, bind, get_pyproject, ret, lift, py_in, contains.
    now rewrite Ht, Hp. }
  assert (S2 : normalize_build p1 = (inr tt, p1)).
  { unfold normalize_build, bind, get_pyproject, ret, lift, py_getitem.
    rewrite Ht, Hp.
    destruct Hbuild as [E|(t & v & -> & Hv & N)].
    - now rewrite E.
    - unfold py_in, contains. rewrite Hv.
      destruct v as [script| | | |]; try reflexivity.
      now destruct (N script). }
  assert (S3 : ensure_project p1 = (inr tt, p1)).
  { unfold ensure_project, bind, get_pyproject, ret. now rewrite Cp. }
  unfold scaffold. rewrite (bind_ok _ _ _ _ _ S1).
  now rewrite (bind_ok _ _ _ _ _ S2).
Qed.

(** ** The other branches of the build-system step, lines 118-143 *)

Lemma import_keeps_build_system filename format options p p1 buildsystem_data :
  import_metadata FORMATS filename format options p
  = (inr buildsystem_data, p1) ->
  lookup "build-system" (pyproject p1) = lookup "build-system" (pyproject p).
Proof.
  intros H.
  pose proof (import_metadata_same_build_system FORMATS filename format
                options p) as F.
  rewrite H in F. exact F.
Qed.

(** X7: when the manifest has a build-system table that lacks
    [requires] or [build-backend], [reset_backend] is false and the
    import supplies both build-requires and build-backend, a run of
    [do_import] that gets to the build-system step raises the usage
    error about the incomplete section, and the table is as it was. *)
Theorem incomplete_build_system_raises
        (filename : string) (format : option string)
        (options : option Namespace) (p p1 : Project)
        (buildsystem_data pybuildsystem : dict)
        (build_backend build_requires : value) :
  import_metadata FORMATS filename format options p
  = (inr buildsystem_data, p1) ->
  lookup "build-system" (pyproject p) = Some (VTable pybuildsystem) ->
  lookup "requires" pybuildsystem = None
  \/ lookup "build-backend" pybuildsystem = None ->
  lookup "build-backend" buildsystem_data = Some build_backend ->
  lookup "build-requires" buildsystem_data = Some build_requires ->
  do_import FORMATS DEFAULT_BACKEND resolve_interpreter str_of_item
    filename format options false p
  = (inl (PdmUsageError msg_incomplete), p1)
  /\ lookup "build-system" (pyproject p1) = Some (VTable pybuildsystem).
Proof.
  intros H Hbs Hmiss Hbk Hbr.
  assert (Hbs1 : lookup "build-system" (pyproject p1)
                 = Some (VTable pybuildsystem)).
  { rewrite (import_keeps_build_system _ _ _ _ _ _ H). exact Hbs. }
  split; [|exact Hbs1].
  unfold do_import. rewrite (bind_ok _ _ _ _ _ H). apply bind_raise.
  unfold reconcile_build_system, bind, get_pyproject, contains, lift,
    get_table, py_getitem, py_in, py_setitem, merge_into, raise.
  rewrite Hbs1. cbn [negb]. rewrite Hbk, Hbr.
  destruct Hmiss as [M|M]; rewrite M;
    [|destruct (lookup "requires" pybuildsystem)]; reflexivity.
Qed.

(** X8: when the manifest has a build-system entry, [reset_backend] is
    false and the import lacks build-backend or build-requires, the
    build-system step does nothing: it returns with the project as it
    was, whatever the entry holds, and the run leaves the entry as it
    found it. *)
Theorem partial_import_keeps_build_system
        (filename : string) (format : option string)
        (options : option Namespace) (p p1 : Project)
        (buildsystem_data : dict) (found : value) :
  import_metadata FORMATS filename format options p
  = (inr buildsystem_data, p1) ->
  lookup "build-system" (pyproject p) = Some found ->
  lookup "build-backend" buildsystem_data = None
  \/ lookup "build-requires" buildsystem_data = None ->
  reconcile_build_system DEFAULT_BACKEND str_of_item false
    buildsystem_data p1 = (inr tt, p1)
  /\ lookup "build-system"
       (pyproject
          (snd (do_import FORMATS DEFAULT_BACKEND resolve_interpreter
                  str_of_item filename format options false p)))
     = Some found.
Proof.
  intros H Hbs Hmiss.
  assert (Hbs1 : lookup "build-system" (pyproject p1) = Some found).
  { rewrite (import_keeps_build_system _ _ _ _ _ _ H). exact Hbs. }
  assert (R : reconcile_build_system DEFAULT_BACKEND str_of_item false
                buildsystem_data p1 = (inr tt, p1)).
  { unfold reconcile_build_system, bind, get_pyproject, contains, ret.
    rewrite Hbs1. cbn [negb].
    destruct Hmiss as [M|M]; rewrite M;
      [|destruct (lookup "build-backend" buildsystem_data)]; reflexivity. }
  split; [exact R|].
  unfold do_import. rewrite (bind_ok _ _ _ _ _ H).
  rewrite (bind_ok _ _ _ _ _ R).
  rewrite (finish_same_build_system resolve_interpreter p1). exact Hbs1.
Qed.

Lemma added_nothing (existing build_requires : list string) :
  (forall build_req,
      In build_req build_requires ->
      exists existing_req,
        In existing_req existing
        /\ req_get_stem existing_req = req_get_stem build_req) ->
  added existing build_requires = [].
Proof.
  intros H.
  destruct (added existing build_requires) as [|r new] eqn:E; [reflexivity|].
  assert (Hin : In r (added existing build_requires))
    by (rewrite E; now left).
  apply added_iff in Hin. destruct Hin as [Hin N].
  destruct N. exact (H r Hin).
Qed.

(** X17: in branch (c), when every requirement of the import has the
    stem of an existing requirement -- in particular when the import's
    list is empty -- the build-system step returns with the project as
    it was: nothing is merged and no notice is emitted. *)
Theorem branch_c_nothing_new
        (buildsystem_data pybuildsystem : dict)
        (existing build_requires : list string) (backend : string)
        (q : Project) :
  lookup "build-system" (pyproject q) = Some (VTable pybuildsystem) ->
  lookup "requires" pybuildsystem = Some (VList (map VStr existing)) ->
  lookup "build-backend" pybuildsystem = Some (VStr backend) ->
  lookup "build-backend" buildsystem_data = Some (VStr backend) ->
  lookup "build-requires" buildsystem_data
  = Some (VList (map VStr build_requires)) ->
  (forall build_req,
      In build_req build_requires ->
      exists existing_req,
        In existing_req existing
        /\ req_get_stem existing_req = req_get_stem build_req) ->
  reconcile_build_system DEFAULT_BACKEND str_of_item false
    buildsystem_data q = (inr tt, q).
Proof.
  intros Hbs Hreq Hbk Hbsd Hbr Hall.
  rewrite (reconcile_branch_c _ _ _ _ _ _ _ _ _ Hbs Hreq Hbk Hbsd Hbr).
  rewrite String.eqb_refl.
  unfold bind at 1, lift at 1, as_list. unfold bind at 1, lift at 1.
  rewrite new_requirements_strings, (added_nothing _ _ Hall).
  reflexivity.
Qed.

(** ** What a run leaves alone *)

Lemma same_key_refl key p : same_key key p p.
Proof. reflexivity. Qed.

Lemma same_key_trans key p q r :
  same_key key p q -> same_key key q r -> same_key key p r.
Proof. unfold same_key. congruence. Qed.

Section OtherKeys.

Variable key : string.
Hypothesis not_tool : key <> "tool".
Hypothesis not_project : key <> "project".
Hypothesis not_build_system : key <> "build-system".

Ltac frame_key :=
  intros p; step_cases; unfold same_key; simpl;
  rewrite ?lookup_set_item_neq, ?lookup_add_neq by congruence;
  auto.

Ltac seq_key :=
  apply keeps_bind; [apply same_key_trans| |intros ?].

Lemma scaffold_same_key : keeps (same_key key) scaffold.
Proof.
  unfold scaffold.
  seq_key; [unfold ensure_tool_pdm; frame_key|].
  seq_key; [unfold normalize_build; frame_key|].
  unfold ensure_project; frame_key.
Qed.

Lemma import_metadata_same_key filename format options :
  keeps (same_key key) (import_metadata FORMATS filename format options).
Proof.
  unfold import_metadata.
  seq_key; [intros p; rewrite select_format_pure; reflexivity|].
  seq_key; [unfold call_convert; frame_key|].
  destruct a0 as [project_data settings].
  destruct (extract_buildsystem project_data) as [buildsystem_data data].
  seq_key; [apply scaffold_same_key|].
  seq_key; [unfold merge_project; frame_key|].
  seq_key; [unfold merge_settings; frame_key|].
  apply keeps_ret, same_key_refl.
Qed.

(** X11: [do_import] touches three entries of the manifest and no
    other: whatever the run does and however it ends, the item under
    any key other than [tool], [project] and [build-system] is the one
    the manifest had. *)
Theorem other_sections_untouched
        (filename : string) (format : option string)
        (options : option Namespace) (reset_backend : bool) (p : Project) :
  lookup key
    (pyproject
       (snd (do_import FORMATS DEFAULT_BACKEND resolve_interpreter
               str_of_item filename format options reset_backend p)))
  = lookup key (pyproject p).
Proof.
  revert p.
  change (keeps (same_key key)
            (do_import FORMATS DEFAULT_BACKEND resolve_interpreter
               str_of_item filename format options reset_backend)).
  unfold do_import.
  seq_key; [apply import_metadata_same_key|].
  seq_key; [unfold reconcile_build_system; frame_key|].
  seq_key;
    [unfold default_requires_python, call_resolve_interpreter; frame_key|].
  frame_key.
Qed.

End OtherKeys.

Lemma tool_siblings_kept_refl p : tool_siblings_kept p p.
Proof. intros tool H. now exists tool. Qed.

Lemma tool_siblings_kept_trans p q r :
  tool_siblings_kept p q -> tool_siblings_kept q r -> tool_siblings_kept p r.
Proof.
  intros A B tool H.
  destruct (A tool H) as (tool1 & H1 & E1).
  destruct (B tool1 H1) as (tool2 & H2 & E2).
  exists tool2. split; [exact H2|].
  intros key N. now rewrite E2, E1.
Qed.

Lemma same_tool_siblings_kept p q : same_tool p q -> tool_siblings_kept p q.
Proof.
  unfold same_tool. intros E tool H. exists tool. split; [congruence|auto].
Qed.

Lemma ensure_tool_pdm_siblings : keeps tool_siblings_kept ensure_tool_pdm.
Proof.
  intros p tool Ht.
  unfold ensure_tool_pdm, bind, get_pyproject, set_pyproject, ret, lift,
    py_in, py_setitem.
  rewrite Ht. destruct (contains "pdm" tool); cbn [snd pyproject negb].
  - now exists tool.
  - eexists. rewrite lookup_set_item_eq. split; [reflexivity|].
    intros key N. now apply lookup_set_item_neq.
Qed.

Lemma normalize_build_siblings : keeps tool_siblings_kept normalize_build.
Proof.
  intros p tool Ht.
  unfold normalize_build, bind, get_pyproject, set_pyproject, ret, lift.
  cbn [py_getitem]. rewrite Ht. cbn [py_getitem].
  destruct (lookup "pdm" tool) as [pdm|];
    try (exists tool; split; [exact Ht|auto]).
  destruct (py_in "build" pdm) as [e|[|]];
    try (exists tool; split; [exact Ht|auto]).
  destruct (py_getitem pdm "build") as [e'|[script| | | |]];
    try (exists tool; split; [exact Ht|auto]).
  destruct (py_setitem pdm "build" _) as [e|pdm'];
    try (exists tool; split; [exact Ht|auto]).
  cbn [snd pyproject py_setitem]. eexists. rewrite lookup_set_item_eq.
  split; [reflexivity|]. intros key N. now apply lookup_set_item_neq.
Qed.

Lemma merge_settings_siblings settings :
  keeps tool_siblings_kept (merge_settings settings).
Proof.
  intros p tool Ht.
  unfold merge_settings, bind, get_pyproject, set_pyproject, ret, lift.
  cbn [py_getitem]. rewrite Ht. cbn [py_getitem].
  destruct (lookup "pdm" tool) as [pdm|];
    try (exists tool; split; [exact Ht|auto]).
  destruct (merge_into pdm settings) as [e|pdm'];
    try (exists tool; split; [exact Ht|auto]).
  cbn [snd pyproject py_setitem]. eexists. rewrite lookup_set_item_eq.
  split; [reflexivity|]. intros key N. now apply lookup_set_item_neq.
Qed.

Ltac frame_tool :=
  intros p; apply same_tool_siblings_kept; revert p;
  intros p; step_cases; unfold same_tool; simpl;
  rewrite ?lookup_set_item_neq, ?lookup_add_neq by discriminate;
  auto.

Ltac seq_tool :=
  apply keeps_bind; [apply tool_siblings_kept_trans| |intros ?].

(** X12: of a [tool] table, [do_import] changes the [pdm] entry only:
    whatever the run does and however it ends, the manifest still has a
    [tool] table and every other entry of it -- the settings of other
    tools -- is as it was. *)
Theorem other_tools_untouched
        (filename : string) (format : option string)
        (options : option Namespace) (reset_backend : bool) (p : Project) :
  forall tool,
    lookup "tool" (pyproject p) = Some (VTable tool) ->
    exists tool',
      lookup "tool"
        (pyproject
           (snd (do_import FORMATS DEFAULT_BACKEND resolve_interpreter
                   str_of_item filename format options reset_backend p)))
      = Some (VTable tool')
      /\ forall key, key <> "pdm" -> lookup key tool' = lookup key tool.
Proof.
  revert p.
  change (keeps tool_siblings_kept
            (do_import FORMATS DEFAULT_BACKEND resolve_interpreter
               str_of_item filename format options reset_backend)).
  unfold do_import, import_metadata.
  seq_tool.
  - seq_tool;
      [intros p; rewrite select_format_pure; apply tool_siblings_kept_refl|].
    seq_tool; [unfold call_convert; frame_tool|].
    destruct a0 as [project_data settings].
    destruct (extract_buildsystem project_data) as [buildsystem_data data].
    seq_tool.
    { unfold scaffold.
      seq_tool; [apply ensure_tool_pdm_siblings|].
      seq_tool; [apply normalize_build_siblings|].
      unfold ensure_project; frame_tool. }
    seq_tool; [unfold merge_project; frame_tool|].
    seq_tool; [apply merge_settings_siblings|].
    apply keeps_ret, tool_siblings_kept_refl.
  - seq_tool;
      [intros p; apply same_tool_siblings_kept, reconcile_same_tool|].
    seq_tool;
      [intros p;
       apply same_tool_siblings_kept, default_requires_python_same_tool|].
    frame_tool.
Qed.

(** ** The interpreter and the write, lines 145-153 *)

Lemma default_requires_python_same_written :
  keeps same_written (default_requires_python resolve_interpreter).
Proof.
  unfold default_requires_python, call_resolve_interpreter.
  intros p; step_cases; reflexivity.
Qed.

Lemma default_requires_python_resolves_once (p : Project) :
  let p' := snd (default_requires_python resolve_interpreter p) in
  resolved p' = resolved p \/ resolved p' = (resolved p ++ [true])%list.
Proof.
  unfold default_requires_python, call_resolve_interpreter.
  step_cases; auto.
Qed.

(** X9: the manifest is written once, at the end of a run that returns,
    and what is written is the manifest as the run left it; a run that
    raises, at whatever step, writes nothing. *)
Theorem written_once_at_the_end
        (filename : string) (format : option string)
        (options : option Namespace) (reset_backend : bool)
        (p p' : Project) (r : exn + unit) :
  do_import FORMATS DEFAULT_BACKEND resolve_interpreter str_of_item
    filename format options reset_backend p = (r, p') ->
  match r with
  | inr _ => written p' = (written p ++ [pyproject p'])%list
  | inl _ => written p' = written p
  end.
Proof.
  unfold do_import. intros H.
  apply bind_inv in H. destruct H as [(e & H & ->)|(bsd & p1 & H1 & H)].
  { pose proof (import_metadata_silent FORMATS filename format options p)
      as F.
    rewrite H in F. apply F. }
  assert (W1 : written p1 = written p).
  { pose proof (import_metadata_silent FORMATS filename format options p)
      as F.
    rewrite H1 in F. apply F. }
  apply bind_inv in H. destruct H as [(e & H & ->)|([] & p2 & H2 & H)].
  { pose proof (reconcile_same_written DEFAULT_BACKEND str_of_item
                  reset_backend bsd p1) as F.
    rewrite H in F. unfold same_written in F. cbn [snd] in F. congruence. }
  assert (W2 : written p2 = written p).
  { pose proof (reconcile_same_written DEFAULT_BACKEND str_of_item
                  reset_backend bsd p1) as F.
    rewrite H2 in F. unfold same_written in F. cbn [snd] in F. congruence. }
  apply bind_inv in H. destruct H as [(e & H & ->)|([] & p3 & H3 & H)].
  { pose proof (default_requires_python_same_written p2) as F.
    rewrite H in F. unfold same_written in F. cbn [snd] in F. congruence. }
  assert (W3 : written p3 = written p).
  { pose proof (default_requires_python_same_written p2) as F.
    rewrite H3 in F. unfold same_written in F. cbn [snd] in F. congruence. }
  unfold write in H. inversion H; subst. cbn [written pyproject].
  now rewrite W3.
Qed.

(** X13: a run of [do_import] resolves the interpreter at most once,
    and then with [in_import=True]. *)
Theorem interpreter_resolved_at_most_once
        (filename : string) (format : option string)
        (options : option Namespace) (reset_backend : bool) (p : Project) :
  let p' :=
    snd (do_import FORMATS DEFAULT_BACKEND resolve_interpreter str_of_item
           filename format options reset_backend p) in
  resolved p' = resolved p \/ resolved p' = (resolved p ++ [true])%list.
Proof.
  unfold do_import, bind.
  pose proof (import_metadata_silent FORMATS filename format options p) as F.
  destruct (import_metadata FORMATS filename format options p)
    as [[e|bsd] p1]; cbn [snd] in *.
  { left. apply F. }
  destruct F as (_ & R1 & _).
  pose proof (reconcile_same_resolved DEFAULT_BACKEND str_of_item
                reset_backend bsd p1) as G.
  destruct (reconcile_build_system DEFAULT_BACKEND str_of_item reset_backend
              bsd p1) as [[e|[]] p2]; unfold same_resolved in G;
    cbn [snd] in *.
  { left. congruence. }
  pose proof (default_requires_python_resolves_once p2) as D.
  destruct (default_requires_python resolve_interpreter p2)
    as [[e|[]] p3]; cbn [snd resolved write] in *;
    destruct D as [D|D]; rewrite D, G, R1; auto.
Qed.

(** ** The stem, lines 59-64 *)

Lemma all_chars_remove_spaces (p : ascii -> bool) (s : string) :
  all_chars p s = true -> all_chars p (remove_spaces s) = true.
Proof.
  induction s as [|c s IH]; [reflexivity|].
  cbn [all_chars remove_spaces]. intros H.
  apply andb_true_iff in H. destruct H as [Hc H].
  destruct (Ascii.eqb c " "); [now apply IH|].
  cbn [all_chars]. now rewrite Hc, IH.
Qed.

Lemma remove_spaces_no_space (s : string) :
  all_chars is_not_space (remove_spaces s) = true.
Proof.
  induction s as [|c s IH]; [reflexivity|].
  cbn [remove_spaces]. destruct (Ascii.eqb c " ") eqn:E; [exact IH|].
  cbn [all_chars]. unfold is_not_space at 1. now rewrite E, IH.
Qed.

(** A substitution by the empty string brings no character in. *)
Lemma re_sub_from_all_chars (p : ascii -> bool) (r : regex) (s : string) :
  all_chars p s = true ->
  forall skip, all_chars p (re_sub_from r EmptyString skip s) = true.
Proof.
  induction s as [|c s IH]; [reflexivity|].
  cbn [all_chars]. intros H. apply andb_true_iff in H.
  destruct H as [Hc H]. intros [|n]; cbn [re_sub_from].
  - destruct (match_here r (String c s)) as [rest|].
    + destruct (Nat.ltb (String.length rest) (String.length (String c s))).
      * cbn [append]. now apply IH.
      * cbn [all_chars]. now rewrite Hc, IH.
    + cbn [all_chars]. now rewrite Hc, IH.
  - now apply IH.
Qed.

Lemma star_set_fails {A : Type} (p q : ascii -> bool) (s : string)
      (k : string -> option A) :
  (forall t, all_chars q t = true -> k t = None) ->
  all_chars q s = true ->
  star_set p s k = None.
Proof.
  intros Hk. induction s as [|c s IH]; intros H; cbn [star_set].
  - now apply Hk.
  - pose proof (Hk _ H) as K. cbn [all_chars] in H.
    apply andb_true_iff in H. destruct H as [_ H].
    destruct (p c); [now rewrite (IH H)|exact K].
Qed.

Lemma rmatch_opt {A : Type} (r : regex) (s : string)
      (k : string -> option A) :
  rmatch (Opt r) s k
  = match rmatch r s k with Some x => Some x | None => k s end.
Proof. reflexivity. Qed.

Lemma rmatch_plus {A : Type} (p : ascii -> bool) (s : string)
      (k : string -> option A) :
  rmatch (Plus p) s k
  = match s with
    | String c s' => if p c then star_set p s' k else None
    | EmptyString => None
    end.
Proof. reflexivity. Qed.

Lemma rmatch_class_at {A : Type} (p : ascii -> bool) (s : string)
      (k : string -> option A) :
  rmatch (Class p) s k
  = match s with
    | String c s' => if p c then k s' else None
    | EmptyString => None
    end.
Proof. reflexivity. Qed.

Lemma all_chars_tail (p : ascii -> bool) (c : ascii) (s : string) :
  all_chars p (String c s) = true -> all_chars p s = true.
Proof. cbn [all_chars]. intros H. now apply andb_true_iff in H. Qed.

(** Where no operator is left, the suffix pattern does not match. *)
Lemma no_operator_no_match (s : string) :
  all_chars is_not_operator s = true -> match_here suffix_re s = None.
Proof.
  intros H.
  set (version_part :=
         fun s' : string =>
           rmatch (Seq (Plus (one_of "<=>~"))
                       (Seq (Plus (one_of "0123456789.")) Eos))
                  s' (fun rest => Some rest)).
  assert (K : forall t,
             all_chars is_not_operator t = true -> version_part t = None).
  { intros [|c t] Ht; [reflexivity|].
    cbn [all_chars] in Ht. apply andb_true_iff in Ht.
    destruct Ht as [Hc _]. apply negb_true_iff in Hc.
    unfold version_part. rewrite rmatch_seq, rmatch_plus.
    fold is_operator. now rewrite Hc. }
  assert (K2 : forall t,
             all_chars is_not_operator t = true ->
             rmatch (Class (is_char "]")) t version_part = None).
  { intros t Ht. rewrite rmatch_class_at.
    destruct t as [|c t]; [reflexivity|].
    destruct (is_char "]" c); [|reflexivity].
    apply K. exact (all_chars_tail _ _ _ Ht). }
  unfold match_here, suffix_re. rewrite rmatch_seq. fold version_part.
  rewrite rmatch_opt, (K s H).
  rewrite rmatch_seq, rmatch_class_at.
  destruct s as [|c s]; [reflexivity|].
  destruct (is_char "[" c); [|reflexivity].
  rewrite rmatch_seq, rmatch_plus.
  apply all_chars_tail in H.
  destruct s as [|c' s]; [reflexivity|].
  destruct (negb (Ascii.eqb c' "]")); [|reflexivity].
  apply all_chars_tail in H.
  now rewrite (star_set_fails _ is_not_operator _ _ K2 H).
Qed.

Lemma re_sub_suffix_no_operator (s : string) :
  all_chars is_not_operator s = true ->
  re_sub_from suffix_re EmptyString 0 s = s.
Proof.
  induction s as [|c s IH]; [reflexivity|].
  intros H. cbn [re_sub_from]. rewrite (no_operator_no_match _ H).
  cbn [all_chars] in H. apply andb_true_iff in H. destruct H as [_ H].
  now rewrite (IH H).
Qed.

(** X14: a requirement in which none of the characters [<], [=], [>]
    and [~] occurs has no version suffix to strip: its stem is the
    requirement without its spaces, extras group included. *)
Theorem stem_without_operator (req : string) :
  all_chars is_not_operator req = true ->
  req_get_stem req = remove_spaces req.
Proof.
  intros H. unfold req_get_stem. rewrite re_sub_space. unfold re_sub.
  apply re_sub_suffix_no_operator. now apply all_chars_remove_spaces.
Qed.

(** X15: the stem is made of characters of the requirement -- whatever
    holds of every character of the requirement holds of every
    character of its stem -- and it has no space. *)
Theorem stem_characters (req : string) :
  all_chars is_not_space (req_get_stem req) = true
  /\ forall p : ascii -> bool,
      all_chars p req = true -> all_chars p (req_get_stem req) = true.
Proof.
  unfold req_get_stem. rewrite re_sub_space. unfold re_sub. split.
  - apply re_sub_from_all_chars, remove_spaces_no_space.
  - intros p H. now apply re_sub_from_all_chars, all_chars_remove_spaces.
Qed.

(** ** The command, lines 35-36 *)

(** X16: [pdm import] run from the command line resets the backend:
    [handle] calls [do_import] with the file name, the format and the
    options of the command line and with [reset_backend] at its default
    [True], so the converter receives the [dev] and [group] given on the
    command line, and a run that returns leaves [build-system] equal to
    [DEFAULT_BACKEND.build_system()], whatever the imported file
    declares. *)
Theorem handle_resets_backend (options : Options) (p : Project) :
  (forall key k converter,
      fst (select_format FORMATS (opt_filename options)
             (opt_format options) p) = inr key ->
      find (fun kc => String.eqb (fst kc) key) FORMATS
      = Some (k, converter) ->
      converted
        (snd (handle FORMATS DEFAULT_BACKEND resolve_interpreter str_of_item
                options p))
      = (converted p
         ++ [(key, opt_filename options,
              {| dev := opt_dev options; group := opt_group options |})])%list)
  /\ (forall p',
         handle FORMATS DEFAULT_BACKEND resolve_interpreter str_of_item
           options p = (inr tt, p') ->
         lookup "build-system" (pyproject p')
         = Some (VTable (build_system DEFAULT_BACKEND))).
Proof.
  unfold handle. split.
  - intros key k converter Hk Hf.
    pose proof (import_metadata_converted FORMATS (opt_filename options)
                  (opt_format options) (Some (namespace_of options))
                  key k converter p Hk Hf) as E.
    unfold do_import, bind at 1.
    destruct (import_metadata FORMATS (opt_filename options)
                (opt_format options) (Some (namespace_of options)) p)
      as [[e|buildsystem_data] p1]; cbn [snd] in E |- *.
    + exact E.
    + etransitivity; [|exact E].
      apply (finish_same_converted DEFAULT_BACKEND resolve_interpreter
               str_of_item true buildsystem_data p1).
  - intros p' H.
    unfold do_import in H.
    apply bind_ok_inv in H. destruct H as (bsd & p1 & _ & H).
    rewrite (bind_ok _ _ _ _ _
               (reconcile_reset DEFAULT_BACKEND str_of_item bsd p1)) in H.
    match type of H with
    | _ ?q = _ =>
        pose proof (finish_same_build_system resolve_interpreter q) as F
    end.
    rewrite H in F. unfold same_build_system in F. cbn [snd pyproject] in F.
    rewrite F. apply lookup_set_item_eq.
Qed.

End ImportCoverage.

(** ** The further properties on the sample installation *)

Lemma format_not_detected_witness :
  Sample.do_import "requirements.txt" None None true Sample.empty
  = (inl (PdmUsageError msg_no_format), Sample.empty).
Proof.
  apply (format_not_detected Sample.FORMATS Sample.DEFAULT_BACKEND
           Sample.resolve_interpreter Sample.str_of_item
           "requirements.txt" None None true Sample.empty);
    [reflexivity|].
  intros key converter [H|[H|[]]]; inversion H; reflexivity.
Defined.

Lemma format_detection_first_match_witness :
  exists before converter after,
    Sample.FORMATS = (before ++ ("setuppy", converter) :: after)%list
    /\ check_fingerprint converter Sample.empty "setup.py" = true
    /\ forall k c,
        In (k, c) before -> check_fingerprint c Sample.empty "setup.py" = false.
Proof.
  exact (proj2
           (format_detection_first_match Sample.FORMATS "setup.py" None
              Sample.empty Sample.empty "setuppy" eq_refl eq_refl)).
Defined.

Lemma unknown_format_key_error_witness :
  Sample.do_import "pyproject.toml" (Some "flit") None true Sample.empty
  = (inl (KeyError "flit"), Sample.empty).
Proof.
  apply (unknown_format_key_error Sample.FORMATS Sample.DEFAULT_BACKEND
           Sample.resolve_interpreter Sample.str_of_item
           "pyproject.toml" "f" "lit" None true Sample.empty).
  intros key converter [H|[H|[]]]; inversion H; discriminate.
Defined.

Lemma converter_error_propagates_witness :
  do_import Sample.FORMATS_with_broken Sample.DEFAULT_BACKEND
    Sample.resolve_interpreter Sample.str_of_item
    "broken.cfg" None None true Sample.setuptools_project
  = (inl (External "cannot parse broken.cfg"),
     {| pyproject := pyproject Sample.setuptools_project;
        echoed := [];
        converted :=
          [("broken", "broken.cfg", {| dev := false; group := None |})];
        resolved := []; written := [] |}).
Proof.
  exact (converter_error_propagates Sample.FORMATS_with_broken
           Sample.DEFAULT_BACKEND Sample.resolve_interpreter
           Sample.str_of_item "broken.cfg" None None true
           Sample.setuptools_project "broken" "broken" Sample.broken
           (External "cannot parse broken.cfg") eq_refl eq_refl eq_refl).
Defined.

Lemma extract_buildsystem_moves_witness :
  NoDup (keys Sample.setup_py_data)
  /\ lookup "build-backend" (fst (extract_buildsystem Sample.setup_py_data))
     = Some (VStr "setuptools.build_meta")
  /\ lookup "-build-backend" (snd (extract_buildsystem Sample.setup_py_data))
     = None
  /\ lookup "name" (snd (extract_buildsystem Sample.setup_py_data))
     = Some (VStr "pkg").
Proof.
  assert (U : NoDup (keys Sample.setup_py_data)).
  { repeat constructor; simpl; intuition discriminate. }
  split; [exact U|].
  destruct (extract_buildsystem_moves Sample.setup_py_data U)
    as (_ & B & _ & _ & N & K).
  split; [exact B|]. split; [exact N|].
  rewrite K by discriminate. reflexivity.
Defined.

Lemma legacy_build_normalised_witness :
  exists q' tool' pdm',
    normalize_build Sample.legacy_project = (inr tt, q')
    /\ lookup "tool" (pyproject q') = Some (VTable tool')
    /\ lookup "pdm" tool' = Some (VTable pdm')
    /\ lookup "build" pdm'
       = Some (VTable [Item "setup-script" (VStr "build.py");
                       Item "run-setuptools" (VBool true)])
    /\ lookup "version" pdm' = Some (VStr "1.0").
Proof.
  destruct (legacy_build_normalised Sample.legacy_project Sample.legacy_tool
              [Item "build" (VStr "build.py"); Item "version" (VStr "1.0")]
              eq_refl eq_refl) as [legacy _].
  destruct (legacy "build.py" eq_refl)
    as (q' & tool' & pdm' & R & T & P & B & K & _).
  exists q', tool', pdm'. repeat split; auto.
  rewrite K by discriminate. reflexivity.
Defined.

Lemma incomplete_build_system_raises_witness :
  fst (Sample.do_import "setup.py" None None false
         Sample.backend_without_requires)
  = inl (PdmUsageError msg_incomplete).
Proof.
  unfold Sample.do_import.
  rewrite (proj1
             (incomplete_build_system_raises Sample.FORMATS
                Sample.DEFAULT_BACKEND Sample.resolve_interpreter
                Sample.str_of_item "setup.py" None None
                Sample.backend_without_requires
                (snd (import_metadata Sample.FORMATS "setup.py" None None
                        Sample.backend_without_requires))
                Sample.setup_py_buildsystem
                [Item "build-backend" (VStr "flit_core.buildapi")]
                (VStr "setuptools.build_meta")
                (VList (map VStr Sample.setup_py_requires))
                eq_refl eq_refl (or_introl eq_refl) eq_refl eq_refl)).
  reflexivity.
Defined.

Lemma partial_import_keeps_build_system_witness :
  lookup "build-system"
    (pyproject
       (snd (Sample.do_import "Pipfile" None None false Sample.flit_project)))
  = lookup "build-system" (pyproject Sample.flit_project).
Proof.
  exact (proj2
           (partial_import_keeps_build_system Sample.FORMATS
              Sample.DEFAULT_BACKEND Sample.resolve_interpreter
              Sample.str_of_item "Pipfile" None None Sample.flit_project
              (snd (import_metadata Sample.FORMATS "Pipfile" None None
                      Sample.flit_project))
              [Item "build-backend" (VStr "setuptools.build_meta")]
              (VTable [Item "requires" (VList [VStr "flit_core>=3.2"]);
                       Item "build-backend" (VStr "flit_core.buildapi")])
              eq_refl eq_refl (or_intror eq_refl))).
Defined.

Lemma written_once_at_the_end_witness :
  written Sample.empty_imported = [pyproject Sample.empty_imported].
Proof.
  exact (written_once_at_the_end Sample.FORMATS Sample.DEFAULT_BACKEND
           Sample.resolve_interpreter Sample.str_of_item
           "setup.py" None None true Sample.empty Sample.empty_imported
           (inr tt) eq_refl).
Defined.

Lemma scaffold_idempotent_witness :
  scaffold (snd (scaffold Sample.legacy_project))
  = (inr tt, snd (scaffold Sample.legacy_project)).
Proof.
  apply (scaffold_idempotent Sample.legacy_project). reflexivity.
Defined.

Lemma other_sections_untouched_witness :
  lookup "dependency-groups"
    (pyproject
       (snd (Sample.do_import "setup.py" None None true
               Sample.legacy_project)))
  = Some (VTable [Item "test" (VList [VStr "pytest"])]).
Proof.
  unfold Sample.do_import.
  rewrite (other_sections_untouched Sample.FORMATS Sample.DEFAULT_BACKEND
             Sample.resolve_interpreter Sample.str_of_item
             "dependency-groups")
    by discriminate.
  reflexivity.
Defined.

Lemma other_tools_untouched_witness :
  exists tool',
    lookup "tool"
      (pyproject
         (snd (Sample.do_import "setup.py" None None true
                 Sample.legacy_project)))
    = Some (VTable tool')
    /\ lookup "black" tool'
       = Some (VTable [Item "line-length" (VInt 100)]).
Proof.
  destruct (other_tools_untouched Sample.FORMATS Sample.DEFAULT_BACKEND
              Sample.resolve_interpreter Sample.str_of_item
              "setup.py" None None true Sample.legacy_project
              Sample.legacy_tool eq_refl) as (tool' & T & K).
  exists tool'. split; [exact T|].
  rewrite K by discriminate. reflexivity.
Defined.

Lemma stem_without_operator_witness :
  req_get_stem "foo [extra]" = "foo[extra]".
Proof.
  exact (stem_without_operator "foo [extra]" eq_refl).
Defined.

Lemma stem_characters_witness :
  all_chars (fun c => negb (Ascii.eqb c ";"))
            (req_get_stem "foo [extra] >= 1.0")
  = true.
Proof.
  exact (proj2 (stem_characters "foo [extra] >= 1.0")
           (fun c => negb (Ascii.eqb c ";")) eq_refl).
Defined.

Lemma handle_resets_backend_witness :
  lookup "build-system" (pyproject Sample.empty_imported)
  = Some (VTable (build_system Sample.DEFAULT_BACKEND)).
Proof.
  exact (proj2
           (handle_resets_backend Sample.FORMATS Sample.DEFAULT_BACKEND
              Sample.resolve_interpreter Sample.str_of_item
              {| opt_dev := false; opt_group := None; opt_format := None;
                 opt_filename := "setup.py" |}
              Sample.empty)
           Sample.empty_imported eq_refl).
Defined.

Lemma branch_c_nothing_new_witness :
  reconcile_build_system Sample.DEFAULT_BACKEND Sample.str_of_item false
    [Item "build-requires" (VList (map VStr ["setuptools >= 40"]));
     Item "build-backend" (VStr "setuptools.build_meta")]
    Sample.setuptools_project
  = (inr tt, Sample.setuptools_project).
Proof.
  apply (branch_c_nothing_new Sample.DEFAULT_BACKEND Sample.str_of_item
           [Item "build-requires" (VList (map VStr ["setuptools >= 40"]));
            Item "build-backend" (VStr "setuptools.build_meta")]
           [Item "requires" (VList [VStr "setuptools>=61"; VStr "wheel"]);
            Item "build-backend" (VStr "setuptools.build_meta")]
           ["setuptools>=61"; "wheel"] ["setuptools >= 40"]
           "setuptools.build_meta");
    try reflexivity.
  intros build_req [<-|[]]. exists "setuptools>=61".
  split; [now left|reflexivity].
Defined.
